(** * Gerber-Api: the conversion pipeline of [src/main.py] and its variants

    A shallow embedding of the FastAPI handlers that turn a zip archive of
    Gerber layer files into raster images: layer classification
    ([process_gerber_files]), the pixel-to-millimetre conversion
    ([pixels_to_mm]), the conversion handler ([convert_gerber]) and the two
    read handlers ([get_image], [list_images]), over an explicit model of the
    process-wide [OUTPUT_DIR] pointer and of the file system it points into.

    Python exceptions are values of an error monad; the global variable and
    the file system are threaded through the handlers as an explicit state;
    the rendering engine (pygerber), the zip reader and the UTF-8 decoder are
    capabilities the handlers are parametrised over. *)

From Stdlib Require Import Ascii String QArith Qround Qabs.
From stdpp Require Import base strings list gmap.

Set Warnings "-register-all".
#[local] Open Scope string_scope.
#[local] Open Scope Z_scope.

(** ** Python string primitives *)

Module PyStr.

(** [s.endswith(suffix)]: some tail of [s] is [suffix]. *)
Fixpoint endswith (s suffix : string) : bool :=
  String.eqb s suffix ||
  match s with
  | EmptyString => false
  | String _ s' => endswith s' suffix
  end.

(** [s.startswith(p)]. *)
Definition startswith (s p : string) : bool := String.prefix p s.

(** [needle in s]: [needle] starts at some position of [s]. *)
Fixpoint contains (needle s : string) : bool :=
  String.prefix needle s ||
  match s with
  | EmptyString => false
  | String _ s' => contains needle s'
  end.

(** [s.split(sep)] for a one-character separator: always at least one
    field, empty fields kept. *)
Fixpoint split (sep : ascii) (s : string) : list string :=
  match s with
  | EmptyString => [EmptyString]
  | String c s' =>
      if Ascii.eqb c sep then EmptyString :: split sep s'
      else match split sep s' with
           | [] => [String c EmptyString]
           | w :: ws => String c w :: ws
           end
  end.


End PyStr.

(** ** Exceptions and the error monad *)

(** An exception value, reduced to what the handlers observe: whether
    [except ValueError] catches it, and its [str(e)]. *)
Record exn := Exn { isinstance_ValueError : bool; str : string }.

Definition ValueError (msg : string) : exn := Exn true msg.
(** [UnicodeDecodeError] is a subclass of [ValueError]. *)
Definition UnicodeDecodeError (msg : string) : exn := Exn true msg.
(** [zipfile.BadZipFile] derives from [Exception] directly. *)
Definition BadZipFile (msg : string) : exn := Exn false msg.
Definition ZeroDivisionError (msg : string) : exn := Exn false msg.
Definition OSError (msg : string) : exn := Exn false msg.

(** A computation that returns a value or raises. *)
Inductive M (A : Type) : Type :=
| Return (a : A)
| Raise (e : exn).
Arguments Return {A} a.
Arguments Raise {A} e.

Definition bind {A B} (m : M A) (k : A -> M B) : M B :=
  match m with
  | Return a => k a
  | Raise e => Raise e
  end.

Notation "'let!' x ':=' m 'in' k" := (bind m (fun x => k))
  (at level 10, x name, m at level 100, k at level 200).
Notation "'let!' ' p ':=' m 'in' k" :=
  (bind m (fun x => match x with p => k end))
  (at level 10, p pattern, m at level 100, k at level 200).

(** [[f(x) for x in xs]]: left to right, the first exception aborts. *)
Fixpoint mapM {A B} (f : A -> M B) (xs : list A) : M (list B) :=
  match xs with
  | [] => Return []
  | x :: xs' =>
      let! y := f x in
      let! ys := mapM f xs' in
      Return (y :: ys)
  end.

(** ** Python arithmetic *)

Module PyNum.

(** [a / b] on integers: true division, [ZeroDivisionError] on [b = 0].
    The quotient is kept as an exact rational; CPython computes it in
    binary64, which rounds to the same integer as long as the operands
    stay below 2^53 (the quotient of integers by [b] is either a tie or
    at least 1/(2b) away from one). *)
Definition truediv (a b : Z) : M Q :=
  if b =? 0 then Raise (ZeroDivisionError "division by zero")
  else Return (inject_Z a / inject_Z b)%Q.

(** [round(x)] with one argument: the nearest integer, ties to the even
    one (Python 3). *)
Definition round (x : Q) : Z :=
  let f := Qfloor x in
  match (x - inject_Z f ?= 1 # 2)%Q with
  | Lt => f
  | Gt => f + 1
  | Eq => if Z.even f then f else f + 1
  end.

(** [2 ** e] for an integer [e]. *)
Definition pow2 (e : Z) : Q :=
  if 0 <=? e then inject_Z (2 ^ e) else (1 / inject_Z (2 ^ (- e)))%Q.

(** The integer [e] with [2 ** e <= x < 2 ** (e + 1)], for [x > 0]. *)
Definition ilog2 (x : Q) : Z :=
  let e := Z.log2 (Qnum x) - Z.log2 (Z.pos (Qden x)) in
  if Qle_bool (pow2 e) x then e else e - 1.

(** The binary64 number nearest to [x]: a significand of 53 bits, ties
    to the even one (the normal range, where the quotients of pixel
    counts lie). *)
Definition binary64 (x : Q) : Q :=
  match Qnum x with
  | 0 => 0%Q
  | _ =>
      let u := pow2 (ilog2 (Qabs x) - 52) in
      let m := round (Qabs x / u) in
      (if Qnum x <? 0 then - (inject_Z m * u) else inject_Z m * u)%Q
  end.

(** [round(x, 2)] where [x] is the exact quotient that CPython holds as
    the double next to it: the multiple of 1/100 nearest to the double.
    Away from a decimal tie that is the multiple nearest to [x] (the
    error of the double is far below the distance of the quotient of a
    pixel count to the next tie); at a tie the side of [x] the double
    lies on decides, and a tie that is itself a double goes to the even
    multiple. *)
Definition round2 (x : Q) : Q :=
  let y := (x * 100)%Q in
  let f := Qfloor y in
  let n :=
    match (y - inject_Z f ?= 1 # 2)%Q with
    | Lt => f
    | Gt => f + 1
    | Eq =>
        match (binary64 x ?= x)%Q with
        | Lt => f
        | Gt => f + 1
        | Eq => if Z.even f then f else f + 1
        end
    end in
  (inject_Z n / 100)%Q.

(** [x < y] on numbers. *)
Definition lt (x y : Q) : bool :=
  match (x ?= y)%Q with
  | Lt => true
  | _ => false
  end.

End PyNum.

(** ** The file system the handlers see *)

Module FS.

(** What PIL reads from a raster file: [img.width] and [img.height]. *)
Record image := Image { width_px : Z; height_px : Z }.

(** A regular file (with the raster PIL identifies in it, if any) or a
    directory. The whole file system is its root node. *)
Inductive node :=
| File (raster : option image)
| Dir (children : gmap string node).

(** A location: the component names from the root. *)
Definition path := list string.

Fixpoint lookup (t : node) (p : path) : option node :=
  match p with
  | [] => Some t
  | c :: p' =>
      match t with
      | Dir m => match m !! c with Some t' => lookup t' p' | None => None end
      | File _ => None
      end
  end.

Definition is_dir (t : node) (p : path) : bool :=
  match lookup t p with
  | Some (Dir _) => true
  | _ => false
  end.

(** Create or replace the node at [p]; the parent has to be an existing
    directory. *)
Fixpoint store (t : node) (p : path) (v : node) : option node :=
  match p with
  | [] => None
  | c :: p' =>
      match t with
      | File _ => None
      | Dir m =>
          match p' with
          | [] => Some (Dir (<[c := v]> m))
          | _ :: _ =>
              match m !! c with
              | Some t' =>
                  match store t' p' v with
                  | Some t'' => Some (Dir (<[c := t'']> m))
                  | None => None
                  end
              | None => None
              end
          end
      end
  end.

(** One step of POSIX path resolution (no symbolic links): the location
    reached so far has to be a directory; an empty component and [.] stay,
    [..] goes to the parent (the root is its own parent). *)
Definition walk (t : node) (cur : option path) (c : string) : option path :=
  match cur with
  | None => None
  | Some q =>
      if is_dir t q then
        if String.eqb c "" || String.eqb c "." then Some q
        else if String.eqb c ".." then Some (removelast q)
        else Some (q ++ [c])%list
      else None
  end.

(** The location an absolute path string names, when every directory on
    the way exists; the location itself need not exist. The handlers only
    build absolute paths: relative ones are not resolved. *)
Definition resolve (t : node) (p : string) : option path :=
  if PyStr.startswith p "/"
  then fold_left (walk t) (PyStr.split "/" p) (Some [])
  else None.

(** [os.path.join(a, b)] of [posixpath]. *)
Definition os_path_join (a b : string) : string :=
  if PyStr.startswith b "/" then b
  else if String.eqb a "" || PyStr.endswith a "/" then a +:+ b
  else a +:+ "/" +:+ b.

(** [os.path.exists(p)]. *)
Definition os_path_exists (t : node) (p : string) : bool :=
  match resolve t p with
  | Some q => match lookup t q with Some _ => true | None => false end
  | None => false
  end.

(** [os.listdir(p)], in the order of the directory map. *)
Definition os_listdir (t : node) (p : string) : M (list string) :=
  match resolve t p with
  | Some q =>
      match lookup t q with
      | Some (Dir m) => Return (map fst (map_to_list m))
      | Some (File _) => Raise (OSError "Not a directory")
      | None => Raise (OSError "No such file or directory")
      end
  | None => Raise (OSError "No such file or directory")
  end.

(** [Image.open(p)]: the raster stored at [p]. *)
Definition Image_open (t : node) (p : string) : M image :=
  match resolve t p with
  | Some q =>
      match lookup t q with
      | Some (File (Some img)) => Return img
      | Some (File None) => Raise (OSError "cannot identify image file")
      | Some (Dir _) => Raise (OSError "Is a directory")
      | None => Raise (OSError "No such file or directory")
      end
  | None => Raise (OSError "No such file or directory")
  end.

(** Writing a raster file at [p]: creates the file or replaces a file
    that is there. *)
Definition write_raster (t : node) (p : string) (img : image) : M node :=
  match resolve t p with
  | Some q =>
      match lookup t q with
      | Some (Dir _) => Raise (OSError "Is a directory")
      | _ =>
          match store t q (File (Some img)) with
          | Some t' => Return t'
          | None => Raise (OSError "No such file or directory")
          end
      end
  | None => Raise (OSError "No such file or directory")
  end.

(** [tempfile.gettempdir()]. *)
Definition gettempdir : string := "/tmp".

(** [tempfile.mkdtemp()] when the random name it draws is [name]: a new,
    empty directory of that name under the temporary directory; the
    absolute path of the directory is returned. When the name is taken the
    library draws again; here the draw is an input, and a taken name
    raises as the library does once it runs out of candidates. *)
Definition mkdtemp (t : node) (name : string) : M (string * node) :=
  let d := os_path_join gettempdir name in
  match resolve t d with
  | Some q =>
      match lookup t q with
      | Some _ => Raise (OSError "No usable temporary directory name found")
      | None =>
          match store t q (Dir ∅) with
          | Some t' => Return (d, t')
          | None => Raise (OSError "No such file or directory")
          end
      end
  | None => Raise (OSError "No such file or directory")
  end.

(** A name that is one path component and names an entry: no slash, and
    none of the empty name, [.] and [..]. The names [mkdtemp] draws and
    the artifact names of the handlers are of this kind. *)
Definition plain (n : string) : bool :=
  negb (PyStr.contains "/" n) &&
  negb (String.eqb n "") && negb (String.eqb n ".") && negb (String.eqb n "..").

(** The tree without the entry at [p] and all that is below it; the
    entry has to exist. *)
Fixpoint remove (t : node) (p : path) : option node :=
  match p with
  | [] => None
  | c :: p' =>
      match t with
      | File _ => None
      | Dir m =>
          match m !! c with
          | Some t' =>
              match p' with
              | [] => Some (Dir (delete c m))
              | _ :: _ =>
                  match remove t' p' with
                  | Some t'' => Some (Dir (<[c := t'']> m))
                  | None => None
                  end
              end
          | None => None
          end
      end
  end.

(** [os.path.isfile(p)]. *)
Definition os_path_isfile (t : node) (p : string) : bool :=
  match resolve t p with
  | Some q => match lookup t q with Some (File _) => true | _ => false end
  | None => false
  end.

(** [os.path.basename(p)]: what follows the last slash. *)
Definition os_path_basename (p : string) : string :=
  List.last (PyStr.split "/" p) "".

(** [os.remove(p)]: unlinks a regular file. *)
Definition os_remove (t : node) (p : string) : M node :=
  match resolve t p with
  | Some q =>
      match lookup t q with
      | Some (File _) =>
          match remove t q with
          | Some t' => Return t'
          | None => Raise (OSError "No such file or directory")
          end
      | Some (Dir _) => Raise (OSError "Is a directory")
      | None => Raise (OSError "No such file or directory")
      end
  | None => Raise (OSError "No such file or directory")
  end.

(** [shutil.rmtree(p, ignore_errors=True)]: removes the directory at [p]
    with its content; when [p] is missing or is no directory the error
    is ignored and nothing changes. *)
Definition rmtree_ignore_errors (t : node) (p : string) : node :=
  match resolve t p with
  | Some q =>
      match lookup t q with
      | Some (Dir _) =>
          match remove t q with
          | Some t' => t'
          | None => t
          end
      | _ => t
      end
  | None => t
  end.

(** Leaving [with tempfile.TemporaryDirectory() as d]: the directory is
    removed with its content; a directory that is already gone is
    passed over, anything else there raises. *)
Definition TemporaryDirectory_cleanup (t : node) (d : string) : M node :=
  match resolve t d with
  | Some q =>
      match lookup t q with
      | Some (Dir _) =>
          match remove t q with
          | Some t' => Return t'
          | None => Raise (OSError "Cannot remove the temporary directory")
          end
      | Some (File _) => Raise (OSError "Not a directory")
      | None => Return t
      end
  | None => Return t
  end.

End FS.

(** ** The archive reader and the external capabilities *)

Definition bytes := list Byte.byte.

Module Zip.

(** An opened archive: its members in directory order, each with its
    name and with what reading it gives: the payload, or the exception
    the reader raises on that member ([BadZipFile] for a checksum or a
    local header that does not match, [RuntimeError] for an encrypted
    member, [NotImplementedError] for a compression method the reader
    lacks). *)
Record ZipFile := { entries : list (string * M bytes) }.

(** [zip_file.namelist()]: every entry name, duplicates included. *)
Definition namelist (z : ZipFile) : list string := map fst (entries z).

(** [zip_file.read(name)]: [KeyError] when no member has that name,
    else what reading the last member of that name gives. *)
Definition read (z : ZipFile) (name : string) : M bytes :=
  match find (fun e => String.eqb (fst e) name) (rev (entries z)) with
  | Some e => snd e
  | None => Raise (Exn false "There is no item named that in the archive")
  end.

End Zip.

(** What the handlers take from the libraries around them: opening a
    byte buffer as a zip container ([zipfile.ZipFile(BytesIO(content))]),
    decoding a payload ([bytes.decode()]), and the rendering engine
    ([Project(files).parse().render_raster(path, dpmm=...)], as the raster
    it writes for the given layer sources, or the exception it raises
    without writing). *)
Class Externals := {
  ZipFile_open : bytes -> M Zip.ZipFile;
  bytes_decode : bytes -> M string;
  render_raster : list string -> Z -> M FS.image
}.

(** ** HTTP values *)

Record UploadFile := { filename : string; content : bytes }.

(** One element of ["available_images"]. *)
Record image_entry := { name : string; width : Z; height : Z }.

Inductive response :=
| JSONResponse (message : option string) (available_images : list image_entry)
               (average_dimensions : option (Z * Z))
| FileResponse (path : string) (media_type : string) (file_name : string)
| HTTPException (status_code : Z) (detail : string)
| Uncaught (e : exn).

(** The status line of a response; an exception that escapes a handler is
    answered with 500 by the framework. *)
Definition status (r : response) : Z :=
  match r with
  | JSONResponse _ _ _ => 200
  | FileResponse _ _ _ => 200
  | HTTPException s _ => s
  | Uncaught _ => 500
  end.

(** Constant for dots per millimeter (the same in every file). *)
Definition DPMM : Z := 40.

(** ** [src/main.py] *)

Module Main.

(** The process state: the global [OUTPUT_DIR] and the file system.
    [render_log] is a ghost trace of the output paths of the render jobs
    started so far, oldest first. *)
Record state := {
  OUTPUT_DIR : option string;
  fs : FS.node;
  render_log : list string
}.

(** Lines 20-21. *)
Definition pixels_to_mm (pixels : Z) : M Z :=
  let! q := PyNum.truediv pixels DPMM in
  Return (PyNum.round q).

(** Lines 27-32, one iteration of the loop over [namelist()]. *)
Definition classify_step (acc : list string * list string) (file_name : string)
  : list string * list string :=
  let '(top_layer_files, bottom_layer_files) := acc in
  if PyStr.endswith file_name ".gbr" then
    if PyStr.contains "Top" file_name
    then ((top_layer_files ++ [file_name])%list, bottom_layer_files)
    else (top_layer_files, (bottom_layer_files ++ [file_name])%list)
  else acc.

(** Lines 24-32. *)
Definition classify (names : list string) : list string * list string :=
  fold_left classify_step names ([], []).

(** [round(total / image_count) if image_count > 0 else 0],
    lines 115-116 and 169-170. *)
Definition average (total image_count : Z) : M Z :=
  if 0 <? image_count
  then let! q := PyNum.truediv total image_count in Return (PyNum.round q)
  else Return 0.

(** The accumulators of the measuring code: [available_images],
    [total_width_mm], [total_height_mm], [image_count]. *)
Definition tally : Type := list image_entry * Z * Z * Z.

(** Lines 89-99 (and 102-112, 157-167): open the image, convert, append,
    add. *)
Definition measure (t : FS.node) (image_path entry_name : string) (acc : tally)
  : M tally :=
  let '(available_images, total_width_mm, total_height_mm, image_count) := acc in
  let! img := FS.Image_open t image_path in
  let! width_mm := pixels_to_mm (FS.width_px img) in
  let! height_mm := pixels_to_mm (FS.height_px img) in
  Return ((available_images ++ [{| name := entry_name; width := width_mm;
                                   height := height_mm |}])%list,
          total_width_mm + width_mm, total_height_mm + height_mm,
          image_count + 1).

(** [if os.path.exists(p): with Image.open(p) ...]. *)
Definition measure_if_exists (t : FS.node) (image_path entry_name : string)
  (acc : tally) : M tally :=
  if FS.os_path_exists t image_path then measure t image_path entry_name acc
  else Return acc.

(** Lines 115-125 and 169-178: the averages and the JSON body. *)
Definition report (message : option string) (acc : tally) : M response :=
  let '(available_images, total_width_mm, total_height_mm, image_count) := acc in
  let! avg_width_mm := average total_width_mm image_count in
  let! avg_height_mm := average total_height_mm image_count in
  Return (JSONResponse message available_images
            (Some (avg_width_mm, avg_height_mm))).

(** Lines 127-130: the two [except] clauses. *)
Definition handle (e : exn) : response :=
  if isinstance_ValueError e then HTTPException 400 (str e)
  else HTTPException 500 ("An error occurred: " +:+ str e).

(** [if not OUTPUT_DIR]: [None] and the empty string are false. *)
Definition truthy (d : option string) : option string :=
  match d with
  | Some s => if String.eqb s "" then None else Some s
  | None => None
  end.

Section Handlers.
Context {ext : Externals}.

(** Lines 37-43 (and 45-51): [None] for an empty name list, else the
    project of the decoded sources, read in list order. *)
Definition load_project (zip_file : Zip.ZipFile) (layer_files : list string)
  : M (option (list string)) :=
  match layer_files with
  | [] => Return None
  | _ :: _ =>
      let! sources :=
        mapM (fun file_name =>
                let! raw := Zip.read zip_file file_name in bytes_decode raw)
             layer_files in
      Return (Some sources)
  end.

(** Lines 23-53. *)
Definition process_gerber_files (zip_file : Zip.ZipFile)
  : M (option (list string) * option (list string)) :=
  let '(top_layer_files, bottom_layer_files) :=
    classify (Zip.namelist zip_file) in
  match top_layer_files, bottom_layer_files with
  | [], [] => Raise (ValueError "No valid Gerber files found in the ZIP file")
  | _, _ =>
      let! top_project := load_project zip_file top_layer_files in
      let! bottom_project := load_project zip_file bottom_layer_files in
      Return (top_project, bottom_project)
  end.

(** Lines 77-78 (and 79-80): [if project: project.parse().render_raster(...)].
    The job is logged when it starts; the file appears only when the
    engine returns. *)
Definition render_side (project : option (list string)) (output : string)
  (st : state) : M unit * state :=
  match project with
  | None => (Return tt, st)
  | Some sources =>
      let st1 := {| OUTPUT_DIR := OUTPUT_DIR st; fs := fs st;
                    render_log := (render_log st ++ [output])%list |} in
      match render_raster sources DPMM with
      | Raise e => (Raise e, st1)
      | Return img =>
          match FS.write_raster (fs st1) output img with
          | Raise e => (Raise e, st1)
          | Return t' =>
              (Return tt, {| OUTPUT_DIR := OUTPUT_DIR st1; fs := t';
                             render_log := render_log st1 |})
          end
      end
  end.

(** Lines 57-62: the filename gate, then the global pointer is replaced
    by a new temporary directory. [None] means the handler goes on. *)
Definition convert_begin (tmp : string) (file : UploadFile) (st : state)
  : option response * state :=
  if negb (PyStr.endswith (filename file) ".zip")
  then (Some (HTTPException 400 "Uploaded file must be a ZIP file"), st)
  else
    match FS.mkdtemp (fs st) tmp with
    | Raise e => (Some (Uncaught e), st)
    | Return (d, t') =>
        (None, {| OUTPUT_DIR := Some d; fs := t'; render_log := render_log st |})
    end.

(** Lines 66-125, the body of the [try]; it resumes after
    [await file.read()] and reads the global [OUTPUT_DIR] then. *)
Definition convert_try (file : UploadFile) (st : state) : M response * state :=
  match (let! zip_file := ZipFile_open (content file) in
         process_gerber_files zip_file) with
  | Raise e => (Raise e, st)
  | Return (top_project, bottom_project) =>
      match OUTPUT_DIR st with
      | None => (Raise (Exn false "expected str, bytes or os.PathLike object"), st)
      | Some d =>
          let output_top := FS.os_path_join d "output_top.png" in
          let output_bottom := FS.os_path_join d "output_bottom.png" in
          match render_side top_project output_top st with
          | (Raise e, st1) => (Raise e, st1)
          | (Return _, st1) =>
              match render_side bottom_project output_bottom st1 with
              | (Raise e, st2) => (Raise e, st2)
              | (Return _, st2) =>
                  (let! acc := measure_if_exists (fs st2) output_top
                                 "output_top.png" ([], 0, 0, 0) in
                   let! acc := measure_if_exists (fs st2) output_bottom
                                 "output_bottom.png" acc in
                   report (Some "Gerber files processed successfully") acc,
                   st2)
              end
          end
      end
  end.

(** Lines 64-130. *)
Definition convert_finish (file : UploadFile) (st : state) : response * state :=
  match convert_try file st with
  | (Return r, st') => (r, st')
  | (Raise e, st') => (handle e, st')
  end.

(** [POST /convert-gerber/], lines 55-130, run without interruption. *)
Definition convert_gerber (tmp : string) (file : UploadFile) (st : state)
  : response * state :=
  match convert_begin tmp file st with
  | (Some r, st') => (r, st')
  | (None, st') => convert_finish file st'
  end.

End Handlers.

(** [GET /images/{image_name}], lines 132-142. *)
Definition get_image (image_name : string) (st : state) : response :=
  match truthy (OUTPUT_DIR st) with
  | None =>
      HTTPException 404 "No images available. Please convert Gerber files first."
  | Some d =>
      let image_path := FS.os_path_join d image_name in
      if negb (FS.os_path_exists (fs st) image_path)
      then HTTPException 404 "Image not found"
      else FileResponse image_path "image/png" image_name
  end.



(** The loop of lines 155-167 over the directory listing. *)
Fixpoint list_loop (t : FS.node) (d : string) (names : list string) (acc : tally)
  : M tally :=
  match names with
  | [] => Return acc
  | f :: names' =>
      if PyStr.endswith f ".png" then
        let! acc' := measure t (FS.os_path_join d f) f acc in
        list_loop t d names' acc'
      else list_loop t d names' acc
  end.

(** [GET /list-images/], lines 144-178. No [try] here: an exception
    escapes the handler. *)
Definition list_images (st : state) : response :=
  match truthy (OUTPUT_DIR st) with
  | None => JSONResponse None [] None
  | Some d =>
      match (let! names := FS.os_listdir (fs st) d in
             let! acc := list_loop (fs st) d names ([], 0, 0, 0) in
             report None acc) with
      | Return r => r
      | Raise e => Uncaught e
      end
  end.

(** The shutdown hook, lines 180-184. *)
Definition cleanup (st : state) : state :=
  match truthy (OUTPUT_DIR st) with
  | Some d =>
      {| OUTPUT_DIR := OUTPUT_DIR st;
         fs := FS.rmtree_ignore_errors (fs st) d;
         render_log := render_log st |}
  | None => st
  end.

End Main.

(** ** [src/api.py] and [src/apii.py]

    The two files have the same handlers: the conversion answers with
    the names of the images only, and so does the listing. The layer
    classification, the filename gate and the render calls are those of
    [src/main.py], with the resolution written as the literal 40. *)

Module Api.

Inductive response :=
| JSONResponse (message : option string) (available_images : list string)
| FileResponse (path : string) (media_type : string) (file_name : string)
| HTTPException (status_code : Z) (detail : string)
| Uncaught (e : exn).

Definition status (r : response) : Z :=
  match r with
  | JSONResponse _ _ => 200
  | FileResponse _ _ _ => 200
  | HTTPException s _ => s
  | Uncaught _ => 500
  end.

(** The two [except] clauses, [src/api.py] lines 87-90. *)
Definition handle (e : exn) : response :=
  if isinstance_ValueError e then HTTPException 400 (str e)
  else HTTPException 500 ("An error occurred: " +:+ str e).

(** [if os.path.exists(p): available_images.append(name)],
    [src/api.py] lines 77-80. *)
Definition append_if_exists (t : FS.node) (image_path entry_name : string)
  (available_images : list string) : list string :=
  if FS.os_path_exists t image_path
  then (available_images ++ [entry_name])%list
  else available_images.

Section Handlers.
Context {ext : Externals}.

(** [src/api.py] lines 59-85, the body of the [try]. *)
Definition convert_try (file : UploadFile) (st : Main.state)
  : M response * Main.state :=
  match (let! zip_file := ZipFile_open (content file) in
         Main.process_gerber_files zip_file) with
  | Raise e => (Raise e, st)
  | Return (top_project, bottom_project) =>
      match Main.OUTPUT_DIR st with
      | None => (Raise (Exn false "expected str, bytes or os.PathLike object"), st)
      | Some d =>
          let output_top := FS.os_path_join d "output_top.png" in
          let output_bottom := FS.os_path_join d "output_bottom.png" in
          match Main.render_side top_project output_top st with
          | (Raise e, st1) => (Raise e, st1)
          | (Return _, st1) =>
              match Main.render_side bottom_project output_bottom st1 with
              | (Raise e, st2) => (Raise e, st2)
              | (Return _, st2) =>
                  (Return
                     (JSONResponse (Some "Gerber files processed successfully")
                        (append_if_exists (Main.fs st2) output_bottom
                           "output_bottom.png"
                           (append_if_exists (Main.fs st2) output_top
                              "output_top.png" []))),
                   st2)
              end
          end
      end
  end.

(** [POST /convert-gerber/], [src/api.py] lines 48-90. *)
Definition convert_gerber (tmp : string) (file : UploadFile) (st : Main.state)
  : response * Main.state :=
  if negb (PyStr.endswith (filename file) ".zip")
  then (HTTPException 400 "Uploaded file must be a ZIP file", st)
  else
    match FS.mkdtemp (Main.fs st) tmp with
    | Raise e => (Uncaught e, st)
    | Return (d, t') =>
        match convert_try file
                {| Main.OUTPUT_DIR := Some d; Main.fs := t';
                   Main.render_log := Main.render_log st |} with
        | (Return r, st') => (r, st')
        | (Raise e, st') => (handle e, st')
        end
    end.

End Handlers.

(** [GET /list-images/], [src/api.py] lines 104-111. *)
Definition list_images (st : Main.state) : response :=
  match Main.truthy (Main.OUTPUT_DIR st) with
  | None => JSONResponse None []
  | Some d =>
      match FS.os_listdir (Main.fs st) d with
      | Return names =>
          JSONResponse None (List.filter (fun f => PyStr.endswith f ".png") names)
      | Raise e => Uncaught e
      end
  end.

End Api.

(** ** The other definitions of [pixels_to_mm] *)

(** [src/api/main.py], lines 16-17. *)
Module ApiMain.
Definition pixels_to_mm (pixels : Z) : M Z :=
  let! q := PyNum.truediv pixels DPMM in
  Return (PyNum.round q).
(** Lines 82-94, one round of the loop over the two output paths. *)
Definition measure (t : FS.node) (output_file : string) (acc : Main.tally)
  : M Main.tally :=
  if FS.os_path_exists t output_file then
    let '(available_images, total_width_mm, total_height_mm, image_count) := acc in
    let! img := FS.Image_open t output_file in
    let! width_mm := pixels_to_mm (FS.width_px img) in
    let! height_mm := pixels_to_mm (FS.height_px img) in
    Return ((available_images ++
             [{| name := FS.os_path_basename output_file; width := width_mm;
                 height := height_mm |}])%list,
            total_width_mm + width_mm, total_height_mm + height_mm,
            image_count + 1)
  else Return acc.

Section Handlers.
Context {ext : Externals}.

(** Lines 71-72 (and 73-74): the render of one side into the request's
    own directory. *)
Definition render_side (project : option (list string)) (output : string)
  (t : FS.node) : M unit * FS.node :=
  match project with
  | None => (Return tt, t)
  | Some sources =>
      match render_raster sources DPMM with
      | Raise e => (Raise e, t)
      | Return img =>
          match FS.write_raster t output img with
          | Raise e => (Raise e, t)
          | Return t' => (Return tt, t')
          end
      end
  end.

(** Lines 59-107, the body of the [try]; [process_gerber_files] (lines
    19-49) has the text of [src/main.py]. *)
Definition convert_try (temp_dir : string) (file : UploadFile) (t : FS.node)
  : M response * FS.node :=
  match (let! zip_file := ZipFile_open (content file) in
         Main.process_gerber_files zip_file) with
  | Raise e => (Raise e, t)
  | Return (top_project, bottom_project) =>
      let output_top := FS.os_path_join temp_dir "output_top.png" in
      let output_bottom := FS.os_path_join temp_dir "output_bottom.png" in
      match render_side top_project output_top t with
      | (Raise e, t1) => (Raise e, t1)
      | (Return _, t1) =>
          match render_side bottom_project output_bottom t1 with
          | (Raise e, t2) => (Raise e, t2)
          | (Return _, t2) =>
              (let! acc := measure t2 output_top ([], 0, 0, 0) in
               let! acc := measure t2 output_bottom acc in
               Main.report (Some "Gerber files processed successfully") acc,
               t2)
          end
      end
  end.

(** [POST /api/convert-gerber/], lines 51-112: the directory is made on
    entering the [with] block and removed on leaving it, whether the
    body returned or raised. *)
Definition convert_gerber (tmp : string) (file : UploadFile) (t : FS.node)
  : response * FS.node :=
  if negb (PyStr.endswith (filename file) ".zip")
  then (HTTPException 400 "Uploaded file must be a ZIP file", t)
  else
    match FS.mkdtemp t tmp with
    | Raise e => (Uncaught e, t)
    | Return (temp_dir, t0) =>
        let '(m, t1) := convert_try temp_dir file t0 in
        let r := match m with Return r => r | Raise e => Main.handle e end in
        match FS.TemporaryDirectory_cleanup t1 temp_dir with
        | Return t2 => (r, t2)
        | Raise e => (Uncaught e, t1)
        end
    end.

End Handlers.

End ApiMain.

(** [src/api/mainn.py]. *)
Module ApiMainn.

(** Lines 21-22. *)
Definition pixels_to_mm (pixels : Z) : M Z :=
  let! q := PyNum.truediv pixels DPMM in
  Return (PyNum.round q).

(** Temporary storage directory, line 18. *)
Definition TEMP_DIR : string := "/tmp/gerber_images".

(** [GET /api/images/{image_name}], lines 131-140; the cleanup task is
    scheduled to run after the response. *)
Definition get_image (image_name : string) (t : FS.node) : response :=
  let image_path := FS.os_path_join TEMP_DIR image_name in
  if negb (FS.os_path_exists t image_path)
  then HTTPException 404 "Image not found"
  else FileResponse image_path "image/png" image_name.

(** One element of ["available_images"] of the conversion: the entry of
    [src/main.py] with the address of the image. *)
Record image_link := {
  link_name : string;
  link_width : Z;
  link_height : Z;
  link_url : string
}.

(** The JSON bodies of this file and what a handler ends in. [scheduled]
    tells whether the handler added [cleanup_old_files] to the
    background tasks, which run once the response is sent. *)
Inductive body :=
| Converted (message : string) (available_images : list image_link)
            (average_dimensions : Z * Z)
| Listing (available_images : list (string * string)).

Inductive reply :=
| Sent (b : body)
| Refused (status_code : Z) (detail : string)
| Escaped (e : exn).

Record outcome := { answer : reply; scheduled : bool; disk : FS.node }.

(** The accumulators of lines 90-93. *)
Definition tally : Type := list image_link * Z * Z * Z.

(** Lines 95-108, one round of the loop over the two output paths. *)
Definition measure (t : FS.node) (output_file : string) (acc : tally) : M tally :=
  if FS.os_path_exists t output_file then
    let '(available_images, total_width_mm, total_height_mm, image_count) := acc in
    let! img := FS.Image_open t output_file in
    let! width_mm := pixels_to_mm (FS.width_px img) in
    let! height_mm := pixels_to_mm (FS.height_px img) in
    Return ((available_images ++
             [{| link_name := FS.os_path_basename output_file;
                 link_width := width_mm; link_height := height_mm;
                 link_url := "/api/images/" +:+ FS.os_path_basename output_file
              |}])%list,
            total_width_mm + width_mm, total_height_mm + height_mm,
            image_count + 1)
  else Return acc.

(** The names of the two images of the conversion [unique_id],
    lines 80-81. *)
Definition top_name (unique_id : string) : string :=
  "output_top_" +:+ unique_id +:+ ".png".
Definition bottom_name (unique_id : string) : string :=
  "output_bottom_" +:+ unique_id +:+ ".png".

Section Handlers.
Context {ext : Externals}.

(** Lines 71-124, the body of the [try]; [unique_id] is the string of the
    UUID drawn at line 79. [process_gerber_files] (lines 24-54) and the
    render calls (lines 84-87) have the text of the other files. *)
Definition convert_try (unique_id : string) (file : UploadFile) (t : FS.node)
  : M (body * bool) * FS.node :=
  match (let! zip_file := ZipFile_open (content file) in
         Main.process_gerber_files zip_file) with
  | Raise e => (Raise e, t)
  | Return (top_project, bottom_project) =>
      let output_top := FS.os_path_join TEMP_DIR (top_name unique_id) in
      let output_bottom := FS.os_path_join TEMP_DIR (bottom_name unique_id) in
      match ApiMain.render_side top_project output_top t with
      | (Raise e, t1) => (Raise e, t1)
      | (Return _, t1) =>
          match ApiMain.render_side bottom_project output_bottom t1 with
          | (Raise e, t2) => (Raise e, t2)
          | (Return _, t2) =>
              (let! acc := measure t2 output_top ([], 0, 0, 0) in
               let! acc := measure t2 output_bottom acc in
               let '(available_images, total_width_mm, total_height_mm,
                     image_count) := acc in
               let! avg_width_mm := Main.average total_width_mm image_count in
               let! avg_height_mm := Main.average total_height_mm image_count in
               Return (Converted "Gerber files processed successfully"
                         available_images (avg_width_mm, avg_height_mm),
                       true),
               t2)
          end
      end
  end.

(** [POST /api/convert-gerber], lines 64-129. The temporary directory of
    line 69 is made and removed around the body and never written to.
    This is the handler as its body reads: the parameter list of line 65
    has a parameter without a default after one with a default, which
    the Python compiler refuses, so the file loads only once the two
    parameters are swapped. *)
Definition convert_gerber (tmp unique_id : string) (file : UploadFile)
  (t : FS.node) : outcome :=
  if negb (PyStr.endswith (filename file) ".zip")
  then {| answer := Refused 400 "Uploaded file must be a ZIP file";
          scheduled := false; disk := t |}
  else
    match FS.mkdtemp t tmp with
    | Raise e => {| answer := Escaped e; scheduled := false; disk := t |}
    | Return (temp_dir, t0) =>
        let '(m, t1) := convert_try unique_id file t0 in
        let '(r, s) :=
          match m with
          | Return (b, s) => (Sent b, s)
          | Raise e =>
              (if isinstance_ValueError e then Refused 400 (str e)
               else Refused 500 ("An error occurred: " +:+ str e), false)
          end in
        match FS.TemporaryDirectory_cleanup t1 temp_dir with
        | Return t2 => {| answer := r; scheduled := s; disk := t2 |}
        | Raise e => {| answer := Escaped e; scheduled := false; disk := t1 |}
        end
    end.

End Handlers.

(** Lines 58-62, one round of the loop of [cleanup_old_files]:
    [st_mtime] gives the modification time [os.stat] reports for a path,
    in seconds. *)
Definition cleanup_step (current_time : Q) (st_mtime : string -> Q)
  (t : FS.node) (file_name : string) : M FS.node :=
  let file_path := FS.os_path_join TEMP_DIR file_name in
  if FS.os_path_isfile t file_path then
    if PyNum.lt (st_mtime file_path) (current_time - 3600)%Q
    then FS.os_remove t file_path
    else Return t
  else Return t.

Fixpoint cleanup_loop (current_time : Q) (st_mtime : string -> Q)
  (t : FS.node) (names : list string) : M FS.node :=
  match names with
  | [] => Return t
  | file_name :: names' =>
      let! t' := cleanup_step current_time st_mtime t file_name in
      cleanup_loop current_time st_mtime t' names'
  end.

(** [cleanup_old_files], lines 56-62, run at the time [current_time]. The
    times are exact rationals; on binary64 the subtraction of an hour
    from a timestamp of this era is exact as well. *)
Definition cleanup_old_files (current_time : Q) (st_mtime : string -> Q)
  (t : FS.node) : M FS.node :=
  let! names := FS.os_listdir t TEMP_DIR in
  cleanup_loop current_time st_mtime t names.

(** [GET /api/list-images], lines 142-155. *)
Definition list_images (t : FS.node) : outcome :=
  match FS.os_listdir t TEMP_DIR with
  | Return names =>
      {| answer :=
           Sent (Listing
                   (map (fun file_name => (file_name, "/api/images/" +:+ file_name))
                      (List.filter (fun f => PyStr.endswith f ".png") names)));
         scheduled := true; disk := t |}
  | Raise e => {| answer := Escaped e; scheduled := false; disk := t |}
  end.

End ApiMainn.

(** [src/tempfiles/apii.py], lines 25-26: two decimal places, not an
    integer (0.03 for one pixel, 0.07 for three, 0.12 for five). *)
Module TempfilesApii.
Definition pixels_to_mm (pixels : Z) : M Q :=
  let! q := PyNum.truediv pixels DPMM in
  Return (PyNum.round2 q).
End TempfilesApii.

(** ** Vocabulary of the statements *)

(** [s] ends in [suffix]. *)
Definition ends_with (s suffix : string) : Prop :=
  exists pre, s = pre +:+ suffix.

(** [needle] occurs in [s] as a contiguous, case-sensitive substring. *)
Definition has_substring (needle s : string) : Prop :=
  exists pre post, s = pre +:+ needle +:+ post.

(** The test a name passes to enter the Top list, and the Bottom list. *)
Definition is_top (n : string) : bool :=
  PyStr.endswith n ".gbr" && PyStr.contains "Top" n.
Definition is_bottom (n : string) : bool :=
  PyStr.endswith n ".gbr" && negb (PyStr.contains "Top" n).

(** [r] is the integer nearest to [a / b], the even one of the two when
    [a / b] lies halfway between two integers (for [b > 0]). *)
Definition nearest_even (a b r : Z) : Prop :=
  2 * Z.abs (b * r - a) <= b /\
  (2 * Z.abs (b * r - a) = b -> Z.even r = true).

(** The file system in which the directory [/tmp/<tmp>] holds exactly the
    entries [c]; [m0] gives the other entries of the root and [m1] the
    other entries of [/tmp]. *)
Definition with_dir (m0 m1 : gmap string FS.node) (tmp : string)
  (c : gmap string FS.node) : FS.node :=
  FS.Dir (<["tmp" := FS.Dir (<[tmp := FS.Dir c]> m1)]> m0).

(** The path of the directory [mkdtemp] makes for the name [tmp]. *)
Definition tmp_path (tmp : string) : string := "/tmp/" +:+ tmp.

(** The process state in which [OUTPUT_DIR] is [/tmp/<tmp>] and that
    directory holds the entries [c]. *)
Definition in_dir (m0 m1 : gmap string FS.node) (tmp : string)
  (c : gmap string FS.node) (log : list string) : Main.state :=
  {| Main.OUTPUT_DIR := Some (tmp_path tmp);
     Main.fs := with_dir m0 m1 tmp c;
     Main.render_log := log |}.

(** The artifact names a conversion is to produce for the two name
    lists: one per non-empty list, top first. *)
Definition produced (top bottom : list string) : list string :=
  (match top with [] => [] | _ :: _ => ["output_top.png"] end ++
   match bottom with [] => [] | _ :: _ => ["output_bottom.png"] end)%list.


(** What the [try] of [convert_gerber] holds before the render calls
    (lines 66-70): the two projects, or the exception of opening the
    container, classifying, reading or decoding. *)
Definition loaded {ext : Externals} (file : UploadFile)
  : M (option (list string) * option (list string)) :=
  let! zip_file := ZipFile_open (content file) in
  Main.process_gerber_files zip_file.

(** The render job a conversion starts first: that of the top project,
    or that of the bottom project when there is no top one. *)
Definition first_job (top_project bottom_project : option (list string))
  : option (list string) :=
  match top_project with
  | Some sources => Some sources
  | None => bottom_project
  end.

(** The conversion of [file] fails before a render job has succeeded:
    nothing is loaded, or the first render job fails. *)
Definition fails_before_render {ext : Externals} (file : UploadFile) : Prop :=
  (exists e, loaded file = Raise e) \/
  (exists top_project bottom_project sources e,
     loaded file = Return (top_project, bottom_project) /\
     first_job top_project bottom_project = Some sources /\
     render_raster sources DPMM = Raise e).

(** The top render of the conversion of [file] succeeds, with the
    raster [img], and its bottom render fails. *)
Definition fails_after_top {ext : Externals} (file : UploadFile)
  (img : FS.image) : Prop :=
  exists top_sources bottom_sources e,
    loaded file = Return (Some top_sources, Some bottom_sources) /\
    render_raster top_sources DPMM = Return img /\
    render_raster bottom_sources DPMM = Raise e.

(** ** A concrete environment

    A small instance of the external capabilities, on which the
    statements below are run: a buffer is a zip container when it starts
    with the two bytes [PK], its entry names are the comma-separated
    fields that follow and every payload is its entry name, except that
    a member whose name contains [crc] fails its checksum when it is
    read; the byte [0xff] does not decode; the engine rejects a source
    that contains [bad] and otherwise renders a raster as wide as 40
    times the number of sources and 200 pixels high. *)
Module Demo.

Definition raw (s : string) : bytes := list_byte_of_string s.

Definition member (n : string) : string * M bytes :=
  (n, if PyStr.contains "crc" n then Raise (BadZipFile "Bad CRC-32")
      else Return (raw n)).

Definition open (buf : bytes) : M Zip.ZipFile :=
  match buf with
  | Byte.x50 :: Byte.x4b :: rest =>
      Return {| Zip.entries :=
                  map member (PyStr.split "," (string_of_list_byte rest)) |}
  | _ => Raise (BadZipFile "File is not a zip file")
  end.

Definition decode (buf : bytes) : M string :=
  if existsb (Byte.eqb Byte.xff) buf
  then Raise (UnicodeDecodeError "invalid start byte")
  else Return (string_of_list_byte buf).

Definition render (sources : list string) (dpmm : Z) : M FS.image :=
  if existsb (PyStr.contains "bad") sources
  then Raise (Exn false "render failed")
  else Return (FS.Image (dpmm * Z.of_nat (length sources)) (dpmm * 5)).

Definition ext : Externals :=
  {| ZipFile_open := open; bytes_decode := decode; render_raster := render |}.

(** A freshly started process: no conversion yet; the file system has an
    empty [/tmp] and a file outside it. *)
Definition boot : Main.state :=
  {| Main.OUTPUT_DIR := None;
     Main.fs := FS.Dir {[ "tmp" := FS.Dir ∅;
                          "etc" := FS.Dir {[ "passwd" := FS.File None ]} ]};
     Main.render_log := [] |}.

Definition upload (file_name listing : string) : UploadFile :=
  {| filename := file_name; content := raw listing |}.

End Demo.

(** The entry the measuring code appends for the raster [img] stored
    under the name [n]. *)
Definition entry_of (n : string) (img : FS.image) : image_entry :=
  {| name := n;
     width := PyNum.round (inject_Z (FS.width_px img) / inject_Z DPMM);
     height := PyNum.round (inject_Z (FS.height_px img) / inject_Z DPMM) |}.

(** The accumulators after measuring the raster [o], if there is one. *)
Definition tally_add (n : string) (o : option FS.image) (acc : Main.tally)
  : Main.tally :=
  match o with
  | None => acc
  | Some img =>
      let '(images, tw, th, N) := acc in
      ((images ++ [entry_of n img])%list,
       tw + width (entry_of n img), th + height (entry_of n img), N + 1)
  end.

(** The output directory that holds the top raster [rt] and the bottom
    raster [rb], where there is one, and the tally of measuring it. *)
Definition put (n : string) (o : option FS.image) (c : gmap string FS.node)
  : gmap string FS.node :=
  match o with
  | Some img => <[n := FS.File (Some img)]> c
  | None => c
  end.

Definition dir_of (rt rb : option FS.image) : gmap string FS.node :=
  put "output_bottom.png" rb (put "output_top.png" rt ∅).

Definition tally_of (rt rb : option FS.image) : Main.tally :=
  tally_add "output_bottom.png" rb (tally_add "output_top.png" rt ([], 0, 0, 0)).

(** The two ways a request that reached the [try] ends: with the
    response of an [except] clause, or with the report of the rasters in
    its directory. *)
Definition ended (r : response) (rt rb : option FS.image) : Prop :=
  (exists e, r = Main.handle e) \/
  Main.report (Some "Gerber files processed successfully") (tally_of rt rb)
  = Return r.

(** What [cleanup_old_files] makes of the entry [v] named [n] of the
    shared directory: a regular file older than an hour goes, anything
    else stays. *)
Definition swept_entry (current_time : Q) (st_mtime : string -> Q)
  (n : string) (v : FS.node) : option FS.node :=
  match v with
  | FS.File _ =>
      if PyNum.lt (st_mtime (FS.os_path_join ApiMainn.TEMP_DIR n))
                  (current_time - 3600)%Q
      then None else Some v
  | FS.Dir _ => Some v
  end.

(** A disk with the shared directory of [src/api/mainn.py]: one image
    of an earlier conversion, last written at second 1000, and one
    subdirectory. *)
Module DemoShared.

Definition entries : gmap string FS.node :=
  <["output_top_old.png" := FS.File (Some (FS.Image 40 40))]>
    (<["notes" := FS.Dir ∅]> ∅).

Definition disk : FS.node := with_dir ∅ ∅ "gerber_images" entries.

Definition mtime (p : string) : Q :=
  if String.eqb p "/tmp/gerber_images/output_top_old.png" then 1000%Q
  else 9000%Q.

End DemoShared.

(** * Facts *)

(** ** Strings *)

Section StringFacts.

Lemma app_String (c : ascii) (a b : string) :
  String c a +:+ b = String c (a +:+ b).
Proof. reflexivity. Qed.

Lemma prefix_spec (p s : string) :
  String.prefix p s = true <-> exists post, s = p +:+ post.
Proof.
  revert s. induction p as [|a p IH]; intros [|b s]; simpl.
  - split; [exists ""; reflexivity | reflexivity].
  - split; [exists (String b s); reflexivity | reflexivity].
  - split; [discriminate | intros [post H]; discriminate].
  - destruct (ascii_dec a b) as [->|Hne].
    + rewrite IH. split; intros [post H]; exists post;
        rewrite app_String in *; congruence.
    + split; [discriminate | intros [post H]; rewrite app_String in H; congruence].
Qed.

Lemma endswith_spec (s suffix : string) :
  PyStr.endswith s suffix = true <-> exists pre, s = pre +:+ suffix.
Proof.
  induction s as [|c s IH]; cbn [PyStr.endswith].
  - rewrite orb_false_r, String.eqb_eq. split.
    + intros <-. exists "". reflexivity.
    + intros [pre H]. destruct pre; [exact H | discriminate].
  - rewrite orb_true_iff, String.eqb_eq, IH. split.
    + intros [<- | [pre ->]]; [exists ""; reflexivity | exists (String c pre); reflexivity].
    + intros [pre H]. destruct pre as [|c' pre].
      * left. exact H.
      * right. exists pre. rewrite app_String in H. congruence.
Qed.

Lemma contains_spec (needle s : string) :
  PyStr.contains needle s = true <-> exists pre post, s = pre +:+ needle +:+ post.
Proof.
  induction s as [|c s IH]; cbn [PyStr.contains].
  - rewrite orb_false_r, prefix_spec. split.
    + intros [post H]. exists "", post. exact H.
    + intros [pre [post H]]. destruct pre; [eauto | discriminate].
  - rewrite orb_true_iff, prefix_spec, IH. split.
    + intros [[post H] | [pre [post ->]]].
      * exists "", post. exact H.
      * exists (String c pre), post. reflexivity.
    + intros [pre [post H]]. destruct pre as [|c' pre].
      * left. eauto.
      * right. exists pre, post. rewrite app_String in H. congruence.
Qed.

End StringFacts.

(** ** Layer classification *)

Section Classification.

Lemma classify_fold (names top bottom : list string) :
  fold_left Main.classify_step names (top, bottom) =
  ((top ++ List.filter is_top names)%list,
   (bottom ++ List.filter is_bottom names)%list).
Proof.
  revert top bottom. induction names as [|n names IH]; intros top bottom.
  - simpl. rewrite !app_nil_r. reflexivity.
  - cbn [fold_left List.filter]. unfold Main.classify_step at 2.
    unfold is_top, is_bottom.
    destruct (PyStr.endswith n ".gbr"), (PyStr.contains "Top" n); cbn [andb negb];
      rewrite IH, <- ?app_assoc; reflexivity.
Qed.

Lemma classify_filter (names : list string) :
  Main.classify names = (List.filter is_top names, List.filter is_bottom names).
Proof. unfold Main.classify. rewrite classify_fold. reflexivity. Qed.

Lemma filter_sides_perm (names : list string) :
  Permutation (List.filter is_top names ++ List.filter is_bottom names)
              (List.filter (fun n => PyStr.endswith n ".gbr") names).
Proof.
  induction names as [|n names IH]; [constructor|].
  unfold is_top, is_bottom. cbn [List.filter] in *.
  destruct (PyStr.endswith n ".gbr"), (PyStr.contains "Top" n); cbn [andb negb];
    try exact IH.
  - cbn [app]. constructor. exact IH.
  - symmetry. apply Permutation_cons_app. symmetry. exact IH.
Qed.

(** C1. The two name lists [process_gerber_files] builds partition
    exactly the entry names ending in [.gbr]: a name is in the Top list
    iff it is an entry name ending in [.gbr] that contains [Top], in the
    Bottom list iff it is an entry name ending in [.gbr] that does not;
    names not ending in [.gbr] are in neither list, no name is in both,
    and the two lists together are the [.gbr] names of the archive, each
    occurrence once. *)
Theorem classify_partitions_gbr_names (names : list string) :
  let top := fst (Main.classify names) in
  let bottom := snd (Main.classify names) in
  (forall n, In n top <->
     In n names /\ ends_with n ".gbr" /\ has_substring "Top" n) /\
  (forall n, In n bottom <->
     In n names /\ ends_with n ".gbr" /\ ~ has_substring "Top" n) /\
  (forall n, ~ ends_with n ".gbr" -> ~ In n top /\ ~ In n bottom) /\
  (forall n, ~ (In n top /\ In n bottom)) /\
  Permutation (top ++ bottom)
              (List.filter (fun n => PyStr.endswith n ".gbr") names).
Proof.
  intros top bottom. subst top bottom. rewrite classify_filter. cbn [fst snd].
  assert (Htop : forall n, In n (List.filter is_top names) <->
            In n names /\ ends_with n ".gbr" /\ has_substring "Top" n).
  { intros n. rewrite filter_In. unfold is_top.
    rewrite andb_true_iff, endswith_spec, contains_spec. reflexivity. }
  assert (Hbot : forall n, In n (List.filter is_bottom names) <->
            In n names /\ ends_with n ".gbr" /\ ~ has_substring "Top" n).
  { intros n. rewrite filter_In. unfold is_bottom.
    rewrite andb_true_iff, negb_true_iff, endswith_spec,
      <- not_true_iff_false, contains_spec. reflexivity. }
  split; [exact Htop|]. split; [exact Hbot|]. split; [|split].
  - intros n Hn. rewrite Htop, Hbot. tauto.
  - intros n. rewrite Htop, Hbot. tauto.
  - apply filter_sides_perm.
Qed.

Lemma filter_none {A} (f : A -> bool) (l : list A) :
  (forall x, In x l -> f x = false) -> List.filter f l = [].
Proof.
  induction l as [|x l IH]; intros H; [reflexivity|].
  cbn [List.filter]. rewrite (H x (or_introl eq_refl)).
  apply IH. intros y Hy. apply H. right. exact Hy.
Qed.

Lemma classify_no_gbr (names : list string) :
  (forall n, In n names -> ~ ends_with n ".gbr") ->
  Main.classify names = ([], []).
Proof.
  intros H. rewrite classify_filter.
  assert (Hf : forall n, In n names -> PyStr.endswith n ".gbr" = false).
  { intros n Hn. apply not_true_iff_false. rewrite endswith_spec.
    exact (H n Hn). }
  rewrite !filter_none; [reflexivity | |];
    intros n Hn; unfold is_top, is_bottom; rewrite (Hf n Hn);
    reflexivity.
Qed.

End Classification.

(** ** Rounding and the dimension calculator *)

Section Rounding.

Lemma round_div (a b : Z) :
  0 < b ->
  PyNum.round (inject_Z a / inject_Z b) =
  match 2 * (a mod b) ?= b with
  | Lt => a / b
  | Gt => a / b + 1
  | Eq => if Z.even (a / b) then a / b else a / b + 1
  end.
Proof.
  intros Hb. destruct b as [|p|p]; try lia.
  unfold PyNum.round.
  assert (Hf : Qfloor (inject_Z a / inject_Z (Z.pos p)) = a / Z.pos p).
  { unfold Qfloor, Qdiv, Qmult, Qinv, inject_Z. simpl.
    rewrite Z.mul_1_r. reflexivity. }
  rewrite Hf.
  assert (Hc : (inject_Z a / inject_Z (Z.pos p) - inject_Z (a / Z.pos p) ?= 1 # 2)%Q
               = (2 * (a mod Z.pos p) ?= Z.pos p)).
  { unfold Qcompare, Qminus, Qplus, Qopp, Qdiv, Qmult, Qinv, inject_Z. simpl.
    rewrite !Pos.mul_1_l, ?Pos.mul_1_r, Z.mul_1_l.
    replace ((a * 1 * 1 + - (a / Z.pos p) * Z.pos p) * 2)
      with (2 * (a mod Z.pos p)) by (rewrite Z.mod_eq by lia; lia).
    reflexivity. }
  rewrite Hc. reflexivity.
Qed.

Lemma round_nearest_even (a b : Z) :
  0 < b -> nearest_even a b (PyNum.round (inject_Z a / inject_Z b)).
Proof.
  intros Hb. rewrite round_div by exact Hb. unfold nearest_even.
  pose proof (Z.div_mod a b ltac:(lia)) as Hdm.
  pose proof (Z.mod_pos_bound a b Hb) as Hr.
  set (q := a / b) in *. set (r := a mod b) in *.
  destruct (Z.compare_spec (2 * r) b) as [He|Hl|Hg].
  - destruct (Z.even q) eqn:Hq.
    + split; [lia | intros _; exact Hq].
    + split; [lia | intros _].
      rewrite Z.add_1_r, Z.even_succ, <- Z.negb_even, Hq. reflexivity.
  - split; lia.
  - split; lia.
Qed.

Lemma nearest_even_unique (a b r1 r2 : Z) :
  0 < b -> nearest_even a b r1 -> nearest_even a b r2 -> r1 = r2.
Proof.
  intros Hb [H1 E1] [H2 E2].
  assert (Hd : r1 = r2 \/ r1 = r2 + 1 \/ r2 = r1 + 1) by nia.
  destruct Hd as [Hd | [Hd | Hd]]; [exact Hd | exfalso | exfalso].
  - assert (T1 : 2 * Z.abs (b * r1 - a) = b) by nia.
    assert (T2 : 2 * Z.abs (b * r2 - a) = b) by nia.
    specialize (E1 T1). specialize (E2 T2).
    rewrite Hd, Z.add_1_r, Z.even_succ, <- Z.negb_even, E2 in E1. discriminate.
  - assert (T1 : 2 * Z.abs (b * r1 - a) = b) by nia.
    assert (T2 : 2 * Z.abs (b * r2 - a) = b) by nia.
    specialize (E1 T1). specialize (E2 T2).
    rewrite Hd, Z.add_1_r, Z.even_succ, <- Z.negb_even, E1 in E2. discriminate.
Qed.

Lemma round_integer (n : Z) : PyNum.round (inject_Z n) = n.
Proof.
  unfold PyNum.round. rewrite Qfloor_Z.
  assert (Hc : (inject_Z n - inject_Z n ?= 1 # 2)%Q = Lt).
  { rewrite <- Qlt_alt. unfold Qlt. simpl. lia. }
  rewrite Hc. reflexivity.
Qed.

Lemma round_comp (x y : Q) : (x == y)%Q -> PyNum.round x = PyNum.round y.
Proof.
  intros H. unfold PyNum.round. rewrite (Qfloor_comp _ _ H).
  assert (Hc : (x - inject_Z (Qfloor y) ?= 1 # 2)%Q =
               (y - inject_Z (Qfloor y) ?= 1 # 2)%Q).
  { apply Qcompare_comp; [rewrite H|]; reflexivity. }
  rewrite Hc. reflexivity.
Qed.

(** A quotient with at most two decimal places is its own [round(x, 2)]. *)
Lemma round2_exact (x : Q) (n : Z) :
  (x * 100 == inject_Z n)%Q -> (PyNum.round2 x == x)%Q.
Proof.
  intros H. unfold PyNum.round2. cbv zeta.
  rewrite (Qfloor_comp _ _ H), Qfloor_Z.
  assert (Hc : (x * 100 - inject_Z n ?= 1 # 2)%Q = Lt).
  { rewrite <- Qlt_alt. rewrite H. unfold Qlt. simpl. lia. }
  rewrite Hc. rewrite <- H. field.
Qed.

(** The two-decimal variant at odd pixel counts, where [px / 40] lies
    halfway between two multiples of 1/100: the double decides. *)
Example pixels_to_mm_two_decimals_at_ties :
  (exists q, TempfilesApii.pixels_to_mm 1 = Return q /\ (q == 3 # 100)%Q) /\
  (exists q, TempfilesApii.pixels_to_mm 3 = Return q /\ (q == 7 # 100)%Q) /\
  (exists q, TempfilesApii.pixels_to_mm 5 = Return q /\ (q == 12 # 100)%Q) /\
  (exists q, TempfilesApii.pixels_to_mm 7 = Return q /\ (q == 17 # 100)%Q) /\
  (exists q, TempfilesApii.pixels_to_mm 9 = Return q /\ (q == 23 # 100)%Q).
Proof.
  repeat split; eexists; (split; [reflexivity | vm_compute; reflexivity]).
Qed.

(** C3 (amended). In [src/main.py], [src/api/main.py] and
    [src/api/mainn.py], [pixels_to_mm] returns, without raising, the one
    integer nearest to [px / 40], ties going to the even integer; in
    [src/tempfiles/apii.py] it returns a number with two decimal places
    instead, which for an even pixel count is [px / 40] itself. *)
Theorem pixels_to_mm_nearest_integer (px : Z) :
  exists r,
    Main.pixels_to_mm px = Return r /\
    ApiMain.pixels_to_mm px = Return r /\
    ApiMainn.pixels_to_mm px = Return r /\
    nearest_even px DPMM r /\
    (forall r', nearest_even px DPMM r' -> r' = r) /\
    (Z.even px = true ->
     exists q, TempfilesApii.pixels_to_mm px = Return q /\
               (q == inject_Z px / inject_Z DPMM)%Q).
Proof.
  exists (PyNum.round (inject_Z px / inject_Z DPMM)).
  pose proof (round_nearest_even px DPMM ltac:(reflexivity)) as Hn.
  repeat split; try reflexivity; try apply Hn.
  - intros r' Hr'. eapply nearest_even_unique; [| exact Hr' | exact Hn]. reflexivity.
  - intros Hev. eexists. split; [reflexivity|].
    apply Z.even_spec in Hev. destruct Hev as [k ->].
    apply (round2_exact _ (5 * k)).
    unfold DPMM. rewrite !inject_Z_mult. field.
Qed.

(** C3, counterexample: at 100 pixels the definition of
    [src/tempfiles/apii.py] returns 2.5, which is no integer, where
    [src/main.py] returns 2. *)
Lemma pixels_to_mm_not_one_function :
  exists q,
    TempfilesApii.pixels_to_mm 100 = Return q /\
    (q == 5 # 2)%Q /\
    Main.pixels_to_mm 100 = Return 2 /\
    (forall r : Z, ~ (q == inject_Z r)%Q).
Proof.
  assert (E : (PyNum.round2 (inject_Z 100 / inject_Z DPMM) == 5 # 2)%Q)
    by (vm_compute; reflexivity).
  eexists. split; [reflexivity|]. split; [exact E|]. split; [reflexivity|].
  intros r H. rewrite E in H. unfold Qeq in H. simpl in H. lia.
Qed.

Lemma average_value (total N : Z) :
  Main.average total N =
  Return (if 0 <? N then PyNum.round (inject_Z total / inject_Z N) else 0).
Proof.
  unfold Main.average. destruct (0 <? N) eqn:HN; [|reflexivity].
  apply Z.ltb_lt in HN. unfold PyNum.truediv.
  destruct (N =? 0) eqn:H0; [apply Z.eqb_eq in H0; lia | reflexivity].
Qed.

(** C4. [round(total / image_count) if image_count > 0 else 0] never
    raises: with no image the average is 0, and the division is only
    reached with a positive count, where the result is [total / N]
    rounded to the nearest integer; the body built from a tally of zero
    images, in [convert_gerber] and in [list_images], carries the
    averages 0 and 0. *)
Theorem average_guarded (total N : Z) :
  exists r,
    Main.average total N = Return r /\
    (N = 0 -> r = 0) /\
    (0 < N -> r = PyNum.round (inject_Z total / inject_Z N) /\
              nearest_even total N r) /\
    (forall message images total_w total_h,
       Main.report message (images, total_w, total_h, 0) =
       Return (JSONResponse message images (Some (0, 0)))).
Proof.
  rewrite average_value. eexists. split; [reflexivity|].
  split; [intros ->; reflexivity|]. split; [|reflexivity].
  intros HN. assert (H : (0 <? N) = true) by (apply Z.ltb_lt; exact HN).
  rewrite H. split; [reflexivity | apply round_nearest_even; exact HN].
Qed.

End Rounding.

(** ** Paths and the store directory *)

Section StoreDirectory.

Lemma contains_slash_cons (c : ascii) (s : string) :
  PyStr.contains "/" (String c s) = false <->
  c <> "/"%char /\ PyStr.contains "/" s = false.
Proof.
  assert (Hp : String.prefix "" s = true) by (destruct s; reflexivity).
  cbn [PyStr.contains String.prefix].
  destruct (ascii_dec "/" c) as [<-|Hne].
  - rewrite Hp. cbn [orb]. split; [discriminate | intros [H _]; congruence].
  - cbn [orb]. split; [intros H; split; [congruence | exact H] | intros [_ H]; exact H].
Qed.

Lemma split_no_slash (s : string) :
  PyStr.contains "/" s = false -> PyStr.split "/" s = [s].
Proof.
  induction s as [|c s IH]; [reflexivity|].
  rewrite contains_slash_cons. intros [Hc Hs].
  cbn [PyStr.split]. rewrite IH by exact Hs.
  destruct (Ascii.eqb_spec c "/"); [contradiction | reflexivity].
Qed.

Lemma split_app_slash (a b : string) :
  PyStr.contains "/" a = false ->
  PyStr.split "/" (a +:+ String "/" b) = a :: PyStr.split "/" b.
Proof.
  induction a as [|c a IH].
  - intros _. reflexivity.
  - rewrite contains_slash_cons. intros [Hc Ha].
    rewrite app_String. cbn [PyStr.split]. rewrite IH by exact Ha.
    destruct (Ascii.eqb_spec c "/"); [contradiction | reflexivity].
Qed.







Lemma plain_inv (n : string) :
  FS.plain n = true ->
  PyStr.contains "/" n = false /\ n <> "" /\ n <> "." /\ n <> "..".
Proof.
  unfold FS.plain. rewrite !andb_true_iff, !negb_true_iff, !String.eqb_neq.
  tauto.
Qed.

Lemma plain_not_absolute (n : string) :
  FS.plain n = true -> PyStr.startswith n "/" = false.
Proof.
  intros H. apply plain_inv in H. destruct H as [H _].
  destruct n as [|c n]; [reflexivity|].
  apply contains_slash_cons in H. destruct H as [Hc _].
  unfold PyStr.startswith. cbn [String.prefix].
  destruct (ascii_dec "/" c); congruence.
Qed.

Lemma endswith_slash_app (a n : string) :
  n <> "" -> PyStr.endswith (a +:+ n) "/" = PyStr.endswith n "/".
Proof.
  intros Hn. induction a as [|c a IH]; [reflexivity|].
  rewrite app_String. cbn [PyStr.endswith]. rewrite IH.
  assert (He : String.eqb (String c (a +:+ n)) "/" = false).
  { apply String.eqb_neq. intros H. injection H as _ H.
    destruct a; [exact (Hn H) | discriminate]. }
  rewrite He. reflexivity.
Qed.

Lemma endswith_slash_contains (n : string) :
  PyStr.endswith n "/" = true -> PyStr.contains "/" n = true.
Proof.
  rewrite endswith_spec, contains_spec. intros [pre ->].
  exists pre, "". reflexivity.
Qed.

Lemma join_tmp (tmp : string) :
  FS.plain tmp = true -> FS.os_path_join FS.gettempdir tmp = tmp_path tmp.
Proof.
  intros H. unfold FS.os_path_join. rewrite plain_not_absolute by exact H.
  reflexivity.
Qed.

Lemma join_in_dir (tmp n : string) :
  FS.plain tmp = true -> FS.plain n = true ->
  FS.os_path_join (tmp_path tmp) n = "/tmp/" +:+ tmp +:+ String "/" n.
Proof.
  intros Ht Hn. unfold FS.os_path_join. rewrite plain_not_absolute by exact Hn.
  apply plain_inv in Ht. destruct Ht as [Hs [He _]].
  assert (H1 : String.eqb (tmp_path tmp) "" = false) by reflexivity.
  assert (H2 : PyStr.endswith (tmp_path tmp) "/" = false).
  { unfold tmp_path. rewrite endswith_slash_app by exact He.
    destruct (PyStr.endswith tmp "/") eqn:E; [|reflexivity].
    apply endswith_slash_contains in E. congruence. }
  rewrite H1, H2. reflexivity.
Qed.

Lemma split_tmp_path (tmp : string) :
  FS.plain tmp = true -> PyStr.split "/" (tmp_path tmp) = [""; "tmp"; tmp].
Proof.
  intros H. apply plain_inv in H. destruct H as [H _].
  unfold tmp_path. change ("/tmp/" +:+ tmp) with ("" +:+ String "/" ("tmp" +:+ String "/" tmp)).
  rewrite !split_app_slash by reflexivity. rewrite split_no_slash by exact H.
  reflexivity.
Qed.

Lemma split_entry_path (tmp n : string) :
  FS.plain tmp = true -> FS.plain n = true ->
  PyStr.split "/" (FS.os_path_join (tmp_path tmp) n) = [""; "tmp"; tmp; n].
Proof.
  intros Ht Hn. rewrite join_in_dir by assumption.
  apply plain_inv in Ht. destruct Ht as [Ht _].
  apply plain_inv in Hn. destruct Hn as [Hn _].
  change ("/tmp/" +:+ tmp +:+ String "/" n)
    with ("" +:+ String "/" ("tmp" +:+ String "/" (tmp +:+ String "/" n))).
  rewrite !split_app_slash by (reflexivity || assumption).
  rewrite split_no_slash by exact Hn. reflexivity.
Qed.

Lemma walk_stay (t : FS.node) (q : FS.path) :
  FS.is_dir t q = true -> FS.walk t (Some q) "" = Some q.
Proof. intros H. unfold FS.walk. rewrite H. reflexivity. Qed.

Lemma walk_plain (t : FS.node) (q : FS.path) (n : string) :
  FS.plain n = true -> FS.is_dir t q = true ->
  FS.walk t (Some q) n = Some (q ++ [n])%list.
Proof.
  intros Hn H. apply plain_inv in Hn. destruct Hn as [_ [H1 [H2 H3]]].
  apply String.eqb_neq in H1, H2, H3.
  unfold FS.walk. rewrite H, H1, H2, H3. reflexivity.
Qed.

Lemma walk_not_dir (t : FS.node) (q : FS.path) (n : string) :
  FS.is_dir t q = false -> FS.walk t (Some q) n = None.
Proof. intros H. unfold FS.walk. rewrite H. reflexivity. Qed.






Lemma absolute_tmp_path (s : string) : PyStr.startswith ("/tmp/" +:+ s) "/" = true.
Proof. reflexivity. Qed.

Section InDir.
Variables (m0 m1 : gmap string FS.node) (tmp : string) (c : gmap string FS.node).
Hypothesis tmp_plain : FS.plain tmp = true.

Lemma is_dir_root : FS.is_dir (with_dir m0 m1 tmp c) [] = true.
Proof. reflexivity. Qed.

Lemma is_dir_tmp : FS.is_dir (with_dir m0 m1 tmp c) ["tmp"] = true.
Proof.
  unfold FS.is_dir, with_dir. cbn [FS.lookup]. rewrite lookup_insert_eq.
  reflexivity.
Qed.

Lemma lookup_dir :
  FS.lookup (with_dir m0 m1 tmp c) ["tmp"; tmp] = Some (FS.Dir c).
Proof.
  unfold with_dir. cbn [FS.lookup]. rewrite !lookup_insert_eq. reflexivity.
Qed.

Lemma lookup_entry (n : string) :
  FS.lookup (with_dir m0 m1 tmp c) ["tmp"; tmp; n] = c !! n.
Proof.
  unfold with_dir. cbn [FS.lookup]. rewrite !lookup_insert_eq.
  destruct (c !! n); reflexivity.
Qed.

Lemma store_entry (n : string) (v : FS.node) :
  FS.store (with_dir m0 m1 tmp c) ["tmp"; tmp; n] v =
  Some (with_dir m0 m1 tmp (<[n := v]> c)).
Proof.
  unfold with_dir. cbn [FS.store]. rewrite !lookup_insert_eq.
  rewrite !insert_insert_eq. reflexivity.
Qed.

Lemma resolve_dir :
  FS.resolve (with_dir m0 m1 tmp c) (tmp_path tmp) = Some ["tmp"; tmp].
Proof.
  unfold FS.resolve. unfold tmp_path at 1. rewrite absolute_tmp_path.
  rewrite split_tmp_path by exact tmp_plain. cbn [fold_left].
  rewrite walk_stay by apply is_dir_root.
  rewrite walk_plain by (reflexivity || apply is_dir_root).
  rewrite walk_plain by (exact tmp_plain || apply is_dir_tmp).
  reflexivity.
Qed.

Lemma resolve_entry (n : string) :
  FS.plain n = true ->
  FS.resolve (with_dir m0 m1 tmp c) (FS.os_path_join (tmp_path tmp) n)
  = Some ["tmp"; tmp; n].
Proof.
  intros Hn. unfold FS.resolve.
  rewrite split_entry_path by assumption.
  rewrite join_in_dir by assumption. rewrite absolute_tmp_path.
  cbn [fold_left].
  rewrite walk_stay by apply is_dir_root.
  rewrite walk_plain by (reflexivity || apply is_dir_root).
  rewrite walk_plain by (exact tmp_plain || apply is_dir_tmp).
  rewrite walk_plain; [reflexivity | exact Hn |].
  unfold FS.is_dir. cbn [app]. rewrite lookup_dir. reflexivity.
Qed.

Lemma exists_entry (n : string) :
  FS.plain n = true ->
  FS.os_path_exists (with_dir m0 m1 tmp c) (FS.os_path_join (tmp_path tmp) n)
  = match c !! n with Some _ => true | None => false end.
Proof.
  intros Hn. unfold FS.os_path_exists.
  rewrite resolve_entry by exact Hn. rewrite lookup_entry. reflexivity.
Qed.

Lemma Image_open_entry (n : string) (img : FS.image) :
  FS.plain n = true -> c !! n = Some (FS.File (Some img)) ->
  FS.Image_open (with_dir m0 m1 tmp c) (FS.os_path_join (tmp_path tmp) n)
  = Return img.
Proof.
  intros Hn Hc. unfold FS.Image_open.
  rewrite resolve_entry by exact Hn. rewrite lookup_entry, Hc. reflexivity.
Qed.

Lemma write_raster_entry (n : string) (img : FS.image) :
  FS.plain n = true ->
  (forall m, c !! n <> Some (FS.Dir m)) ->
  FS.write_raster (with_dir m0 m1 tmp c) (FS.os_path_join (tmp_path tmp) n) img
  = Return (with_dir m0 m1 tmp (<[n := FS.File (Some img)]> c)).
Proof.
  intros Hn Hc. unfold FS.write_raster.
  rewrite resolve_entry by exact Hn. rewrite lookup_entry, store_entry.
  destruct (c !! n) as [[r|m]|] eqn:E; try reflexivity.
  exfalso. exact (Hc m eq_refl).
Qed.

Lemma listdir_dir :
  FS.os_listdir (with_dir m0 m1 tmp c) (tmp_path tmp)
  = Return (map fst (map_to_list c)).
Proof.
  unfold FS.os_listdir. rewrite resolve_dir, lookup_dir. reflexivity.
Qed.

End InDir.

Lemma mkdtemp_inv (t : FS.node) (tmp d : string) (t' : FS.node) :
  FS.plain tmp = true ->
  FS.mkdtemp t tmp = Return (d, t') ->
  exists m0 m1,
    t = FS.Dir m0 /\ m0 !! "tmp" = Some (FS.Dir m1) /\ m1 !! tmp = None /\
    d = tmp_path tmp /\ t' = with_dir m0 m1 tmp ∅.
Proof.
  intros Hp. unfold FS.mkdtemp. rewrite join_tmp by exact Hp.
  unfold FS.resolve. unfold tmp_path at 1. rewrite absolute_tmp_path.
  rewrite split_tmp_path by exact Hp. cbn [fold_left].
  destruct t as [r|m0].
  { rewrite walk_not_dir by reflexivity. discriminate. }
  rewrite walk_stay by reflexivity.
  rewrite walk_plain by reflexivity. cbn [app].
  destruct (m0 !! "tmp") as [[r|m1]|] eqn:E0.
  - rewrite walk_not_dir; [discriminate|].
    unfold FS.is_dir. cbn [FS.lookup]. rewrite E0. reflexivity.
  - rewrite walk_plain; [| exact Hp |].
    2:{ unfold FS.is_dir. cbn [FS.lookup]. rewrite E0. reflexivity. }
    cbn [app FS.lookup FS.store]. rewrite E0.
    destruct (m1 !! tmp) as [x|] eqn:E1; [discriminate|].
    intros H. injection H as <- <-. exists m0, m1. repeat split; assumption || reflexivity.
  - rewrite walk_not_dir; [discriminate|].
    unfold FS.is_dir. cbn [FS.lookup]. rewrite E0. reflexivity.
Qed.

End StoreDirectory.

(** ** The conversion handler *)

Section Conversion.
Context {ext : Externals}.

Lemma average_total (total N : Z) : exists r, Main.average total N = Return r.
Proof. rewrite average_value. eexists. reflexivity. Qed.

Lemma report_total (message : option string) (images : list image_entry)
  (tw th N : Z) :
  exists avg, Main.report message (images, tw, th, N)
              = Return (JSONResponse message images (Some avg)).
Proof.
  unfold Main.report.
  destruct (average_total tw N) as [aw ->].
  destruct (average_total th N) as [ah ->].
  exists (aw, ah). reflexivity.
Qed.

(** Side conditions on the entries of the output directory: an entry
    just inserted, an entry of another name, an empty directory. *)
Ltac entry :=
  first
    [ reflexivity
    | assumption
    | apply lookup_insert_eq
    | apply lookup_empty
    | rewrite lookup_insert_ne by discriminate; entry
    | intros ?; rewrite ?lookup_insert_ne by discriminate;
      rewrite lookup_empty; discriminate ].

(** The averages of the body under construction, named [avg]. *)
Ltac take_report avg :=
  match goal with
  | |- context [Main.report ?m (?i, ?w, ?h, ?n)] =>
      destruct (report_total m i w h n) as [avg ->]
  end.

Section InDir.
Variables (m0 m1 : gmap string FS.node) (tmp : string).
Hypothesis tmp_plain : FS.plain tmp = true.

Lemma render_side_in_dir (project : option (list string)) (n : string)
  (c : gmap string FS.node) (log : list string) :
  FS.plain n = true ->
  (forall m, c !! n <> Some (FS.Dir m)) ->
  Main.render_side project (FS.os_path_join (tmp_path tmp) n)
    (in_dir m0 m1 tmp c log) =
  match project with
  | None => (Return tt, in_dir m0 m1 tmp c log)
  | Some sources =>
      match render_raster sources DPMM with
      | Raise e =>
          (Raise e,
           in_dir m0 m1 tmp c (log ++ [FS.os_path_join (tmp_path tmp) n]))
      | Return img =>
          (Return tt,
           in_dir m0 m1 tmp (<[n := FS.File (Some img)]> c)
             (log ++ [FS.os_path_join (tmp_path tmp) n]))
      end
  end.
Proof.
  intros Hn Hc. unfold Main.render_side. destruct project as [sources|];
    [|reflexivity].
  destruct (render_raster sources DPMM) as [img|e]; [|reflexivity].
  cbn [Main.fs in_dir]. rewrite write_raster_entry by assumption.
  reflexivity.
Qed.

Lemma measure_absent (n : string) (c : gmap string FS.node) (acc : Main.tally) :
  FS.plain n = true -> c !! n = None ->
  Main.measure_if_exists (with_dir m0 m1 tmp c)
    (FS.os_path_join (tmp_path tmp) n) n acc = Return acc.
Proof.
  intros Hn Hc. unfold Main.measure_if_exists.
  rewrite exists_entry by assumption. rewrite Hc. reflexivity.
Qed.

Lemma measure_present (n : string) (c : gmap string FS.node) (img : FS.image)
  (images : list image_entry) (tw th N : Z) :
  FS.plain n = true -> c !! n = Some (FS.File (Some img)) ->
  Main.measure_if_exists (with_dir m0 m1 tmp c)
    (FS.os_path_join (tmp_path tmp) n) n (images, tw, th, N) =
  Return ((images ++
           [{| name := n;
               width := PyNum.round (inject_Z (FS.width_px img) / inject_Z DPMM);
               height := PyNum.round (inject_Z (FS.height_px img) / inject_Z DPMM)
            |}])%list,
          tw + PyNum.round (inject_Z (FS.width_px img) / inject_Z DPMM),
          th + PyNum.round (inject_Z (FS.height_px img) / inject_Z DPMM),
          N + 1).
Proof.
  intros Hn Hc. unfold Main.measure_if_exists.
  rewrite exists_entry by assumption. rewrite Hc.
  unfold Main.measure. rewrite (Image_open_entry _ _ _ _ tmp_plain n img) by assumption.
  reflexivity.
Qed.

End InDir.

Lemma convert_begin_ok (tmp : string) (file : UploadFile) (st : Main.state)
  (d : string) (t' : FS.node) :
  PyStr.endswith (filename file) ".zip" = true ->
  FS.plain tmp = true ->
  FS.mkdtemp (Main.fs st) tmp = Return (d, t') ->
  exists m0 m1,
    Main.fs st = FS.Dir m0 /\ m0 !! "tmp" = Some (FS.Dir m1) /\
    m1 !! tmp = None /\
    Main.convert_begin tmp file st =
    (None, in_dir m0 m1 tmp ∅ (Main.render_log st)).
Proof.
  intros Hz Hp Hm. unfold Main.convert_begin. rewrite Hz, Hm. cbn [negb].
  destruct (mkdtemp_inv _ _ _ _ Hp Hm) as [m0 [m1 [H0 [H1 [H2 [-> ->]]]]]].
  exists m0, m1. repeat split; assumption || reflexivity.
Qed.

Lemma process_gerber_files_unfold (z : Zip.ZipFile) (top bottom : list string) :
  Main.classify (Zip.namelist z) = (top, bottom) ->
  Main.process_gerber_files z =
  match top, bottom with
  | [], [] => Raise (ValueError "No valid Gerber files found in the ZIP file")
  | _, _ =>
      let! top_project := Main.load_project z top in
      let! bottom_project := Main.load_project z bottom in
      Return (top_project, bottom_project)
  end.
Proof. intros H. unfold Main.process_gerber_files. rewrite H. reflexivity. Qed.

Lemma load_project_shape (z : Zip.ZipFile) (l : list string)
  (p : option (list string)) :
  Main.load_project z l = Return p ->
  match l with [] => p = None | _ :: _ => exists s, p = Some s end.
Proof.
  unfold Main.load_project. destruct l as [|n l].
  - intros H. injection H as <-. reflexivity.
  - destruct (mapM _ (n :: l)) as [s|e]; cbn [bind]; [|discriminate].
    intros H. injection H as <-. exists s. reflexivity.
Qed.

Lemma handle_status (e : exn) :
  exists code detail,
    Main.handle e = HTTPException code detail /\ (code = 400 \/ code = 500).
Proof.
  unfold Main.handle. destruct (isinstance_ValueError e); eauto.
Qed.

Lemma render_side_return (sources : list string) (output : string)
  (st st1 : Main.state) (u : unit) :
  Main.render_side (Some sources) output st = (Return u, st1) ->
  exists img, render_raster sources DPMM = Return img.
Proof.
  unfold Main.render_side.
  destruct (render_raster sources DPMM) as [img|e]; [eauto | discriminate].
Qed.

Lemma measuring_succeeds (m0 m1 : gmap string FS.node) (tmp : string)
  (c : gmap string FS.node) (message : option string) :
  FS.plain tmp = true ->
  (c !! "output_top.png" = None \/
   exists img, c !! "output_top.png" = Some (FS.File (Some img))) ->
  (c !! "output_bottom.png" = None \/
   exists img, c !! "output_bottom.png" = Some (FS.File (Some img))) ->
  exists images avg,
    (let! acc := Main.measure_if_exists (with_dir m0 m1 tmp c)
                   (FS.os_path_join (tmp_path tmp) "output_top.png")
                   "output_top.png" ([], 0, 0, 0) in
     let! acc := Main.measure_if_exists (with_dir m0 m1 tmp c)
                   (FS.os_path_join (tmp_path tmp) "output_bottom.png")
                   "output_bottom.png" acc in
     Main.report message acc)
    = Return (JSONResponse message images (Some avg)).
Proof.
  intros Hp Ht Hb.
  assert (H1 : exists images tw th N,
            Main.measure_if_exists (with_dir m0 m1 tmp c)
              (FS.os_path_join (tmp_path tmp) "output_top.png")
              "output_top.png" ([], 0, 0, 0) = Return (images, tw, th, N)).
  { destruct Ht as [Ht | [img Ht]].
    - rewrite measure_absent by (assumption || reflexivity). eauto.
    - rewrite (measure_present m0 m1 tmp Hp _ _ img) by (assumption || reflexivity).
      eauto. }
  destruct H1 as (images & tw & th & N & ->). cbn [bind].
  assert (H2 : exists images' tw' th' N',
            Main.measure_if_exists (with_dir m0 m1 tmp c)
              (FS.os_path_join (tmp_path tmp) "output_bottom.png")
              "output_bottom.png" (images, tw, th, N)
            = Return (images', tw', th', N')).
  { destruct Hb as [Hb | [img Hb]].
    - rewrite measure_absent by (assumption || reflexivity). eauto.
    - rewrite (measure_present m0 m1 tmp Hp _ _ img) by (assumption || reflexivity).
      eauto. }
  destruct H2 as (images' & tw' & th' & N' & ->). cbn [bind].
  destruct (report_total message images' tw' th' N') as [avg ->].
  eauto.
Qed.

Lemma truthy_tmp_path (tmp : string) :
  Main.truthy (Some (tmp_path tmp)) = Some (tmp_path tmp).
Proof. reflexivity. Qed.

Lemma get_image_in_dir (m0 m1 : gmap string FS.node) (tmp : string)
  (c : gmap string FS.node) (log : list string) (n : string) :
  FS.plain tmp = true -> FS.plain n = true ->
  Main.get_image n (in_dir m0 m1 tmp c log) =
  match c !! n with
  | Some _ => FileResponse (FS.os_path_join (tmp_path tmp) n) "image/png" n
  | None => HTTPException 404 "Image not found"
  end.
Proof.
  intros Hp Hn. unfold Main.get_image. cbn [in_dir Main.OUTPUT_DIR Main.fs].
  rewrite truthy_tmp_path. rewrite exists_entry by assumption.
  destruct (c !! n); reflexivity.
Qed.

Lemma list_images_empty_dir (m0 m1 : gmap string FS.node) (tmp : string)
  (log : list string) :
  FS.plain tmp = true ->
  Main.list_images (in_dir m0 m1 tmp ∅ log) = JSONResponse None [] (Some (0, 0)).
Proof.
  intros Hp. unfold Main.list_images. cbn [in_dir Main.OUTPUT_DIR Main.fs].
  rewrite truthy_tmp_path. rewrite listdir_dir by exact Hp.
  rewrite map_to_list_empty. reflexivity.
Qed.

Lemma list_images_one_file (m0 m1 : gmap string FS.node) (tmp : string)
  (log : list string) (n : string) (img : FS.image) :
  FS.plain tmp = true -> FS.plain n = true ->
  PyStr.endswith n ".png" = true ->
  exists avg,
    Main.list_images (in_dir m0 m1 tmp {[ n := FS.File (Some img) ]} log) =
    JSONResponse None
      [{| name := n;
          width := PyNum.round (inject_Z (FS.width_px img) / inject_Z DPMM);
          height := PyNum.round (inject_Z (FS.height_px img) / inject_Z DPMM) |}]
      (Some avg).
Proof.
  intros Hp Hn Hpng. unfold Main.list_images.
  cbn [in_dir Main.OUTPUT_DIR Main.fs].
  rewrite truthy_tmp_path. rewrite listdir_dir by exact Hp.
  rewrite map_to_list_singleton. cbn [map fst bind Main.list_loop].
  rewrite Hpng. unfold Main.measure.
  rewrite (Image_open_entry m0 m1 tmp _ Hp n img)
    by (assumption || apply lookup_singleton_eq).
  cbn [bind Main.pixels_to_mm PyNum.truediv Z.eqb DPMM app].
  take_report avg.
  exists avg. reflexivity.
Qed.

Lemma mkdtemp_fresh (t : FS.node) (tmp d : string) (t' : FS.node) :
  FS.mkdtemp t tmp = Return (d, t') -> FS.os_path_exists t d = false.
Proof.
  unfold FS.mkdtemp, FS.os_path_exists.
  destruct (FS.resolve t (FS.os_path_join FS.gettempdir tmp)) as [q|] eqn:R;
    [|discriminate].
  destruct (FS.lookup t q) eqn:L; [discriminate|].
  destruct (FS.store t q (FS.Dir ∅)); [|discriminate].
  intros H. injection H as <- _. rewrite R, L. reflexivity.
Qed.

Lemma handle_not_ok (e : exn) : status (Main.handle e) <> 200.
Proof. unfold Main.handle. destruct (isinstance_ValueError e); discriminate. Qed.

(** A conversion that runs without interruption ends in one of three
    ways: it failed before a render job succeeded and its directory is
    empty; its top render succeeded and its bottom render failed, and
    its directory holds the top raster; or every job succeeded. *)
Lemma convert_cases (tmp : string) (file : UploadFile)
  (st : Main.state) (d : string) (t' : FS.node) :
  PyStr.endswith (filename file) ".zip" = true ->
  FS.plain tmp = true ->
  FS.mkdtemp (Main.fs st) tmp = Return (d, t') ->
  exists m0 m1 log,
    Main.fs st = FS.Dir m0 /\ m0 !! "tmp" = Some (FS.Dir m1) /\
    m1 !! tmp = None /\
    ((fails_before_render file /\
      status (fst (Main.convert_gerber tmp file st)) <> 200 /\
      snd (Main.convert_gerber tmp file st) = in_dir m0 m1 tmp ∅ log) \/
     (exists img,
        fails_after_top file img /\
        status (fst (Main.convert_gerber tmp file st)) <> 200 /\
        snd (Main.convert_gerber tmp file st) =
          in_dir m0 m1 tmp {[ "output_top.png" := FS.File (Some img) ]} log) \/
     (status (fst (Main.convert_gerber tmp file st)) = 200 /\
      exists ptop pbot,
        loaded file = Return (ptop, pbot) /\
        (forall s, ptop = Some s -> exists img, render_raster s DPMM = Return img) /\
        (forall s, pbot = Some s -> exists img, render_raster s DPMM = Return img))).
Proof.
  intros Hz Hp Hm.
  destruct (convert_begin_ok tmp file st d t' Hz Hp Hm)
    as [m0 [m1 [H0 [H1 [H2 Hbegin]]]]].
  unfold Main.convert_gerber. rewrite Hbegin.
  unfold Main.convert_finish, Main.convert_try.
  exists m0, m1. unfold fails_before_render, fails_after_top, loaded.
  destruct (let! zip_file := ZipFile_open (content file) in
            Main.process_gerber_files zip_file) as [[ptop pbot]|e0] eqn:Hload.
  2:{ exists (Main.render_log st). repeat split; try assumption. left.
      split; [left; eauto|]. split; [apply handle_not_ok | reflexivity]. }
  cbn [in_dir Main.OUTPUT_DIR] in *.
  change {| Main.OUTPUT_DIR := Some (tmp_path tmp);
            Main.fs := with_dir m0 m1 tmp ∅;
            Main.render_log := Main.render_log st |}
    with (in_dir m0 m1 tmp ∅ (Main.render_log st)) in *.
  rewrite (render_side_in_dir m0 m1 tmp Hp ptop "output_top.png") in * by entry.
  destruct ptop as [stp|].
  - destruct (render_raster stp DPMM) as [img|e1] eqn:Et.
    2:{ eexists. repeat split; try assumption. left.
        split; [right; exists (Some stp), pbot, stp, e1; repeat split; assumption|].
        split; [apply handle_not_ok | reflexivity]. }
    rewrite (render_side_in_dir m0 m1 tmp Hp pbot "output_bottom.png") in * by entry.
    destruct pbot as [sb|].
    + destruct (render_raster sb DPMM) as [imgb|e2] eqn:Eb.
      * exists []. repeat split; try assumption. right. right. split.
        -- cbn [in_dir Main.fs].
           edestruct (measuring_succeeds m0 m1 tmp) as [images [avg ->]];
             [exact Hp | right | right | reflexivity].
           ++ exists img. rewrite lookup_insert_ne by discriminate.
              apply lookup_insert_eq.
           ++ exists imgb. apply lookup_insert_eq.
        -- exists (Some stp), (Some sb). split; [reflexivity|].
           split; intros s Hs; injection Hs as <-; eauto.
      * eexists. repeat split; try assumption. right. left.
        exists img. split; [exists stp, sb, e2; repeat split; assumption|].
        split; [apply handle_not_ok|]. rewrite insert_empty. reflexivity.
    + exists []. repeat split; try assumption. right. right. split.
      * cbn [in_dir Main.fs].
        edestruct (measuring_succeeds m0 m1 tmp) as [images [avg ->]];
          [exact Hp | right | left | reflexivity].
        -- exists img. apply lookup_insert_eq.
        -- rewrite lookup_insert_ne by discriminate. apply lookup_empty.
      * exists (Some stp), None. split; [reflexivity|].
        split; intros s Hs; [injection Hs as <-; eauto | discriminate].
  - rewrite (render_side_in_dir m0 m1 tmp Hp pbot "output_bottom.png") in * by entry.
    destruct pbot as [sb|].
    + destruct (render_raster sb DPMM) as [imgb|e2] eqn:Eb.
      * exists []. repeat split; try assumption. right. right. split.
        -- cbn [in_dir Main.fs].
           edestruct (measuring_succeeds m0 m1 tmp) as [images [avg ->]];
             [exact Hp | left | right | reflexivity].
           ++ rewrite lookup_insert_ne by discriminate. apply lookup_empty.
           ++ exists imgb. apply lookup_insert_eq.
        -- exists None, (Some sb). split; [reflexivity|].
           split; intros s Hs; [discriminate | injection Hs as <-; eauto].
      * eexists. repeat split; try assumption. left.
        split; [right; exists None, (Some sb), sb, e2; repeat split; assumption|].
        split; [apply handle_not_ok | reflexivity].
    + exists []. repeat split; try assumption. right. right. split.
      * cbn [in_dir Main.fs].
        edestruct (measuring_succeeds m0 m1 tmp) as [images [avg ->]];
          [exact Hp | left | left | reflexivity]; apply lookup_empty.
      * exists None, None. split; [reflexivity|].
        split; intros s Hs; discriminate.
Qed.

(** The three ways exclude one another. *)
Lemma fails_before_not_after (file : UploadFile) (img : FS.image) :
  fails_before_render file -> fails_after_top file img -> False.
Proof.
  intros [[e He] | (ptop & pbot & s & e & Hl & Hf & Hr)]
         (stp & sb & e' & Hl' & Ht & Hb).
  - congruence.
  - rewrite Hl in Hl'. injection Hl' as -> ->. cbn [first_job] in Hf.
    injection Hf as <-. congruence.
Qed.

Lemma fails_before_not_rendered (file : UploadFile)
  (ptop pbot : option (list string)) :
  fails_before_render file ->
  loaded file = Return (ptop, pbot) ->
  (forall s, ptop = Some s -> exists img, render_raster s DPMM = Return img) ->
  (forall s, pbot = Some s -> exists img, render_raster s DPMM = Return img) ->
  False.
Proof.
  intros [[e He] | (pt & pb & s & e & Hl & Hf & Hr)] Hl' Ht Hb.
  - congruence.
  - rewrite Hl in Hl'. injection Hl' as -> ->.
    destruct ptop as [stp|]; cbn [first_job] in Hf.
    + injection Hf as <-. destruct (Ht stp eq_refl) as [img Hi]. congruence.
    + destruct (Hb s Hf) as [img Hi]. congruence.
Qed.

Lemma fails_after_not_rendered (file : UploadFile) (img : FS.image)
  (ptop pbot : option (list string)) :
  fails_after_top file img ->
  loaded file = Return (ptop, pbot) ->
  (forall s, pbot = Some s -> exists img, render_raster s DPMM = Return img) ->
  False.
Proof.
  intros (stp & sb & e & Hl & _ & Hb) Hl' Hok.
  rewrite Hl in Hl'. injection Hl' as <- <-.
  destruct (Hok sb eq_refl) as [img' Hi]. congruence.
Qed.

(** C2. An archive none of whose entry names ends in [.gbr] makes
    [process_gerber_files] raise the no-layers [ValueError], whatever
    else the archive holds, and the request is answered with status 400;
    for an upload named [*.zip] the body carries that error. *)
Theorem no_layers_is_client_error
  (tmp : string) (file : UploadFile) (st : Main.state) (d : string)
  (t' : FS.node) (z : Zip.ZipFile) :
  FS.mkdtemp (Main.fs st) tmp = Return (d, t') ->
  ZipFile_open (content file) = Return z ->
  (forall n, In n (Zip.namelist z) -> ~ ends_with n ".gbr") ->
  Main.process_gerber_files z =
    Raise (ValueError "No valid Gerber files found in the ZIP file") /\
  status (fst (Main.convert_gerber tmp file st)) = 400 /\
  (PyStr.endswith (filename file) ".zip" = true ->
   fst (Main.convert_gerber tmp file st) =
     HTTPException 400 "No valid Gerber files found in the ZIP file").
Proof.
  intros Hm Hopen Hnone.
  assert (Hproc : Main.process_gerber_files z =
            Raise (ValueError "No valid Gerber files found in the ZIP file")).
  { rewrite (process_gerber_files_unfold z [] []); [reflexivity|].
    apply classify_no_gbr. exact Hnone. }
  split; [exact Hproc|].
  unfold Main.convert_gerber, Main.convert_begin.
  destruct (PyStr.endswith (filename file) ".zip"); cbn [negb].
  - rewrite Hm. unfold Main.convert_finish, Main.convert_try.
    rewrite Hopen. cbn [bind]. rewrite Hproc.
    split; [reflexivity | intros _; reflexivity].
  - split; [reflexivity | discriminate].
Qed.

(** X17. A conversion that runs from line 57 to its [return] with no
    other conversion in between, and whose layers decode and render,
    produces one artifact per non-empty layer group and nothing for an
    empty one: the response is the success body whose image names are
    those of the non-empty groups (top first), exactly those render jobs
    were started, and the new output directory holds exactly those
    files. With one group empty that is one job and one artifact, with
    both non-empty two. *)
Theorem convert_gerber_one_artifact_per_group
  (tmp : string) (file : UploadFile) (st : Main.state) (d : string)
  (t' : FS.node) (z : Zip.ZipFile) (top bottom : list string)
  (ptop pbot : option (list string)) :
  PyStr.endswith (filename file) ".zip" = true ->
  FS.plain tmp = true ->
  FS.mkdtemp (Main.fs st) tmp = Return (d, t') ->
  ZipFile_open (content file) = Return z ->
  Main.classify (Zip.namelist z) = (top, bottom) ->
  top <> [] \/ bottom <> [] ->
  Main.load_project z top = Return ptop ->
  Main.load_project z bottom = Return pbot ->
  (forall s, ptop = Some s -> exists img, render_raster s DPMM = Return img) ->
  (forall s, pbot = Some s -> exists img, render_raster s DPMM = Return img) ->
  exists images avg st' listing,
    Main.convert_gerber tmp file st =
      (JSONResponse (Some "Gerber files processed successfully") images
         (Some avg), st') /\
    map name images = produced top bottom /\
    Main.render_log st' =
      (Main.render_log st ++ map (FS.os_path_join d) (produced top bottom))%list /\
    Main.OUTPUT_DIR st' = Some d /\
    FS.os_listdir (Main.fs st') d = Return listing /\
    Permutation listing (produced top bottom) /\
    (bottom = [] -> map name images = ["output_top.png"]) /\
    (top = [] -> map name images = ["output_bottom.png"]) /\
    (top <> [] -> bottom <> [] ->
     map name images = ["output_top.png"; "output_bottom.png"]).
Proof.
  intros Hz Hp Hm Hopen Hcls Hne Hlt Hlb Hrt Hrb.
  destruct (convert_begin_ok tmp file st d t' Hz Hp Hm)
    as [m0 [m1 [_ [_ [_ Hbegin]]]]].
  destruct (mkdtemp_inv _ _ _ _ Hp Hm) as [_ [_ [_ [_ [_ [Hd _]]]]]].
  subst d.
  unfold Main.convert_gerber. rewrite Hbegin.
  unfold Main.convert_finish, Main.convert_try.
  rewrite Hopen. cbn [bind].
  rewrite (process_gerber_files_unfold z top bottom Hcls).
  pose proof (load_project_shape z top ptop Hlt) as Stop.
  pose proof (load_project_shape z bottom pbot Hlb) as Sbot.
  assert (Hproc :
    match top, bottom with
    | [], [] => Raise (ValueError "No valid Gerber files found in the ZIP file")
    | _, _ =>
        let! top_project := Main.load_project z top in
        let! bottom_project := Main.load_project z bottom in
        Return (top_project, bottom_project)
    end = Return (ptop, pbot)).
  { rewrite Hlt, Hlb. destruct top, bottom; try reflexivity.
    destruct Hne as [H|H]; congruence. }
  rewrite Hproc. cbn [in_dir Main.OUTPUT_DIR].
  change {| Main.OUTPUT_DIR := Some (tmp_path tmp);
            Main.fs := with_dir m0 m1 tmp ∅;
            Main.render_log := Main.render_log st |}
    with (in_dir m0 m1 tmp ∅ (Main.render_log st)).
  rewrite (render_side_in_dir m0 m1 tmp Hp ptop "output_top.png") by entry.
  destruct top as [|tn top], bottom as [|bn bottom].
  - destruct Hne as [H|H]; congruence.
  - (* only the bottom group *)
    subst ptop. destruct Sbot as [sb ->].
    destruct (Hrb sb eq_refl) as [img Himg].
    rewrite (render_side_in_dir m0 m1 tmp Hp (Some sb) "output_bottom.png") by entry.
    rewrite Himg. cbn [in_dir Main.fs].
    rewrite (measure_absent m0 m1 tmp Hp "output_top.png") by entry.
    cbn [bind].
    rewrite (measure_present m0 m1 tmp Hp "output_bottom.png" _ img) by entry.
    cbn [bind].
    take_report avg.
    eexists _, avg, _, _. split; [reflexivity|].
    cbn [in_dir Main.render_log Main.OUTPUT_DIR Main.fs produced app map name].
    rewrite listdir_dir by exact Hp. rewrite insert_empty, map_to_list_singleton.
    repeat split; try reflexivity; try discriminate; try congruence.
  - (* only the top group *)
    subst pbot. destruct Stop as [stp ->].
    destruct (Hrt stp eq_refl) as [img Himg]. rewrite Himg.
    rewrite (render_side_in_dir m0 m1 tmp Hp None "output_bottom.png") by entry.
    cbn [in_dir Main.fs].
    rewrite (measure_present m0 m1 tmp Hp "output_top.png" _ img) by entry.
    cbn [bind].
    rewrite (measure_absent m0 m1 tmp Hp "output_bottom.png") by entry.
    cbn [bind].
    take_report avg.
    eexists _, avg, _, _. split; [reflexivity|].
    cbn [in_dir Main.render_log Main.OUTPUT_DIR Main.fs produced app map name].
    rewrite listdir_dir by exact Hp. rewrite insert_empty, map_to_list_singleton.
    repeat split; try reflexivity; try discriminate; try congruence.
  - (* both groups *)
    destruct Stop as [stp ->]. destruct Sbot as [sb ->].
    destruct (Hrt stp eq_refl) as [imgt Ht]. rewrite Ht.
    destruct (Hrb sb eq_refl) as [imgb Hb].
    rewrite (render_side_in_dir m0 m1 tmp Hp (Some sb) "output_bottom.png") by entry.
    rewrite Hb. cbn [in_dir Main.fs].
    rewrite (measure_present m0 m1 tmp Hp "output_top.png" _ imgt) by entry.
    cbn [bind].
    rewrite (measure_present m0 m1 tmp Hp "output_bottom.png" _ imgb) by entry.
    cbn [bind].
    take_report avg.
    eexists _, avg, _, _. split; [reflexivity|].
    cbn [in_dir Main.render_log Main.OUTPUT_DIR Main.fs produced app map name].
    rewrite listdir_dir by exact Hp.
    split; [reflexivity|]. split; [rewrite <- app_assoc; reflexivity|].
    split; [reflexivity|]. split; [reflexivity|].
    split.
    { rewrite map_to_list_insert
        by (rewrite lookup_insert_ne by discriminate; apply lookup_empty).
      rewrite insert_empty, map_to_list_singleton. cbn [map fst].
      apply perm_swap. }
    repeat split; try reflexivity; try discriminate; try congruence.
Qed.

(** C6 (amended). An upload whose filename does not end in [.zip] is
    answered with status 400 at once: nothing is opened or extracted, no
    directory is made and the process state is left as it was. *)
Theorem other_filenames_rejected_first
  (tmp : string) (file : UploadFile) (st : Main.state) :
  PyStr.endswith (filename file) ".zip" = false ->
  Main.convert_gerber tmp file st =
    (HTTPException 400 "Uploaded file must be a ZIP file", st).
Proof.
  intros H. unfold Main.convert_gerber, Main.convert_begin. rewrite H.
  reflexivity.
Qed.

(** C7. When the render job of a layer group fails, the request fails:
    the response is an [HTTPException] with status 400 or 500 (or the 500
    of an exception raised before the [try]), never the success body,
    also when the other group rendered. *)
Theorem render_failure_fails_request
  (tmp : string) (file : UploadFile) (st : Main.state) (z : Zip.ZipFile)
  (ptop pbot : option (list string)) (s : list string) (e : exn) :
  ZipFile_open (content file) = Return z ->
  Main.process_gerber_files z = Return (ptop, pbot) ->
  ptop = Some s \/ pbot = Some s ->
  render_raster s DPMM = Raise e ->
  ((exists code detail,
      fst (Main.convert_gerber tmp file st) = HTTPException code detail /\
      (code = 400 \/ code = 500)) \/
   (exists e', fst (Main.convert_gerber tmp file st) = Uncaught e')) /\
  (forall message images avg,
     fst (Main.convert_gerber tmp file st) <> JSONResponse message images avg).
Proof.
  intros Hopen Hproc Hside Hfail.
  assert (Hgoal :
    (exists code detail,
       fst (Main.convert_gerber tmp file st) = HTTPException code detail /\
       (code = 400 \/ code = 500)) \/
    (exists e', fst (Main.convert_gerber tmp file st) = Uncaught e')).
  { unfold Main.convert_gerber, Main.convert_begin.
    destruct (PyStr.endswith (filename file) ".zip"); cbn [negb];
      [|left; eauto].
    destruct (FS.mkdtemp (Main.fs st) tmp) as [[d t']|e0]; [|right; eauto].
    left. unfold Main.convert_finish, Main.convert_try.
    rewrite Hopen. cbn [bind]. rewrite Hproc. cbn [Main.OUTPUT_DIR].
    destruct (Main.render_side ptop _ _) as [[u1|e1] st1] eqn:R1;
      [|cbn [fst]; apply handle_status].
    destruct (Main.render_side pbot _ _) as [[u2|e2] st2] eqn:R2;
      [|cbn [fst]; apply handle_status].
    exfalso. destruct Hside as [H|H]; subst.
    + apply render_side_return in R1. destruct R1 as [img R1]. congruence.
    + apply render_side_return in R2. destruct R2 as [img R2]. congruence. }
  split; [exact Hgoal|].
  intros message images avg Heq.
  destruct Hgoal as [[code [detail [H _]]] | [e' H]]; congruence.
Qed.

(** C9 (amended). A request named [*.zip] has replaced [OUTPUT_DIR]
    by a new, empty directory that did not exist before, ahead of
    everything that can fail: right after line 62 every entry name gets
    404 and the listing is empty, whatever an earlier conversion left.
    When the request then runs to its failure with no other conversion
    in between, the read handlers see what it wrote there: nothing when
    it failed before a render job succeeded (every entry name gets 404
    and the listing is empty), and [output_top.png] alone when its top
    render succeeded and its bottom render failed (that image is served
    and listed, every other entry name gets 404). A failure is always
    one of the two. *)
Theorem failed_conversion_switches_directory
  (tmp : string) (file : UploadFile) (st : Main.state) (d : string)
  (t' : FS.node) :
  PyStr.endswith (filename file) ".zip" = true ->
  FS.plain tmp = true ->
  FS.mkdtemp (Main.fs st) tmp = Return (d, t') ->
  (FS.os_path_exists (Main.fs st) d = false /\
   Main.OUTPUT_DIR (snd (Main.convert_begin tmp file st)) = Some d /\
   FS.os_listdir (Main.fs (snd (Main.convert_begin tmp file st))) d = Return [] /\
   (forall n, FS.plain n = true ->
      Main.get_image n (snd (Main.convert_begin tmp file st)) =
        HTTPException 404 "Image not found") /\
   Main.list_images (snd (Main.convert_begin tmp file st)) =
     JSONResponse None [] (Some (0, 0))) /\
  (fails_before_render file ->
   status (fst (Main.convert_gerber tmp file st)) <> 200 /\
   Main.OUTPUT_DIR (snd (Main.convert_gerber tmp file st)) = Some d /\
   (forall n, FS.plain n = true ->
      Main.get_image n (snd (Main.convert_gerber tmp file st)) =
        HTTPException 404 "Image not found") /\
   Main.list_images (snd (Main.convert_gerber tmp file st)) =
     JSONResponse None [] (Some (0, 0))) /\
  (forall img, fails_after_top file img ->
   status (fst (Main.convert_gerber tmp file st)) <> 200 /\
   Main.OUTPUT_DIR (snd (Main.convert_gerber tmp file st)) = Some d /\
   Main.get_image "output_top.png" (snd (Main.convert_gerber tmp file st)) =
     FileResponse (FS.os_path_join d "output_top.png") "image/png"
       "output_top.png" /\
   (exists avg,
      Main.list_images (snd (Main.convert_gerber tmp file st)) =
        JSONResponse None [entry_of "output_top.png" img] (Some avg)) /\
   (forall n, FS.plain n = true -> n <> "output_top.png" ->
      Main.get_image n (snd (Main.convert_gerber tmp file st)) =
        HTTPException 404 "Image not found")) /\
  (status (fst (Main.convert_gerber tmp file st)) <> 200 ->
   fails_before_render file \/ exists img, fails_after_top file img).
Proof.
  intros Hz Hp Hm.
  pose proof (mkdtemp_fresh _ _ _ _ Hm) as Hfresh.
  destruct (convert_begin_ok tmp file st d t' Hz Hp Hm)
    as (b0 & b1 & _ & _ & _ & Hbegin).
  destruct (mkdtemp_inv _ _ _ _ Hp Hm) as [_ [_ [_ [_ [_ [Hd _]]]]]].
  destruct (convert_cases tmp file st d t' Hz Hp Hm)
    as (m0 & m1 & log & _ & _ & _ & Hcases).
  subst d. split; [|split; [|split]].
  - rewrite Hbegin. cbn [snd]. split; [exact Hfresh|]. split; [reflexivity|].
    split; [|split].
    + cbn [in_dir Main.fs]. rewrite listdir_dir by exact Hp.
      rewrite map_to_list_empty. reflexivity.
    + intros n Hn. rewrite get_image_in_dir by assumption.
      rewrite lookup_empty. reflexivity.
    + apply list_images_empty_dir. exact Hp.
  - intros Hb.
    destruct Hcases as [(_ & Hs & ->) | [(img & Ha & _) | (_ & pt & pb & Hl & Ht & Hbo)]].
    + split; [exact Hs|]. split; [reflexivity|]. split.
      * intros n Hn. rewrite get_image_in_dir by assumption.
        rewrite lookup_empty. reflexivity.
      * apply list_images_empty_dir. exact Hp.
    + exfalso. exact (fails_before_not_after file img Hb Ha).
    + exfalso. exact (fails_before_not_rendered file pt pb Hb Hl Ht Hbo).
  - intros img Ha.
    destruct Hcases as [(Hb & _) | [(img' & Ha' & Hs & ->) | (_ & pt & pb & Hl & _ & Hbo)]].
    + exfalso. exact (fails_before_not_after file img Hb Ha).
    + assert (img' = img) as ->.
      { destruct Ha as (stp & sb & e & Hl & Ht & _).
        destruct Ha' as (stp' & sb' & e' & Hl' & Ht' & _).
        rewrite Hl in Hl'. injection Hl' as <- <-. congruence. }
      split; [exact Hs|]. split; [reflexivity|]. split; [|split].
      * rewrite get_image_in_dir by (assumption || reflexivity).
        rewrite lookup_singleton_eq. reflexivity.
      * destruct (list_images_one_file m0 m1 tmp log "output_top.png" img Hp
                    eq_refl eq_refl) as [avg Hl].
        exists avg. exact Hl.
      * intros n Hn Hne. rewrite get_image_in_dir by assumption.
        rewrite lookup_singleton_ne by congruence. reflexivity.
    + exfalso. exact (fails_after_not_rendered file img pt pb Ha Hl Hbo).
  - intros Hfail.
    destruct Hcases as [(Hb & _) | [(img & Ha & _) | (Hok & _)]].
    + left. exact Hb.
    + right. exists img. exact Ha.
    + contradiction.
Qed.

End Conversion.

(** ** The read handler and the output directory *)






(** ** Two conversions and one pointer *)

(** C8, on the code: two conversions whose handlers interleave at
    [await file.read()]. Request A (one top layer) passes line 62, then
    request B (three top layers) does; A then renders into the
    directory B made, and B overwrites that file. A is answered with its
    own dimensions, its own directory stays empty, and the image A is
    pointed to is B's raster. *)
Theorem interleaved_conversions_overwrite :
  let A := Demo.upload "a.zip" "PKTopA.gbr" in
  let B := Demo.upload "b.zip" "PKTop1.gbr,Top2.gbr,Top3.gbr" in
  let s1 := snd (Main.convert_begin "tmpA" A Demo.boot) in
  let s2 := snd (Main.convert_begin "tmpB" B s1) in
  let '(rA, s3) := Main.convert_finish (ext := Demo.ext) A s2 in
  let '(rB, s4) := Main.convert_finish (ext := Demo.ext) B s3 in
  rA = JSONResponse (Some "Gerber files processed successfully")
         [{| name := "output_top.png"; width := 1; height := 5 |}]
         (Some (1, 5)) /\
  rB = JSONResponse (Some "Gerber files processed successfully")
         [{| name := "output_top.png"; width := 3; height := 5 |}]
         (Some (3, 5)) /\
  Main.render_log s4 = ["/tmp/tmpB/output_top.png"; "/tmp/tmpB/output_top.png"] /\
  FS.os_listdir (Main.fs s4) "/tmp/tmpA" = Return [] /\
  FS.Image_open (Main.fs s3) "/tmp/tmpB/output_top.png" = Return (FS.Image 40 200) /\
  Main.get_image "output_top.png" s4 =
    FileResponse "/tmp/tmpB/output_top.png" "image/png" "output_top.png" /\
  FS.Image_open (Main.fs s4) "/tmp/tmpB/output_top.png" = Return (FS.Image 120 200).
Proof. vm_compute. repeat split; reflexivity. Qed.

(** C5, on the code: a conversion with bottom layers only whose handler
    interleaves at [await file.read()] with a conversion that has top
    layers. Request A (two top layers) passes line 62, then request B
    (one bottom layer) does; A then renders into the directory B made.
    B has no top group and starts one render job, yet
    [os.path.exists(output_top)] finds the file of A there: the response
    of B lists two images, with the average over both. Run with no
    other conversion in between, B is answered with its one image. *)
Theorem interleaved_conversion_lists_two_images :
  let A := Demo.upload "a.zip" "PKTopA.gbr,Top2.gbr" in
  let B := Demo.upload "b.zip" "PKBottomB.gbr" in
  let s1 := snd (Main.convert_begin "tmpA" A Demo.boot) in
  let s2 := snd (Main.convert_begin "tmpB" B s1) in
  let '(rA, s3) := Main.convert_finish (ext := Demo.ext) A s2 in
  let '(rB, s4) := Main.convert_finish (ext := Demo.ext) B s3 in
  (let! z := Demo.open (content B) in Return (Main.classify (Zip.namelist z)))
  = Return ([], ["BottomB.gbr"]) /\
  Main.render_log s3 = ["/tmp/tmpB/output_top.png"] /\
  Main.render_log s4 =
    ["/tmp/tmpB/output_top.png"; "/tmp/tmpB/output_bottom.png"] /\
  rB = JSONResponse (Some "Gerber files processed successfully")
         [{| name := "output_top.png"; width := 2; height := 5 |};
          {| name := "output_bottom.png"; width := 1; height := 5 |}]
         (Some (2, 5)) /\
  fst (Main.convert_gerber (ext := Demo.ext) "tmpB" B Demo.boot) =
    JSONResponse (Some "Gerber files processed successfully")
      [{| name := "output_bottom.png"; width := 1; height := 5 |}]
      (Some (1, 5)).
Proof. vm_compute. repeat split; reflexivity. Qed.

(** C9, counterexample: after a successful conversion, a
    request named [*.zip] whose top layers render and whose bottom layer
    does not is answered with 500, and [output_top.png] is then served
    (not 404) and listed, from the directory of the failed request. *)
Lemma failed_conversion_leaves_top_image :
  let st1 :=
    snd (Main.convert_gerber (ext := Demo.ext) "tmpA"
           (Demo.upload "first.zip" "PKTopLayer.gbr") Demo.boot) in
  let r2 :=
    Main.convert_gerber (ext := Demo.ext) "tmpB"
      (Demo.upload "second.zip" "PKTop1.gbr,Top2.gbr,bad.gbr") st1 in
  Main.get_image "output_top.png" st1 =
    FileResponse "/tmp/tmpA/output_top.png" "image/png" "output_top.png" /\
  fst r2 = HTTPException 500 "An error occurred: render failed" /\
  Main.get_image "output_top.png" (snd r2) =
    FileResponse "/tmp/tmpB/output_top.png" "image/png" "output_top.png" /\
  status (Main.get_image "output_top.png" (snd r2)) <> 404 /\
  Main.list_images (snd r2) =
    JSONResponse None [{| name := "output_top.png"; width := 2; height := 5 |}]
      (Some (2, 5)).
Proof. vm_compute. repeat split; try reflexivity. discriminate. Qed.

(** C6, counterexample: an upload named [*.zip] whose content
    is not a zip container is answered with 500, after the output
    directory has been replaced. *)
Lemma invalid_container_is_server_error :
  let file := Demo.upload "board.zip" "not a zip container" in
  let r := Main.convert_gerber (ext := Demo.ext) "tmpA" file Demo.boot in
  ZipFile_open (Externals := Demo.ext) (content file) =
    Raise (BadZipFile "File is not a zip file") /\
  fst r = HTTPException 500 "An error occurred: File is not a zip file" /\
  status (fst r) <> 400 /\
  Main.OUTPUT_DIR (snd r) = Some "/tmp/tmpA" /\
  FS.os_path_exists (Main.fs (snd r)) "/tmp/tmpA" = true /\
  FS.os_path_exists (Main.fs Demo.boot) "/tmp/tmpA" = false.
Proof. vm_compute. repeat split; try reflexivity. discriminate. Qed.

(** ** The statements at concrete inputs *)

Lemma convert_gerber_one_artifact_per_group_demo :
  exists images avg st' listing,
    Main.convert_gerber (ext := Demo.ext) "tmpA"
      (Demo.upload "board.zip" "PKBottomLayer.gbr,readme.txt") Demo.boot =
      (JSONResponse (Some "Gerber files processed successfully") images
         (Some avg), st') /\
    map name images = ["output_bottom.png"] /\
    Main.render_log st' = ["/tmp/tmpA/output_bottom.png"] /\
    FS.os_listdir (Main.fs st') "/tmp/tmpA" = Return listing /\
    Permutation listing ["output_bottom.png"].
Proof.
  destruct (convert_gerber_one_artifact_per_group (ext := Demo.ext) "tmpA"
              (Demo.upload "board.zip" "PKBottomLayer.gbr,readme.txt") Demo.boot
              "/tmp/tmpA"
              (with_dir {[ "tmp" := FS.Dir ∅;
                           "etc" := FS.Dir {[ "passwd" := FS.File None ]} ]}
                        ∅ "tmpA" ∅)
              {| Zip.entries := [("BottomLayer.gbr", Return (Demo.raw "BottomLayer.gbr"));
                                 ("readme.txt", Return (Demo.raw "readme.txt"))] |}
              [] ["BottomLayer.gbr"] None (Some ["BottomLayer.gbr"]))
    as (images & avg & st' & listing & H1 & H2 & H3 & _ & H5 & H6 & _).
  - reflexivity.
  - reflexivity.
  - vm_compute. reflexivity.
  - reflexivity.
  - reflexivity.
  - right. discriminate.
  - reflexivity.
  - reflexivity.
  - intros s H. discriminate.
  - intros s H. injection H as <-. eexists. reflexivity.
  - exists images, avg, st', listing. repeat split; assumption.
Defined.


Lemma no_layers_is_client_error_demo :
  Main.process_gerber_files (ext := Demo.ext)
    {| Zip.entries := [("readme.txt", Return (Demo.raw "readme.txt"));
                       ("holes.drl", Return (Demo.raw "holes.drl"))] |} =
    Raise (ValueError "No valid Gerber files found in the ZIP file") /\
  fst (Main.convert_gerber (ext := Demo.ext) "tmpA"
         (Demo.upload "docs.zip" "PKreadme.txt,holes.drl") Demo.boot) =
    HTTPException 400 "No valid Gerber files found in the ZIP file".
Proof.
  destruct (no_layers_is_client_error (ext := Demo.ext) "tmpA"
              (Demo.upload "docs.zip" "PKreadme.txt,holes.drl") Demo.boot
              "/tmp/tmpA"
              (with_dir {[ "tmp" := FS.Dir ∅;
                           "etc" := FS.Dir {[ "passwd" := FS.File None ]} ]}
                        ∅ "tmpA" ∅)
              {| Zip.entries := [("readme.txt", Return (Demo.raw "readme.txt"));
                                 ("holes.drl", Return (Demo.raw "holes.drl"))] |})
    as (H1 & _ & H3).
  - vm_compute. reflexivity.
  - reflexivity.
  - intros n Hn Hends. apply endswith_spec in Hends.
    cbn in Hn. destruct Hn as [<- | [<- | []]]; vm_compute in Hends; discriminate.
  - split; [exact H1 | apply H3; reflexivity].
Defined.

Lemma other_filenames_rejected_first_demo :
  Main.convert_gerber (ext := Demo.ext) "tmpA"
    (Demo.upload "board.tar" "PKTopLayer.gbr") Demo.boot =
  (HTTPException 400 "Uploaded file must be a ZIP file", Demo.boot).
Proof.
  apply (other_filenames_rejected_first (ext := Demo.ext) "tmpA"
           (Demo.upload "board.tar" "PKTopLayer.gbr") Demo.boot).
  reflexivity.
Defined.

Lemma render_failure_fails_request_demo :
  (exists code detail,
     fst (Main.convert_gerber (ext := Demo.ext) "tmpA"
            (Demo.upload "board.zip" "PKTopLayer.gbr,bad.gbr") Demo.boot)
     = HTTPException code detail /\ (code = 400 \/ code = 500)) \/
  (exists e',
     fst (Main.convert_gerber (ext := Demo.ext) "tmpA"
            (Demo.upload "board.zip" "PKTopLayer.gbr,bad.gbr") Demo.boot)
     = Uncaught e').
Proof.
  apply (render_failure_fails_request (ext := Demo.ext) "tmpA"
           (Demo.upload "board.zip" "PKTopLayer.gbr,bad.gbr") Demo.boot
           {| Zip.entries := [("TopLayer.gbr", Return (Demo.raw "TopLayer.gbr"));
                              ("bad.gbr", Return (Demo.raw "bad.gbr"))] |}
           (Some ["TopLayer.gbr"]) (Some ["bad.gbr"]) ["bad.gbr"]
           (Exn false "render failed")).
  - reflexivity.
  - reflexivity.
  - right. reflexivity.
  - reflexivity.
Defined.

Lemma failed_conversion_switches_directory_demo :
  let st1 :=
    snd (Main.convert_gerber (ext := Demo.ext) "tmpA"
           (Demo.upload "first.zip" "PKTopLayer.gbr") Demo.boot) in
  let r2 :=
    Main.convert_gerber (ext := Demo.ext) "tmpB"
      (Demo.upload "second.zip" "PKreadme.txt") st1 in
  Main.get_image "output_top.png" st1 =
    FileResponse "/tmp/tmpA/output_top.png" "image/png" "output_top.png" /\
  status (fst r2) <> 200 /\
  Main.OUTPUT_DIR (snd r2) = Some "/tmp/tmpB" /\
  Main.get_image "output_top.png" (snd r2) = HTTPException 404 "Image not found" /\
  Main.list_images (snd r2) = JSONResponse None [] (Some (0, 0)).
Proof.
  intros st1 r2.
  edestruct (failed_conversion_switches_directory (ext := Demo.ext) "tmpB"
               (Demo.upload "second.zip" "PKreadme.txt") st1 "/tmp/tmpB")
    as (_ & H & _).
  - reflexivity.
  - reflexivity.
  - vm_compute. reflexivity.
  - destruct H as (H1 & H2 & H3 & H4).
    + left. eexists. vm_compute. reflexivity.
    + split; [vm_compute; reflexivity|]. split; [exact H1|].
      split; [exact H2|]. split; [apply H3; reflexivity | exact H4].
Defined.

(** * The rest of the handlers *)

(** ** The outcome of a conversion *)

(** An entry of the output directory that is no directory. *)
Ltac entry_free :=
  intros ?; unfold dir_of, put;
  rewrite ?lookup_insert_ne by discriminate;
  rewrite ?lookup_empty; discriminate.

Section Outcome.
Context {ext : Externals}.

Lemma report_value (message : option string) (images : list image_entry)
  (tw th N : Z) :
  Main.report message (images, tw, th, N) =
  Return (JSONResponse message images
            (Some (if 0 <? N then PyNum.round (inject_Z tw / inject_Z N) else 0,
                   if 0 <? N then PyNum.round (inject_Z th / inject_Z N) else 0))).
Proof. unfold Main.report. rewrite !average_value. reflexivity. Qed.

Lemma dir_of_top (rt rb : option FS.image) :
  dir_of rt rb !! "output_top.png" =
  match rt with Some img => Some (FS.File (Some img)) | None => None end.
Proof.
  unfold dir_of, put. destruct rt, rb;
    rewrite ?(lookup_insert_ne _ "output_bottom.png" "output_top.png") by discriminate;
    rewrite ?lookup_insert_eq, ?lookup_empty; reflexivity.
Qed.

Lemma dir_of_bottom (rt rb : option FS.image) :
  dir_of rt rb !! "output_bottom.png" =
  match rb with Some img => Some (FS.File (Some img)) | None => None end.
Proof.
  unfold dir_of, put. destruct rt, rb;
    rewrite ?lookup_insert_eq;
    rewrite ?(lookup_insert_ne _ "output_top.png" "output_bottom.png") by discriminate;
    rewrite ?lookup_empty; reflexivity.
Qed.

Lemma dir_of_other (rt rb : option FS.image) (n : string) :
  n <> "output_top.png" -> n <> "output_bottom.png" -> dir_of rt rb !! n = None.
Proof.
  intros H1 H2. unfold dir_of, put. destruct rt, rb;
    rewrite ?lookup_insert_ne by congruence; apply lookup_empty.
Qed.

Lemma measure_dir_of (m0 m1 : gmap string FS.node) (tmp : string)
  (rt rb : option FS.image) (acc : Main.tally) :
  FS.plain tmp = true ->
  Main.measure_if_exists (with_dir m0 m1 tmp (dir_of rt rb))
    (FS.os_path_join (tmp_path tmp) "output_top.png") "output_top.png" acc
  = Return (tally_add "output_top.png" rt acc) /\
  Main.measure_if_exists (with_dir m0 m1 tmp (dir_of rt rb))
    (FS.os_path_join (tmp_path tmp) "output_bottom.png") "output_bottom.png" acc
  = Return (tally_add "output_bottom.png" rb acc).
Proof.
  intros Hp. destruct acc as [[[images tw] th] N]. split.
  - destruct rt as [img|]; cbn [tally_add].
    + rewrite (measure_present m0 m1 tmp Hp _ _ img);
        [reflexivity | reflexivity | apply dir_of_top].
    + apply measure_absent; [exact Hp | reflexivity | apply dir_of_top].
  - destruct rb as [img|]; cbn [tally_add].
    + rewrite (measure_present m0 m1 tmp Hp _ _ img);
        [reflexivity | reflexivity | apply dir_of_bottom].
    + apply measure_absent; [exact Hp | reflexivity | apply dir_of_bottom].
Qed.

Lemma measuring_dir_of (m0 m1 : gmap string FS.node) (tmp : string)
  (rt rb : option FS.image) (message : option string) :
  FS.plain tmp = true ->
  (let! acc := Main.measure_if_exists (with_dir m0 m1 tmp (dir_of rt rb))
                 (FS.os_path_join (tmp_path tmp) "output_top.png")
                 "output_top.png" ([], 0, 0, 0) in
   let! acc := Main.measure_if_exists (with_dir m0 m1 tmp (dir_of rt rb))
                 (FS.os_path_join (tmp_path tmp) "output_bottom.png")
                 "output_bottom.png" acc in
   Main.report message acc)
  = Main.report message (tally_of rt rb).
Proof.
  intros Hp.
  destruct (measure_dir_of m0 m1 tmp rt rb ([], 0, 0, 0) Hp) as [-> _].
  cbn [bind].
  destruct (measure_dir_of m0 m1 tmp rt rb
              (tally_add "output_top.png" rt ([], 0, 0, 0)) Hp) as [_ ->].
  reflexivity.
Qed.

Lemma measured_outcome (m0 m1 : gmap string FS.node) (tmp : string)
  (rt rb : option FS.image) (log : list string) :
  FS.plain tmp = true ->
  let st2 := in_dir m0 m1 tmp (dir_of rt rb) log in
  let res :=
    match
      (let! acc := Main.measure_if_exists (Main.fs st2)
                     (FS.os_path_join (tmp_path tmp) "output_top.png")
                     "output_top.png" ([], 0, 0, 0) in
       let! acc := Main.measure_if_exists (Main.fs st2)
                     (FS.os_path_join (tmp_path tmp) "output_bottom.png")
                     "output_bottom.png" acc in
       Main.report (Some "Gerber files processed successfully") acc, st2)
    with
    | (Return r, st') => (r, st')
    | (Raise e, st') => (Main.handle e, st')
    end in
  snd res = st2 /\ ended (fst res) rt rb.
Proof.
  intros Hp st2 res. subst res st2. cbn [in_dir Main.fs].
  rewrite measuring_dir_of by exact Hp. unfold ended.
  destruct (tally_of rt rb) as [[[images tw] th] N].
  rewrite report_value. split; [reflexivity | right; reflexivity].
Qed.

Lemma handled_outcome (e : exn) (st2 : Main.state) (rt rb : option FS.image) :
  snd (Main.handle e, st2) = st2 /\ ended (fst (Main.handle e, st2)) rt rb.
Proof. split; [reflexivity | left; exists e; reflexivity]. Qed.

(** What a request named [*.zip] leaves: the new directory with the
    rasters that were written. *)
Lemma convert_outcome (tmp : string) (file : UploadFile) (st : Main.state)
  (d : string) (t' : FS.node) :
  PyStr.endswith (filename file) ".zip" = true ->
  FS.plain tmp = true ->
  FS.mkdtemp (Main.fs st) tmp = Return (d, t') ->
  exists m0 m1 rt rb log,
    Main.fs st = FS.Dir m0 /\ m0 !! "tmp" = Some (FS.Dir m1) /\
    m1 !! tmp = None /\ d = tmp_path tmp /\
    snd (Main.convert_gerber tmp file st) = in_dir m0 m1 tmp (dir_of rt rb) log /\
    ended (fst (Main.convert_gerber tmp file st)) rt rb.
Proof.
  intros Hz Hp Hm.
  destruct (convert_begin_ok tmp file st d t' Hz Hp Hm)
    as [m0 [m1 [H0 [H1 [H2 Hbegin]]]]].
  destruct (mkdtemp_inv _ _ _ _ Hp Hm) as [_ [_ [_ [_ [_ [Hd _]]]]]].
  unfold Main.convert_gerber. rewrite Hbegin.
  unfold Main.convert_finish, Main.convert_try.
  exists m0, m1.
  assert (Hend : forall rt rb log res,
            snd res = in_dir m0 m1 tmp (dir_of rt rb) log /\
            ended (fst res) rt rb ->
            exists rt' rb' log',
              Main.fs st = FS.Dir m0 /\ m0 !! "tmp" = Some (FS.Dir m1) /\
              m1 !! tmp = None /\ d = tmp_path tmp /\
              snd res = in_dir m0 m1 tmp (dir_of rt' rb') log' /\
              ended (fst res) rt' rb').
  { intros rt rb log res [Hs Hr]. exists rt, rb, log. repeat split; assumption. }
  destruct (ZipFile_open (content file)) as [z|e0]; cbn [bind];
    [|exact (Hend None None _ _ (handled_outcome e0 _ None None))].
  destruct (Main.process_gerber_files z) as [[ptop pbot]|e0];
    [|exact (Hend None None _ _ (handled_outcome e0 _ None None))].
  cbn [in_dir Main.OUTPUT_DIR].
  change {| Main.OUTPUT_DIR := Some (tmp_path tmp);
            Main.fs := with_dir m0 m1 tmp ∅;
            Main.render_log := Main.render_log st |}
    with (in_dir m0 m1 tmp (dir_of None None) (Main.render_log st)).
  rewrite (render_side_in_dir m0 m1 tmp Hp ptop "output_top.png")
    by (reflexivity || entry_free).
  destruct ptop as [stp|].
  - destruct (render_raster stp DPMM) as [img|e1];
      [|exact (Hend None None _ _ (handled_outcome e1 _ None None))].
    change (<["output_top.png" := FS.File (Some img)]> (dir_of None None))
      with (dir_of (Some img) None).
    rewrite (render_side_in_dir m0 m1 tmp Hp pbot "output_bottom.png")
      by (reflexivity || entry_free).
    destruct pbot as [sb|];
      [|exact (Hend _ _ _ _ (measured_outcome m0 m1 tmp (Some img) None _ Hp))].
    destruct (render_raster sb DPMM) as [imgb|e2];
      [|exact (Hend _ _ _ _ (handled_outcome e2 _ (Some img) None))].
    exact (Hend _ _ _ _ (measured_outcome m0 m1 tmp (Some img) (Some imgb) _ Hp)).
  - rewrite (render_side_in_dir m0 m1 tmp Hp pbot "output_bottom.png")
      by (reflexivity || entry_free).
    destruct pbot as [sb|];
      [|exact (Hend _ _ _ _ (measured_outcome m0 m1 tmp None None _ Hp))].
    destruct (render_raster sb DPMM) as [imgb|e2];
      [|exact (Hend _ _ _ _ (handled_outcome e2 _ None None))].
    exact (Hend _ _ _ _ (measured_outcome m0 m1 tmp None (Some imgb) _ Hp)).
Qed.

End Outcome.

(** ** Reading back what a conversion wrote *)

Section ReadBack.
Context {ext : Externals}.

Lemma handle_not_json (e : exn) (message : option string)
  (images : list image_entry) (avg : option (Z * Z)) :
  Main.handle e <> JSONResponse message images avg.
Proof. unfold Main.handle. destruct (isinstance_ValueError e); discriminate. Qed.

Lemma list_loop_raster (m0 m1 : gmap string FS.node) (tmp : string)
  (c : gmap string FS.node) (n : string) (img : FS.image) (l : list string)
  (acc : Main.tally) :
  FS.plain tmp = true -> FS.plain n = true ->
  PyStr.endswith n ".png" = true ->
  c !! n = Some (FS.File (Some img)) ->
  Main.list_loop (with_dir m0 m1 tmp c) (tmp_path tmp) (n :: l) acc =
  Main.list_loop (with_dir m0 m1 tmp c) (tmp_path tmp) l
    (tally_add n (Some img) acc).
Proof.
  intros Hp Hn Hpng Hc. cbn [Main.list_loop]. rewrite Hpng.
  destruct acc as [[[images tw] th] N]. unfold Main.measure.
  rewrite (Image_open_entry m0 m1 tmp c Hp n img) by assumption.
  reflexivity.
Qed.

Lemma listing_dir_of (rt rb : option FS.image) :
  let l := map fst (map_to_list (dir_of rt rb)) in
  match rt, rb with
  | None, None => l = []
  | Some _, None => l = ["output_top.png"]
  | None, Some _ => l = ["output_bottom.png"]
  | Some _, Some _ =>
      l = ["output_top.png"; "output_bottom.png"] \/
      l = ["output_bottom.png"; "output_top.png"]
  end.
Proof.
  cbv zeta. unfold dir_of, put. destruct rt as [it|], rb as [ib|].
  - assert (H : Permutation
                  (map fst (map_to_list
                     (<["output_bottom.png" := FS.File (Some ib)]>
                        (<["output_top.png" := FS.File (Some it)]>
                           (∅ : gmap string FS.node)))))
                  ["output_bottom.png"; "output_top.png"]).
    { rewrite map_to_list_insert
        by (rewrite lookup_insert_ne by discriminate; apply lookup_empty).
      rewrite insert_empty, map_to_list_singleton. reflexivity. }
    symmetry in H. apply Permutation_length_2_inv in H.
    destruct H as [H|H]; [right | left]; exact H.
  - rewrite insert_empty, map_to_list_singleton. reflexivity.
  - rewrite insert_empty, map_to_list_singleton. reflexivity.
  - rewrite map_to_list_empty. reflexivity.
Qed.

(** The listing of a directory of rasters carries the tally of the
    conversion, up to the order of the images. *)
Lemma list_images_dir_of (m0 m1 : gmap string FS.node) (tmp : string)
  (rt rb : option FS.image) (log : list string)
  (images : list image_entry) (tw th N : Z) :
  FS.plain tmp = true ->
  tally_of rt rb = (images, tw, th, N) ->
  exists images' avg,
    Main.list_images (in_dir m0 m1 tmp (dir_of rt rb) log)
    = JSONResponse None images' (Some avg) /\
    Permutation images' images /\
    Main.report None (images, tw, th, N)
    = Return (JSONResponse None images (Some avg)).
Proof.
  intros Hp Ht. unfold Main.list_images.
  cbn [in_dir Main.OUTPUT_DIR Main.fs]. rewrite truthy_tmp_path.
  rewrite listdir_dir by exact Hp. cbn [bind].
  pose proof (listing_dir_of rt rb) as Hl. cbv zeta in Hl.
  pose proof (dir_of_top rt rb) as Dt. pose proof (dir_of_bottom rt rb) as Db.
  unfold tally_of, tally_add in Ht. rewrite report_value.
  destruct rt as [it|], rb as [ib|]; cbn [entry_of width height] in Ht;
    injection Ht as <- <- <- <-.
  - destruct Hl as [-> | ->].
    + rewrite (list_loop_raster m0 m1 tmp _ _ it) by (assumption || reflexivity).
      rewrite (list_loop_raster m0 m1 tmp _ _ ib) by (assumption || reflexivity).
      cbn [Main.list_loop bind tally_add]. rewrite report_value.
      eexists _, _. split; [reflexivity|]. split; reflexivity.
    + rewrite (list_loop_raster m0 m1 tmp _ _ ib) by (assumption || reflexivity).
      rewrite (list_loop_raster m0 m1 tmp _ _ it) by (assumption || reflexivity).
      cbn [Main.list_loop bind tally_add]. rewrite report_value.
      cbn [entry_of width height].
      replace (0 + PyNum.round (inject_Z (FS.width_px ib) / inject_Z DPMM) +
               PyNum.round (inject_Z (FS.width_px it) / inject_Z DPMM))
        with (0 + PyNum.round (inject_Z (FS.width_px it) / inject_Z DPMM) +
              PyNum.round (inject_Z (FS.width_px ib) / inject_Z DPMM)) by lia.
      replace (0 + PyNum.round (inject_Z (FS.height_px ib) / inject_Z DPMM) +
               PyNum.round (inject_Z (FS.height_px it) / inject_Z DPMM))
        with (0 + PyNum.round (inject_Z (FS.height_px it) / inject_Z DPMM) +
              PyNum.round (inject_Z (FS.height_px ib) / inject_Z DPMM)) by lia.
      eexists _, _. split; [reflexivity|]. split; [apply perm_swap | reflexivity].
  - rewrite Hl.
    rewrite (list_loop_raster m0 m1 tmp _ _ it) by (assumption || reflexivity).
    cbn [Main.list_loop bind tally_add]. rewrite report_value.
    eexists _, _. split; [reflexivity|]. split; reflexivity.
  - rewrite Hl.
    rewrite (list_loop_raster m0 m1 tmp _ _ ib) by (assumption || reflexivity).
    cbn [Main.list_loop bind tally_add]. rewrite report_value.
    eexists _, _. split; [reflexivity|]. split; reflexivity.
  - rewrite Hl. cbn [Main.list_loop bind]. rewrite report_value.
    eexists _, _. split; [reflexivity|]. split; reflexivity.
Qed.

(** X1. After a conversion that succeeded, [GET /list-images/] reports
    the images of the conversion's own response, in some order, with the
    same average dimensions. *)
Theorem list_images_agrees_with_conversion
  (tmp : string) (file : UploadFile) (st : Main.state) (d : string)
  (t' : FS.node) (message : option string) (images : list image_entry)
  (avg : option (Z * Z)) :
  PyStr.endswith (filename file) ".zip" = true ->
  FS.plain tmp = true ->
  FS.mkdtemp (Main.fs st) tmp = Return (d, t') ->
  fst (Main.convert_gerber tmp file st) = JSONResponse message images avg ->
  exists images',
    Main.list_images (snd (Main.convert_gerber tmp file st))
    = JSONResponse None images' avg /\
    Permutation images' images.
Proof.
  intros Hz Hp Hm Hok.
  destruct (convert_outcome tmp file st d t' Hz Hp Hm)
    as (m0 & m1 & rt & rb & log & _ & _ & _ & _ & -> & Hend).
  rewrite Hok in Hend. destruct Hend as [[e He] | Hr].
  { exfalso. symmetry in He. exact (handle_not_json _ _ _ _ He). }
  destruct (tally_of rt rb) as [[[imgs tw] th] N] eqn:Et.
  destruct (list_images_dir_of m0 m1 tmp rt rb log imgs tw th N Hp Et)
    as (images' & avg' & Hl & Hperm & Hrep).
  rewrite report_value in Hr, Hrep.
  injection Hr as <- <- <-. injection Hrep as <-.
  exists images'. split; assumption.
Qed.

(** X2. Every image named in the response of a conversion can be fetched:
    [GET /images/{name}] answers with the file of that name in the output
    directory, and the raster stored there has the pixel size the
    reported millimetres were computed from. *)
Theorem converted_images_are_served
  (tmp : string) (file : UploadFile) (st : Main.state) (d : string)
  (t' : FS.node) (message : option string) (images : list image_entry)
  (avg : option (Z * Z)) (e : image_entry) :
  PyStr.endswith (filename file) ".zip" = true ->
  FS.plain tmp = true ->
  FS.mkdtemp (Main.fs st) tmp = Return (d, t') ->
  fst (Main.convert_gerber tmp file st) = JSONResponse message images avg ->
  In e images ->
  exists img,
    Main.get_image (name e) (snd (Main.convert_gerber tmp file st))
    = FileResponse (FS.os_path_join d (name e)) "image/png" (name e) /\
    FS.Image_open (Main.fs (snd (Main.convert_gerber tmp file st)))
      (FS.os_path_join d (name e)) = Return img /\
    Main.pixels_to_mm (FS.width_px img) = Return (width e) /\
    Main.pixels_to_mm (FS.height_px img) = Return (height e).
Proof.
  intros Hz Hp Hm Hok Hin.
  destruct (convert_outcome tmp file st d t' Hz Hp Hm)
    as (m0 & m1 & rt & rb & log & _ & _ & _ & -> & -> & Hend).
  rewrite Hok in Hend. destruct Hend as [[e0 He] | Hr].
  { exfalso. symmetry in He. exact (handle_not_json _ _ _ _ He). }
  pose proof (dir_of_top rt rb) as Dt. pose proof (dir_of_bottom rt rb) as Db.
  assert (Hcase : (exists img, rt = Some img /\ e = entry_of "output_top.png" img) \/
                  (exists img, rb = Some img /\ e = entry_of "output_bottom.png" img)).
  { unfold tally_of, tally_add in Hr.
    destruct rt as [it|], rb as [ib|]; rewrite report_value in Hr;
      injection Hr as <- <- <-; cbn [app In] in Hin.
    - destruct Hin as [<- | [<- | []]]; eauto.
    - destruct Hin as [<- | []]; eauto.
    - destruct Hin as [<- | []]; eauto.
    - destruct Hin. }
  destruct Hcase as [[img [-> ->]] | [img [-> ->]]]; exists img; cbn [entry_of name].
  - rewrite get_image_in_dir by (assumption || reflexivity). rewrite Dt.
    cbn [in_dir Main.fs].
    rewrite (Image_open_entry m0 m1 tmp _ Hp _ img) by (assumption || reflexivity).
    repeat split; reflexivity.
  - rewrite get_image_in_dir by (assumption || reflexivity). rewrite Db.
    cbn [in_dir Main.fs].
    rewrite (Image_open_entry m0 m1 tmp _ Hp _ img) by (assumption || reflexivity).
    repeat split; reflexivity.
Qed.

End ReadBack.

(** ** What a conversion leaves in place, and the shutdown hook *)

Section KeepAndCleanup.
Context {ext : Externals}.

Lemma lookup_with_dir_file (m0 m1 : gmap string FS.node) (tmp : string)
  (c : gmap string FS.node) (q : FS.path) (r : option FS.image) :
  m0 !! "tmp" = Some (FS.Dir m1) -> m1 !! tmp = None ->
  FS.lookup (FS.Dir m0) q = Some (FS.File r) ->
  FS.lookup (with_dir m0 m1 tmp c) q = Some (FS.File r).
Proof.
  intros H0 H1. unfold with_dir. destruct q as [|x q]; [discriminate|].
  cbn [FS.lookup]. destruct (decide (x = "tmp")) as [->|Hx].
  - rewrite H0, lookup_insert_eq. destruct q as [|y q]; [discriminate|].
    cbn [FS.lookup]. destruct (decide (y = tmp)) as [->|Hy].
    + rewrite H1. discriminate.
    + rewrite lookup_insert_ne by congruence. trivial.
  - rewrite lookup_insert_ne by congruence. trivial.
Qed.

Lemma lookup_with_dir_dir (m0 m1 : gmap string FS.node) (tmp : string)
  (c : gmap string FS.node) (q : FS.path) :
  m0 !! "tmp" = Some (FS.Dir m1) -> m1 !! tmp = None ->
  FS.is_dir (FS.Dir m0) q = true ->
  FS.is_dir (with_dir m0 m1 tmp c) q = true.
Proof.
  intros H0 H1. unfold FS.is_dir, with_dir. destruct q as [|x q]; [reflexivity|].
  cbn [FS.lookup]. destruct (decide (x = "tmp")) as [->|Hx].
  - rewrite H0, lookup_insert_eq. destruct q as [|y q]; [reflexivity|].
    cbn [FS.lookup]. destruct (decide (y = tmp)) as [->|Hy].
    + rewrite H1. discriminate.
    + rewrite lookup_insert_ne by congruence. trivial.
  - rewrite lookup_insert_ne by congruence. trivial.
Qed.

(** X3. A conversion request never removes or changes what was on the
    disk before it: whatever its outcome, every file that existed is
    still there with the same content, and every directory is still a
    directory. The output directories of earlier conversions are among
    them: they stay until the process ends. *)
Theorem conversion_keeps_existing_entries
  (tmp : string) (file : UploadFile) (st : Main.state) (q : FS.path) :
  FS.plain tmp = true ->
  (forall r, FS.lookup (Main.fs st) q = Some (FS.File r) ->
     FS.lookup (Main.fs (snd (Main.convert_gerber tmp file st))) q
     = Some (FS.File r)) /\
  (FS.is_dir (Main.fs st) q = true ->
   FS.is_dir (Main.fs (snd (Main.convert_gerber tmp file st))) q = true).
Proof.
  intros Hp.
  destruct (PyStr.endswith (filename file) ".zip") eqn:Hz.
  2:{ unfold Main.convert_gerber, Main.convert_begin. rewrite Hz.
      split; trivial. }
  destruct (FS.mkdtemp (Main.fs st) tmp) as [[d t']|e] eqn:Hm.
  2:{ unfold Main.convert_gerber, Main.convert_begin. rewrite Hz, Hm.
      split; trivial. }
  destruct (convert_outcome tmp file st d t' Hz Hp Hm)
    as (m0 & m1 & rt & rb & log & H0 & H1 & H2 & _ & -> & _).
  rewrite H0. cbn [in_dir Main.fs]. split.
  - intros r. apply lookup_with_dir_file; assumption.
  - apply lookup_with_dir_dir; assumption.
Qed.

Lemma remove_dir (m0 m1 : gmap string FS.node) (tmp : string)
  (c : gmap string FS.node) :
  m0 !! "tmp" = Some (FS.Dir m1) -> m1 !! tmp = None ->
  FS.remove (with_dir m0 m1 tmp c) ["tmp"; tmp] = Some (FS.Dir m0).
Proof.
  intros H0 H1. unfold with_dir. cbn [FS.remove].
  rewrite !lookup_insert_eq, delete_insert_eq, insert_insert_eq.
  rewrite (delete_id m1 tmp H1). rewrite (insert_id m0 "tmp" _ H0).
  reflexivity.
Qed.

Lemma resolve_gone_dir (m0 m1 : gmap string FS.node) (tmp : string) :
  FS.plain tmp = true -> m0 !! "tmp" = Some (FS.Dir m1) ->
  FS.resolve (FS.Dir m0) (tmp_path tmp) = Some ["tmp"; tmp].
Proof.
  intros Hp H0. unfold FS.resolve. unfold tmp_path at 1.
  rewrite absolute_tmp_path, split_tmp_path by exact Hp. cbn [fold_left].
  rewrite walk_stay by reflexivity. rewrite walk_plain by reflexivity.
  rewrite walk_plain; [reflexivity | exact Hp |].
  unfold FS.is_dir. cbn [app FS.lookup]. rewrite H0. reflexivity.
Qed.

Lemma resolve_gone_entry (m0 m1 : gmap string FS.node) (tmp n : string) :
  FS.plain tmp = true -> FS.plain n = true ->
  m0 !! "tmp" = Some (FS.Dir m1) -> m1 !! tmp = None ->
  FS.resolve (FS.Dir m0) (FS.os_path_join (tmp_path tmp) n) = None.
Proof.
  intros Hp Hn H0 H1. unfold FS.resolve.
  rewrite split_entry_path by assumption.
  rewrite join_in_dir by assumption. rewrite absolute_tmp_path.
  cbn [fold_left].
  rewrite walk_stay by reflexivity. rewrite walk_plain by reflexivity.
  rewrite walk_plain; [| exact Hp |].
  2:{ unfold FS.is_dir. cbn [app FS.lookup]. rewrite H0. reflexivity. }
  apply walk_not_dir. unfold FS.is_dir. cbn [app FS.lookup].
  rewrite H0, H1. reflexivity.
Qed.

(** X4. The shutdown hook undoes the last conversion and nothing else:
    after [cleanup] the disk is what it was before that conversion (so
    the directories of earlier conversions are still there), while
    [OUTPUT_DIR] keeps pointing at the removed directory: every entry
    name then gets 404 and the listing fails on the missing directory. *)
Theorem cleanup_undoes_last_conversion
  (tmp : string) (file : UploadFile) (st : Main.state) (d : string)
  (t' : FS.node) :
  PyStr.endswith (filename file) ".zip" = true ->
  FS.plain tmp = true ->
  FS.mkdtemp (Main.fs st) tmp = Return (d, t') ->
  Main.fs (Main.cleanup (snd (Main.convert_gerber tmp file st))) = Main.fs st /\
  Main.OUTPUT_DIR (Main.cleanup (snd (Main.convert_gerber tmp file st)))
  = Some d /\
  (forall n, FS.plain n = true ->
     Main.get_image n (Main.cleanup (snd (Main.convert_gerber tmp file st)))
     = HTTPException 404 "Image not found") /\
  Main.list_images (Main.cleanup (snd (Main.convert_gerber tmp file st)))
  = Uncaught (OSError "No such file or directory").
Proof.
  intros Hz Hp Hm.
  destruct (convert_outcome tmp file st d t' Hz Hp Hm)
    as (m0 & m1 & rt & rb & log & H0 & H1 & H2 & -> & -> & _).
  assert (Hc : Main.cleanup (in_dir m0 m1 tmp (dir_of rt rb) log) =
               {| Main.OUTPUT_DIR := Some (tmp_path tmp);
                  Main.fs := FS.Dir m0; Main.render_log := log |}).
  { unfold Main.cleanup. cbn [in_dir Main.OUTPUT_DIR Main.fs Main.render_log].
    rewrite truthy_tmp_path. unfold FS.rmtree_ignore_errors.
    rewrite resolve_dir by exact Hp. rewrite lookup_dir.
    rewrite remove_dir by assumption. reflexivity. }
  rewrite Hc, H0. cbn [Main.fs Main.OUTPUT_DIR].
  split; [reflexivity|]. split; [reflexivity|]. split.
  - intros n Hn. unfold Main.get_image. cbn [Main.OUTPUT_DIR Main.fs].
    rewrite truthy_tmp_path. unfold FS.os_path_exists.
    rewrite (resolve_gone_entry m0 m1) by assumption. reflexivity.
  - unfold Main.list_images. cbn [Main.OUTPUT_DIR Main.fs].
    rewrite truthy_tmp_path. unfold FS.os_listdir.
    rewrite (resolve_gone_dir m0 m1) by assumption.
    cbn [FS.lookup]. rewrite H1, H2. reflexivity.
Qed.

End KeepAndCleanup.

(** ** The listing *)

Section Listing.

Lemma pixels_to_mm_value (px : Z) :
  Main.pixels_to_mm px = Return (PyNum.round (inject_Z px / inject_Z DPMM)).
Proof. reflexivity. Qed.

Lemma measure_shape (t : FS.node) (p f : string) (images : list image_entry)
  (tw th N : Z) (acc' : Main.tally) :
  Main.measure t p f (images, tw, th, N) = Return acc' ->
  exists w h,
    acc' = ((images ++ [{| name := f; width := w; height := h |}])%list,
            tw + w, th + h, N + 1).
Proof.
  unfold Main.measure. destruct (FS.Image_open t p) as [img|e]; [|discriminate].
  cbn [bind]. rewrite !pixels_to_mm_value. cbn [bind].
  intros H. injection H as <-. eauto.
Qed.

Lemma list_loop_names (t : FS.node) (d : string) (l : list string) :
  forall images tw th N images' tw' th' N',
    Main.list_loop t d l (images, tw, th, N) = Return (images', tw', th', N') ->
    map name images' =
      (map name images ++ List.filter (fun f => PyStr.endswith f ".png") l)%list /\
    N' = N + Z.of_nat (length (List.filter (fun f => PyStr.endswith f ".png") l)).
Proof.
  induction l as [|f l IH]; intros images tw th N images' tw' th' N' H.
  - cbn in H. injection H as <- <- <- <-. cbn [List.filter length].
    rewrite app_nil_r. split; [reflexivity | lia].
  - cbn [Main.list_loop List.filter] in *.
    destruct (PyStr.endswith f ".png").
    + destruct (Main.measure t (FS.os_path_join d f) f (images, tw, th, N))
        as [acc1|e] eqn:Em; [|discriminate].
      destruct (measure_shape _ _ _ _ _ _ _ _ Em) as (w & h & ->).
      cbn [bind] in H. apply IH in H. destruct H as [H1 H2]. split.
      * rewrite H1, map_app, <- app_assoc. reflexivity.
      * rewrite H2. cbn [length]. lia.
    + apply IH in H. exact H.
Qed.

Lemma list_images_lists_png_entries_aux
  (st : Main.state) (d : string) (names : list string)
  (message : option string) (images : list image_entry)
  (avg : option (Z * Z)) :
  Main.truthy (Main.OUTPUT_DIR st) = Some d ->
  FS.os_listdir (Main.fs st) d = Return names ->
  Main.list_images st = JSONResponse message images avg ->
  map name images = List.filter (fun f => PyStr.endswith f ".png") names /\
  message = None.
Proof.
  intros Hd Hl. unfold Main.list_images. rewrite Hd, Hl. cbn [bind].
  destruct (Main.list_loop (Main.fs st) d names ([], 0, 0, 0))
    as [[[[images' tw] th] N]|e] eqn:Eloop; cbn [bind]; [|discriminate].
  apply list_loop_names in Eloop. destruct Eloop as [Hn HN].
  rewrite report_value. intros H. injection H as <- <- <-.
  split; [exact Hn | reflexivity].
Qed.

(** X5. When [GET /list-images/] answers with a list, the names in it
    are the entries of the output directory that end in [.png], in the
    order of the directory listing and nothing else; the body has no
    message, and the averages are 0 and 0 when no entry qualifies. *)
Theorem list_images_lists_png_entries
  (st : Main.state) (d : string) (names : list string)
  (message : option string) (images : list image_entry)
  (avg : option (Z * Z)) :
  Main.truthy (Main.OUTPUT_DIR st) = Some d ->
  FS.os_listdir (Main.fs st) d = Return names ->
  Main.list_images st = JSONResponse message images avg ->
  map name images = List.filter (fun f => PyStr.endswith f ".png") names /\
  message = None /\
  (exists aw ah, avg = Some (aw, ah)) /\
  (List.filter (fun f => PyStr.endswith f ".png") names = [] ->
   avg = Some (0, 0)).
Proof.
  intros Hd Hl. unfold Main.list_images. rewrite Hd, Hl. cbn [bind].
  destruct (Main.list_loop (Main.fs st) d names ([], 0, 0, 0))
    as [[[[images' tw] th] N]|e] eqn:Eloop; cbn [bind]; [|discriminate].
  apply list_loop_names in Eloop. destruct Eloop as [Hn HN].
  rewrite report_value. intros H. injection H as <- <- <-.
  split; [exact Hn|]. split; [reflexivity|]. split; [eauto|].
  intros Hnone. rewrite Hnone in HN. cbn in HN. subst N. reflexivity.
Qed.

End Listing.

(** ** Reading the archive *)

Section Archive.
Context {ext : Externals}.

Lemma mapM_Return {A B} (f : A -> M B) (xs : list A) (ys : list B) :
  mapM f xs = Return ys -> Forall2 (fun x y => f x = Return y) xs ys.
Proof.
  revert ys. induction xs as [|x xs IH]; intros ys H.
  - cbn in H. injection H as <-. constructor.
  - cbn [mapM] in H. destruct (f x) as [y|e] eqn:Ef; [|discriminate].
    cbn [bind] in H. destruct (mapM f xs) as [ys'|e]; [|discriminate].
    cbn [bind] in H. injection H as <-. constructor; [exact Ef | apply IH; reflexivity].
Qed.

Lemma mapM_Raise {A B} (f : A -> M B) (xs : list A) (e : exn) :
  mapM f xs = Raise e -> exists x, In x xs /\ f x = Raise e.
Proof.
  induction xs as [|x xs IH]; intros H; [discriminate|].
  cbn [mapM] in H. destruct (f x) as [y|e'] eqn:Ef.
  - cbn [bind] in H. destruct (mapM f xs) as [ys'|e'']; [discriminate|].
    cbn [bind] in H. injection H as ->.
    destruct (IH eq_refl) as [x' [Hin Hx']]. exists x'. split; [right|]; assumption.
  - cbn [bind] in H. injection H as ->. exists x. split; [left; reflexivity | exact Ef].
Qed.

(** Reading by a listed name gives what reading one of the members of
    that name gives: the name is never missing. *)
Lemma read_listed (z : Zip.ZipFile) (n : string) :
  In n (Zip.namelist z) -> In (n, Zip.read z n) (Zip.entries z).
Proof.
  intros Hin. unfold Zip.read.
  destruct (find _ (rev (Zip.entries z))) as [[n' o]|] eqn:Ef.
  - apply find_some in Ef. destruct Ef as [Hin' Heq]. cbn [fst] in Heq.
    apply String.eqb_eq in Heq. subst n'. cbn [snd].
    apply in_rev. exact Hin'.
  - exfalso. unfold Zip.namelist in Hin. apply in_map_iff in Hin.
    destruct Hin as [[n' o] [Hn Hin]]. cbn [fst] in Hn. subst n'.
    apply in_rev in Hin. pose proof (find_none _ _ Ef (n, o) Hin) as Hf.
    cbn [fst] in Hf. rewrite String.eqb_refl in Hf. discriminate.
Qed.

Lemma load_project_Raise (z : Zip.ZipFile) (l : list string) (e : exn) :
  (forall n, In n l -> In n (Zip.namelist z)) ->
  Main.load_project z l = Raise e ->
  exists n, In n l /\
    (In (n, Raise e) (Zip.entries z) \/
     exists b, In (n, Return b) (Zip.entries z) /\ bytes_decode b = Raise e).
Proof.
  intros Hl. unfold Main.load_project. destruct l as [|n0 l]; [discriminate|].
  destruct (mapM _ (n0 :: l)) as [s|e'] eqn:Em; cbn [bind]; [discriminate|].
  intros H. injection H as ->.
  apply mapM_Raise in Em. destruct Em as [n [Hin Hn]].
  pose proof (read_listed z n (Hl n Hin)) as Hr.
  exists n. split; [exact Hin|].
  destruct (Zip.read z n) as [b|e0]; cbn [bind] in Hn.
  - right. exists b. split; assumption.
  - left. injection Hn as <-. exact Hr.
Qed.

(** X6. [process_gerber_files] fails for three reasons only: the archive
    has no entry name ending in [.gbr], and then it raises the no-layers
    [ValueError]; or a member whose name ends in [.gbr] cannot be read
    (a failed checksum, an encrypted member, a compression method the
    reader lacks), and then it raises what the reader raised; or the
    payload of such a member does not decode, and then it raises what
    the decoder raised. The names it reads are names of the listing, so
    no name is ever missing. *)
Theorem process_gerber_files_failures (z : Zip.ZipFile) (e : exn) :
  Main.process_gerber_files z = Raise e ->
  ((forall n, In n (Zip.namelist z) -> ~ ends_with n ".gbr") /\
   e = ValueError "No valid Gerber files found in the ZIP file") \/
  (exists n, ends_with n ".gbr" /\ In (n, Raise e) (Zip.entries z)) \/
  (exists n b,
     ends_with n ".gbr" /\ In (n, Return b) (Zip.entries z) /\
     bytes_decode b = Raise e).
Proof.
  intros H.
  pose proof (classify_filter (Zip.namelist z)) as Hc.
  rewrite (process_gerber_files_unfold z _ _ Hc) in H.
  assert (Htop : forall n, In n (List.filter is_top (Zip.namelist z)) ->
                   In n (Zip.namelist z) /\ ends_with n ".gbr").
  { intros n Hn. apply filter_In in Hn. destruct Hn as [Hn Ht].
    unfold is_top in Ht. apply andb_true_iff in Ht. destruct Ht as [Ht _].
    apply endswith_spec in Ht. split; assumption. }
  assert (Hbot : forall n, In n (List.filter is_bottom (Zip.namelist z)) ->
                   In n (Zip.namelist z) /\ ends_with n ".gbr").
  { intros n Hn. apply filter_In in Hn. destruct Hn as [Hn Ht].
    unfold is_bottom in Ht. apply andb_true_iff in Ht. destruct Ht as [Ht _].
    apply endswith_spec in Ht. split; assumption. }
  assert (Hload : forall l,
            (forall n, In n l -> In n (Zip.namelist z) /\ ends_with n ".gbr") ->
            Main.load_project z l = Raise e ->
            (exists n, ends_with n ".gbr" /\ In (n, Raise e) (Zip.entries z)) \/
            (exists n b, ends_with n ".gbr" /\ In (n, Return b) (Zip.entries z) /\
                         bytes_decode b = Raise e)).
  { intros l Hl Hr.
    destruct (load_project_Raise z l e (fun n Hn => proj1 (Hl n Hn)) Hr)
      as (n & Hin & [Hb | (b & Hb & Hd)]).
    - left. exists n. split; [exact (proj2 (Hl n Hin)) | exact Hb].
    - right. exists n, b. split; [exact (proj2 (Hl n Hin)) | split; assumption]. }
  assert (Hboth :
    (let! top_project := Main.load_project z (List.filter is_top (Zip.namelist z)) in
     let! bottom_project :=
       Main.load_project z (List.filter is_bottom (Zip.namelist z)) in
     Return (top_project, bottom_project)) = Raise e ->
    (exists n, ends_with n ".gbr" /\ In (n, Raise e) (Zip.entries z)) \/
    (exists n b, ends_with n ".gbr" /\ In (n, Return b) (Zip.entries z) /\
                 bytes_decode b = Raise e)).
  { destruct (Main.load_project z (List.filter is_top (Zip.namelist z)))
      as [pt|e1] eqn:E1; cbn [bind].
    - destruct (Main.load_project z (List.filter is_bottom (Zip.namelist z)))
        as [pb|e2] eqn:E2; cbn [bind]; [discriminate|].
      intros Hr. injection Hr as ->. exact (Hload _ Hbot E2).
    - intros Hr. injection Hr as ->. exact (Hload _ Htop E1). }
  destruct (List.filter is_top (Zip.namelist z)) as [|tn top] eqn:Et;
    destruct (List.filter is_bottom (Zip.namelist z)) as [|bn bot] eqn:Eb;
    try (right; exact (Hboth H)).
  left. injection H as <-. split; [|reflexivity].
  intros n Hn Hends. apply endswith_spec in Hends.
  destruct (PyStr.contains "Top" n) eqn:Ec.
  - assert (Hin : In n (List.filter is_top (Zip.namelist z))).
    { apply filter_In. split; [exact Hn|]. unfold is_top. rewrite Hends, Ec.
      reflexivity. }
    rewrite Et in Hin. destruct Hin.
  - assert (Hin : In n (List.filter is_bottom (Zip.namelist z))).
    { apply filter_In. split; [exact Hn|]. unfold is_bottom. rewrite Hends, Ec.
      reflexivity. }
    rewrite Eb in Hin. destruct Hin.
Qed.

(** X7. When [process_gerber_files] returns, each project it returns is
    there exactly when its name list is non-empty, and its sources are
    the decoded payloads of the names of that list, one per name and in
    the order of the archive. *)
Theorem process_gerber_files_sources (z : Zip.ZipFile)
  (ptop pbot : option (list string)) :
  Main.process_gerber_files z = Return (ptop, pbot) ->
  let decoded n s :=
    exists b, In (n, Return b) (Zip.entries z) /\ bytes_decode b = Return s in
  match ptop with
  | None => fst (Main.classify (Zip.namelist z)) = []
  | Some sources => sources <> [] /\
      Forall2 decoded (fst (Main.classify (Zip.namelist z))) sources
  end /\
  match pbot with
  | None => snd (Main.classify (Zip.namelist z)) = []
  | Some sources => sources <> [] /\
      Forall2 decoded (snd (Main.classify (Zip.namelist z))) sources
  end.
Proof.
  intros H decoded.
  pose proof (classify_filter (Zip.namelist z)) as Hc.
  rewrite (process_gerber_files_unfold z _ _ Hc) in H. rewrite Hc. cbn [fst snd].
  assert (Hload : forall l p,
            (forall n, In n l -> In n (Zip.namelist z)) ->
            Main.load_project z l = Return p ->
            match p with
            | None => l = []
            | Some sources => sources <> [] /\ Forall2 decoded l sources
            end).
  { intros l p Hl. unfold Main.load_project. destruct l as [|n0 l].
    - intros Hr. injection Hr as <-. reflexivity.
    - destruct (mapM _ (n0 :: l)) as [s|e'] eqn:Em; cbn [bind]; [|discriminate].
      intros Hr. injection Hr as <-. apply mapM_Return in Em. split.
      + intros ->. inversion Em.
      + revert Hl. induction Em as [|n s0 l' s' Hns Hrest IH]; intros Hl;
          constructor.
        * pose proof (read_listed z n (Hl n (or_introl eq_refl))) as Hr.
          destruct (Zip.read z n) as [b|e0]; cbn [bind] in Hns; [|discriminate].
          exists b. split; assumption.
        * apply IH. intros n' Hn'. apply Hl. right. exact Hn'. }
  assert (Htop : forall n, In n (List.filter is_top (Zip.namelist z)) ->
                   In n (Zip.namelist z)).
  { intros n Hn. apply filter_In in Hn. exact (proj1 Hn). }
  assert (Hbot : forall n, In n (List.filter is_bottom (Zip.namelist z)) ->
                   In n (Zip.namelist z)).
  { intros n Hn. apply filter_In in Hn. exact (proj1 Hn). }
  assert (Hboth :
    (let! top_project := Main.load_project z (List.filter is_top (Zip.namelist z)) in
     let! bottom_project :=
       Main.load_project z (List.filter is_bottom (Zip.namelist z)) in
     Return (top_project, bottom_project)) = Return (ptop, pbot) ->
    Main.load_project z (List.filter is_top (Zip.namelist z)) = Return ptop /\
    Main.load_project z (List.filter is_bottom (Zip.namelist z)) = Return pbot).
  { destruct (Main.load_project z (List.filter is_top (Zip.namelist z)))
      as [pt|e1]; cbn [bind]; [|discriminate].
    destruct (Main.load_project z (List.filter is_bottom (Zip.namelist z)))
      as [pb|e2]; cbn [bind]; [|discriminate].
    intros Hr. injection Hr as <- <-. split; reflexivity. }
  assert (Hloads :
    Main.load_project z (List.filter is_top (Zip.namelist z)) = Return ptop /\
    Main.load_project z (List.filter is_bottom (Zip.namelist z)) = Return pbot).
  { destruct (List.filter is_top (Zip.namelist z)) as [|tn top] eqn:Et;
      destruct (List.filter is_bottom (Zip.namelist z)) as [|bn bot] eqn:Eb;
      try exact (Hboth H).
    discriminate. }
  destruct Hloads as [H1 H2]. split.
  - exact (Hload _ _ Htop H1).
  - exact (Hload _ _ Hbot H2).
Qed.

End Archive.

(** ** The variants that answer with names, and with no store *)

Section Variants.
Context {ext : Externals}.


Lemma measure_if_exists_names (t : FS.node) (p n : string)
  (acc acc' : Main.tally) :
  Main.measure_if_exists t p n acc = Return acc' ->
  map name (fst (fst (fst acc'))) =
  Api.append_if_exists t p n (map name (fst (fst (fst acc)))).
Proof.
  unfold Main.measure_if_exists, Api.append_if_exists.
  destruct (FS.os_path_exists t p).
  - destruct acc as [[[images tw] th] N]. intros H.
    apply measure_shape in H. destruct H as (w & h & ->). cbn [fst].
    rewrite map_app. reflexivity.
  - intros H. injection H as <-. reflexivity.
Qed.

Lemma api_handle (e : exn) (c : Z) (d : string) :
  Api.handle e = Api.HTTPException c d -> Main.handle e = HTTPException c d.
Proof.
  unfold Api.handle, Main.handle. destruct (isinstance_ValueError e);
    intros H; injection H as <- <-; reflexivity.
Qed.

(** X9. The conversion of [src/api.py] and [src/apii.py] does on the
    disk what the conversion of [src/main.py] does, and answers alike:
    where [src/main.py] answers with images, it answers with their
    names, and every error it answers with is the error [src/main.py]
    answers with. *)
Theorem api_conversion_agrees_with_main
  (tmp : string) (file : UploadFile) (st : Main.state) :
  snd (Api.convert_gerber tmp file st) = snd (Main.convert_gerber tmp file st) /\
  (forall message images avg,
     fst (Main.convert_gerber tmp file st) = JSONResponse message images avg ->
     fst (Api.convert_gerber tmp file st)
     = Api.JSONResponse message (map name images)) /\
  (forall c detail,
     fst (Api.convert_gerber tmp file st) = Api.HTTPException c detail ->
     fst (Main.convert_gerber tmp file st) = HTTPException c detail) /\
  (forall e,
     fst (Api.convert_gerber tmp file st) = Api.Uncaught e ->
     fst (Main.convert_gerber tmp file st) = Uncaught e).
Proof.
  unfold Api.convert_gerber, Main.convert_gerber, Main.convert_begin.
  destruct (PyStr.endswith (filename file) ".zip"); cbn [negb].
  2:{ cbn [fst snd]. repeat split; try discriminate.
      intros c detail H. injection H as <- <-. reflexivity. }
  destruct (FS.mkdtemp (Main.fs st) tmp) as [[d t']|e0].
  2:{ cbn [fst snd]. repeat split; try discriminate.
      intros e H. injection H as <-. reflexivity. }
  unfold Main.convert_finish, Api.convert_try, Main.convert_try.
  destruct (let! zip_file := ZipFile_open (content file) in
            Main.process_gerber_files zip_file) as [[ptop pbot]|e0].
  2:{ cbn [fst snd]. split; [reflexivity|]. split; [|split].
      - intros m i a H. exfalso. exact (handle_not_json _ _ _ _ H).
      - apply api_handle.
      - unfold Api.handle. destruct (isinstance_ValueError e0); discriminate. }
  cbn [Main.OUTPUT_DIR].
  destruct (Main.render_side ptop _ _) as [[u1|e1] st1].
  2:{ cbn [fst snd]. split; [reflexivity|]. split; [|split].
      - intros m i a H. exfalso. exact (handle_not_json _ _ _ _ H).
      - apply api_handle.
      - unfold Api.handle. destruct (isinstance_ValueError e1); discriminate. }
  destruct (Main.render_side pbot _ _) as [[u2|e2] st2].
  2:{ cbn [fst snd]. split; [reflexivity|]. split; [|split].
      - intros m i a H. exfalso. exact (handle_not_json _ _ _ _ H).
      - apply api_handle.
      - unfold Api.handle. destruct (isinstance_ValueError e2); discriminate. }
  cbn [fst snd]. split; [|split; [|split; discriminate]].
  - destruct (let! acc := Main.measure_if_exists _ _ _ _ in _); reflexivity.
  - intros m images a.
    destruct (Main.measure_if_exists (Main.fs st2)
                (FS.os_path_join d "output_top.png") "output_top.png"
                ([], 0, 0, 0)) as [acc1|e3] eqn:E1; cbn [bind].
    2:{ cbn [fst]. intros H. exfalso. exact (handle_not_json _ _ _ _ H). }
    destruct (Main.measure_if_exists (Main.fs st2)
                (FS.os_path_join d "output_bottom.png") "output_bottom.png"
                acc1) as [acc2|e4] eqn:E2; cbn [bind].
    2:{ cbn [fst]. intros H. exfalso. exact (handle_not_json _ _ _ _ H). }
    apply measure_if_exists_names in E1, E2.
    destruct acc2 as [[[images2 tw] th] N]. rewrite report_value. cbn [fst] in *.
    intros H. injection H as <- <- <-. rewrite E2, E1. reflexivity.
Qed.

End Variants.

(** ** [src/api/main.py]: a directory per request *)

Section PerRequest.
Context {ext : Externals}.

Lemma render_side_fs (project : option (list string)) (output : string)
  (st : Main.state) :
  ApiMain.render_side project output (Main.fs st) =
  (fst (Main.render_side project output st),
   Main.fs (snd (Main.render_side project output st))).
Proof.
  unfold ApiMain.render_side, Main.render_side.
  destruct project as [sources|]; [|reflexivity].
  destruct (render_raster sources DPMM) as [img|e]; [|reflexivity].
  cbn [Main.fs]. destruct (FS.write_raster (Main.fs st) output img); reflexivity.
Qed.

Lemma api_main_measure (t : FS.node) (p : string) (acc : Main.tally) :
  ApiMain.measure t p acc =
  Main.measure_if_exists t p (FS.os_path_basename p) acc.
Proof.
  unfold ApiMain.measure, Main.measure_if_exists, Main.measure.
  destruct (FS.os_path_exists t p); [|reflexivity].
  destruct acc as [[[images tw] th] N]. reflexivity.
Qed.

Lemma basename_entry (tmp n : string) :
  FS.plain tmp = true -> FS.plain n = true ->
  FS.os_path_basename (FS.os_path_join (tmp_path tmp) n) = n.
Proof.
  intros Hp Hn. unfold FS.os_path_basename.
  rewrite split_entry_path by assumption. reflexivity.
Qed.

Lemma api_main_try (tmp : string) (file : UploadFile) (st : Main.state) :
  FS.plain tmp = true ->
  Main.OUTPUT_DIR st = Some (tmp_path tmp) ->
  ApiMain.convert_try (tmp_path tmp) file (Main.fs st) =
  (fst (Main.convert_try file st), Main.fs (snd (Main.convert_try file st))).
Proof.
  intros Hp Hout. unfold ApiMain.convert_try, Main.convert_try.
  destruct (let! zip_file := ZipFile_open (content file) in
            Main.process_gerber_files zip_file) as [[ptop pbot]|e0];
    [|reflexivity].
  rewrite Hout. rewrite render_side_fs.
  destruct (Main.render_side ptop _ st) as [[u1|e1] st1]; [|reflexivity].
  cbn [fst snd]. rewrite render_side_fs.
  destruct (Main.render_side pbot _ st1) as [[u2|e2] st2]; [|reflexivity].
  cbn [fst snd]. rewrite api_main_measure.
  rewrite basename_entry by (assumption || reflexivity).
  destruct (Main.measure_if_exists (Main.fs st2) _ "output_top.png" _)
    as [acc1|e3]; [|reflexivity].
  cbn [bind]. rewrite api_main_measure.
  rewrite basename_entry by (assumption || reflexivity). reflexivity.
Qed.

Lemma temporary_cleanup_dir (m0 m1 : gmap string FS.node) (tmp : string)
  (c : gmap string FS.node) :
  FS.plain tmp = true ->
  m0 !! "tmp" = Some (FS.Dir m1) -> m1 !! tmp = None ->
  FS.TemporaryDirectory_cleanup (with_dir m0 m1 tmp c) (tmp_path tmp)
  = Return (FS.Dir m0).
Proof.
  intros Hp H0 H1. unfold FS.TemporaryDirectory_cleanup.
  rewrite resolve_dir by exact Hp. rewrite lookup_dir.
  rewrite remove_dir by assumption. reflexivity.
Qed.

Lemma api_main_unfold (tmp : string) (file : UploadFile) (st : Main.state) :
  FS.plain tmp = true ->
  ApiMain.convert_gerber tmp file (Main.fs st) =
  (fst (Main.convert_gerber tmp file st), Main.fs st).
Proof.
  intros Hp. unfold ApiMain.convert_gerber.
  destruct (PyStr.endswith (filename file) ".zip") eqn:Hz; cbn [negb].
  2:{ unfold Main.convert_gerber, Main.convert_begin. rewrite Hz. reflexivity. }
  destruct (FS.mkdtemp (Main.fs st) tmp) as [[d t']|e0] eqn:Hm.
  2:{ unfold Main.convert_gerber, Main.convert_begin. rewrite Hz, Hm.
      reflexivity. }
  destruct (convert_outcome tmp file st d t' Hz Hp Hm)
    as (m0 & m1 & rt & rb & log & H0 & H1 & H2 & -> & Hs & _).
  destruct (convert_begin_ok tmp file st _ t' Hz Hp Hm)
    as (m0' & m1' & H0' & H1' & _ & Hbegin).
  rewrite H0 in H0'. injection H0' as <-.
  rewrite H1 in H1'. injection H1' as <-.
  destruct (mkdtemp_inv _ _ _ _ Hp Hm) as (m0'' & m1'' & H0'' & H1'' & _ & _ & ->).
  rewrite H0 in H0''. injection H0'' as <-.
  rewrite H1 in H1''. injection H1'' as <-.
  revert Hs. unfold Main.convert_gerber. rewrite Hbegin.
  unfold Main.convert_finish.
  change (with_dir m0 m1 tmp ∅)
    with (Main.fs (in_dir m0 m1 tmp ∅ (Main.render_log st))).
  rewrite api_main_try by (assumption || reflexivity).
  destruct (Main.convert_try file (in_dir m0 m1 tmp ∅ (Main.render_log st)))
    as [[r|e] st2]; cbn [fst snd]; intros ->; cbn [in_dir Main.fs];
    rewrite temporary_cleanup_dir by assumption; rewrite H0; reflexivity.
Qed.

(** X10. The conversion of [src/api/main.py] leaves the disk exactly as
    it found it, whatever its outcome: the directory it renders into is
    gone, with the images, when the handler returns. *)
Theorem api_main_leaves_no_trace
  (tmp : string) (file : UploadFile) (t : FS.node) :
  FS.plain tmp = true ->
  snd (ApiMain.convert_gerber tmp file t) = t.
Proof.
  intros Hp.
  pose proof (api_main_unfold tmp file
                {| Main.OUTPUT_DIR := None; Main.fs := t; Main.render_log := [] |}
                Hp) as H.
  cbn [Main.fs] in H. rewrite H. reflexivity.
Qed.


End PerRequest.

(** ** [src/api/mainn.py]: one shared directory, names per conversion *)

Section SharedDirectory.

Lemma contains_slash_app (a b : string) :
  PyStr.contains "/" a = false -> PyStr.contains "/" b = false ->
  PyStr.contains "/" (a +:+ b) = false.
Proof.
  intros Ha Hb. induction a as [|c a IH]; [exact Hb|].
  rewrite app_String. apply contains_slash_cons in Ha. destruct Ha as [Hc Ha].
  apply contains_slash_cons. split; [exact Hc | exact (IH Ha)].
Qed.

Lemma plain_top_name (u : string) :
  PyStr.contains "/" u = false -> FS.plain (ApiMainn.top_name u) = true.
Proof.
  intros Hu. unfold FS.plain, ApiMainn.top_name.
  assert (H : PyStr.contains "/" (u +:+ ".png") = false)
    by (apply contains_slash_app; [assumption | reflexivity]).
  rewrite contains_slash_app by (reflexivity || assumption). reflexivity.
Qed.

Lemma plain_bottom_name (u : string) :
  PyStr.contains "/" u = false -> FS.plain (ApiMainn.bottom_name u) = true.
Proof.
  intros Hu. unfold FS.plain, ApiMainn.bottom_name.
  assert (H : PyStr.contains "/" (u +:+ ".png") = false)
    by (apply contains_slash_app; [assumption | reflexivity]).
  rewrite contains_slash_app by (reflexivity || assumption). reflexivity.
Qed.

Lemma length_app (a b : string) :
  String.length (a +:+ b) = (String.length a + String.length b)%nat.
Proof.
  induction a as [|c a IH]; [reflexivity|].
  rewrite app_String. cbn [String.length]. rewrite IH. reflexivity.
Qed.

Lemma app_inv_tail (a b s : string) : a +:+ s = b +:+ s -> a = b.
Proof.
  revert b. induction a as [|c a IH]; intros [|c' b] H.
  - reflexivity.
  - exfalso. apply (f_equal String.length) in H.
    change ("" +:+ s) with s in H. rewrite app_String in H.
    cbn [String.length] in H. rewrite length_app in H. lia.
  - exfalso. apply (f_equal String.length) in H.
    change ("" +:+ s) with s in H. rewrite app_String in H.
    cbn [String.length] in H. rewrite length_app in H. lia.
  - rewrite !app_String in H. injection H as -> H. f_equal. exact (IH b H).
Qed.

Lemma top_name_inj (u u' : string) :
  ApiMainn.top_name u = ApiMainn.top_name u' -> u = u'.
Proof.
  unfold ApiMainn.top_name. intros H.
  assert (H' : u +:+ ".png" = u' +:+ ".png").
  { cbv [String.append] in H. fold String.append in H. congruence. }
  exact (app_inv_tail _ _ _ H').
Qed.

Lemma bottom_name_inj (u u' : string) :
  ApiMainn.bottom_name u = ApiMainn.bottom_name u' -> u = u'.
Proof.
  unfold ApiMainn.bottom_name. intros H.
  assert (H' : u +:+ ".png" = u' +:+ ".png").
  { cbv [String.append] in H. fold String.append in H. congruence. }
  exact (app_inv_tail _ _ _ H').
Qed.

Lemma top_name_not_bottom (u u' : string) :
  ApiMainn.top_name u <> ApiMainn.bottom_name u'.
Proof.
  unfold ApiMainn.top_name, ApiMainn.bottom_name. intros H.
  cbv [String.append] in H. fold String.append in H. congruence.
Qed.

Lemma TEMP_DIR_path : ApiMainn.TEMP_DIR = tmp_path "gerber_images".
Proof. reflexivity. Qed.

Section Beside.
Variables (m0 m1 : gmap string FS.node) (tmp : string).
Hypothesis tmp_plain : FS.plain tmp = true.
Hypothesis tmp_other : tmp <> "gerber_images".
Hypothesis tmp_free : m1 !! tmp = None.

Lemma with_dir_beside (c : gmap string FS.node) :
  with_dir m0 (<[tmp := FS.Dir ∅]> m1) "gerber_images" c =
  with_dir (<["tmp" := FS.Dir (<["gerber_images" := FS.Dir c]> m1)]> m0)
           (<["gerber_images" := FS.Dir c]> m1) tmp ∅.
Proof.
  unfold with_dir. rewrite insert_insert_eq.
  rewrite (insert_insert_ne m1 tmp "gerber_images") by exact tmp_other.
  reflexivity.
Qed.

Lemma mkdtemp_beside (c : gmap string FS.node) :
  FS.mkdtemp (with_dir m0 m1 "gerber_images" c) tmp =
  Return (tmp_path tmp, with_dir m0 (<[tmp := FS.Dir ∅]> m1) "gerber_images" c).
Proof.
  unfold FS.mkdtemp. rewrite join_tmp by exact tmp_plain.
  unfold with_dir.
  rewrite (resolve_gone_dir _ (<["gerber_images" := FS.Dir c]> m1))
    by (exact tmp_plain || apply lookup_insert_eq).
  cbn [FS.lookup FS.store]. rewrite !lookup_insert_eq.
  rewrite lookup_insert_ne by congruence. rewrite tmp_free.
  rewrite insert_insert_eq.
  rewrite (insert_insert_ne m1 tmp "gerber_images") by exact tmp_other.
  reflexivity.
Qed.

Lemma cleanup_beside (c : gmap string FS.node) :
  FS.TemporaryDirectory_cleanup
    (with_dir m0 (<[tmp := FS.Dir ∅]> m1) "gerber_images" c) (tmp_path tmp)
  = Return (with_dir m0 m1 "gerber_images" c).
Proof.
  rewrite with_dir_beside.
  rewrite temporary_cleanup_dir;
    [reflexivity | exact tmp_plain | apply lookup_insert_eq |].
  rewrite lookup_insert_ne by congruence. exact tmp_free.
Qed.

End Beside.

Section InShared.
Variables (m0 m1 : gmap string FS.node) (c : gmap string FS.node).

Lemma exists_shared (n : string) :
  FS.plain n = true ->
  FS.os_path_exists (with_dir m0 m1 "gerber_images" c)
    (FS.os_path_join ApiMainn.TEMP_DIR n)
  = match c !! n with Some _ => true | None => false end.
Proof. intros Hn. rewrite TEMP_DIR_path. apply exists_entry; [reflexivity | exact Hn]. Qed.

Lemma isfile_shared (n : string) :
  FS.plain n = true ->
  FS.os_path_isfile (with_dir m0 m1 "gerber_images" c)
    (FS.os_path_join ApiMainn.TEMP_DIR n)
  = match c !! n with Some (FS.File _) => true | _ => false end.
Proof.
  intros Hn. rewrite TEMP_DIR_path. unfold FS.os_path_isfile.
  rewrite resolve_entry by (reflexivity || exact Hn). rewrite lookup_entry.
  reflexivity.
Qed.

Lemma remove_shared (n : string) (r : option FS.image) :
  FS.plain n = true -> c !! n = Some (FS.File r) ->
  FS.os_remove (with_dir m0 m1 "gerber_images" c)
    (FS.os_path_join ApiMainn.TEMP_DIR n)
  = Return (with_dir m0 m1 "gerber_images" (delete n c)).
Proof.
  intros Hn Hc. rewrite TEMP_DIR_path. unfold FS.os_remove.
  rewrite resolve_entry by (reflexivity || exact Hn). rewrite lookup_entry, Hc.
  unfold with_dir. cbn [FS.remove]. rewrite !lookup_insert_eq, Hc.
  rewrite !insert_insert_eq. reflexivity.
Qed.

Lemma write_shared_dir (n : string) (img : FS.image) (m : gmap string FS.node) :
  FS.plain n = true -> c !! n = Some (FS.Dir m) ->
  FS.write_raster (with_dir m0 m1 "gerber_images" c)
    (FS.os_path_join ApiMainn.TEMP_DIR n) img
  = Raise (OSError "Is a directory").
Proof.
  intros Hn Hc. rewrite TEMP_DIR_path. unfold FS.write_raster.
  rewrite resolve_entry by (reflexivity || exact Hn). rewrite lookup_entry, Hc.
  reflexivity.
Qed.

End InShared.

Section SharedHandlers.
Context {ext : Externals}.

(** A render into the shared directory changes at most the entry it
    writes; when it returns, that entry is the raster the engine made. *)
Lemma render_side_shared (m0 m1 c : gmap string FS.node)
  (project : option (list string)) (n : string) :
  FS.plain n = true ->
  exists c',
    snd (ApiMain.render_side project (FS.os_path_join ApiMainn.TEMP_DIR n)
           (with_dir m0 m1 "gerber_images" c))
    = with_dir m0 m1 "gerber_images" c' /\
    (forall k, k <> n -> c' !! k = c !! k) /\
    (forall m, c !! n = Some (FS.Dir m) -> c' !! n = Some (FS.Dir m)) /\
    (c !! n = None -> c' !! n = None \/ exists img, c' !! n = Some (FS.File (Some img))).
Proof.
  intros Hn. unfold ApiMain.render_side.
  destruct project as [sources|].
  2:{ exists c. cbn [snd]. repeat split; auto. }
  destruct (render_raster sources DPMM) as [img|e].
  2:{ exists c. cbn [snd]. repeat split; auto. }
  destruct (c !! n) as [[r|m]|] eqn:Hc.
  - rewrite TEMP_DIR_path.
    rewrite write_raster_entry by (reflexivity || assumption || congruence).
    exists (<[n := FS.File (Some img)]> c). cbn [snd]. split; [reflexivity|].
    split; [intros k Hk; apply lookup_insert_ne; congruence|].
    split; [intros m' Hm'; discriminate | intros H; discriminate].
  - rewrite (write_shared_dir m0 m1 c n img m Hn Hc).
    exists c. cbn [snd]. rewrite Hc. repeat split; auto.
  - rewrite TEMP_DIR_path.
    rewrite write_raster_entry by (reflexivity || assumption || congruence).
    exists (<[n := FS.File (Some img)]> c). cbn [snd]. split; [reflexivity|].
    split; [intros k Hk; apply lookup_insert_ne; congruence|].
    split; [intros m' Hm'; discriminate |].
    intros _. right. exists img. apply lookup_insert_eq.
Qed.

Lemma convert_try_shared (m0 m1 c : gmap string FS.node) (uid : string)
  (file : UploadFile) :
  PyStr.contains "/" uid = false ->
  exists c',
    snd (ApiMainn.convert_try uid file (with_dir m0 m1 "gerber_images" c))
    = with_dir m0 m1 "gerber_images" c' /\
    (forall k, k <> ApiMainn.top_name uid -> k <> ApiMainn.bottom_name uid ->
       c' !! k = c !! k).
Proof.
  intros Hu. unfold ApiMainn.convert_try.
  destruct (let! zip_file := ZipFile_open (content file) in
            Main.process_gerber_files zip_file) as [[ptop pbot]|e0].
  2:{ exists c. split; [reflexivity | auto]. }
  destruct (render_side_shared m0 m1 c ptop (ApiMainn.top_name uid)
              (plain_top_name uid Hu)) as (c1 & Hs1 & Hk1 & _).
  destruct (ApiMain.render_side ptop _ _) as [[u1|e1] t1]; cbn [snd] in Hs1;
    subst t1.
  2:{ exists c1. split; [reflexivity|]. intros k H1 _. exact (Hk1 k H1). }
  destruct (render_side_shared m0 m1 c1 pbot (ApiMainn.bottom_name uid)
              (plain_bottom_name uid Hu)) as (c2 & Hs2 & Hk2 & _).
  destruct (ApiMain.render_side pbot _ _) as [[u2|e2] t2]; cbn [snd] in Hs2;
    subst t2.
  - exists c2. split; [reflexivity|]. intros k H1 H2.
    rewrite (Hk2 k H2). exact (Hk1 k H1).
  - exists c2. split; [reflexivity|]. intros k H1 H2.
    rewrite (Hk2 k H2). exact (Hk1 k H1).
Qed.

(** X12. A conversion of [src/api/mainn.py] changes nothing on the disk
    but the two entries of the shared directory that carry its own
    identifier: every other entry of the directory is as before, the
    images of every conversion with another identifier among them, and
    the temporary directory of the request is gone. *)
Theorem mainn_conversion_keeps_other_entries
  (m0 m1 c : gmap string FS.node) (tmp uid : string) (file : UploadFile) :
  FS.plain tmp = true ->
  tmp <> "gerber_images" ->
  m1 !! tmp = None ->
  PyStr.contains "/" uid = false ->
  exists c',
    ApiMainn.disk
      (ApiMainn.convert_gerber tmp uid file (with_dir m0 m1 "gerber_images" c))
    = with_dir m0 m1 "gerber_images" c' /\
    (forall k, k <> ApiMainn.top_name uid -> k <> ApiMainn.bottom_name uid ->
       c' !! k = c !! k) /\
    (forall uid', uid' <> uid ->
       c' !! ApiMainn.top_name uid' = c !! ApiMainn.top_name uid' /\
       c' !! ApiMainn.bottom_name uid' = c !! ApiMainn.bottom_name uid').
Proof.
  intros Hp Hne Hfree Hu.
  assert (Hnames : forall c' : gmap string FS.node,
            (forall k, k <> ApiMainn.top_name uid ->
                       k <> ApiMainn.bottom_name uid -> c' !! k = c !! k) ->
            forall uid', uid' <> uid ->
              c' !! ApiMainn.top_name uid' = c !! ApiMainn.top_name uid' /\
              c' !! ApiMainn.bottom_name uid' = c !! ApiMainn.bottom_name uid').
  { intros c' Hk uid' Hd. split; apply Hk.
    - intros H. apply top_name_inj in H. contradiction.
    - apply top_name_not_bottom.
    - intros H. symmetry in H. exact (top_name_not_bottom _ _ H).
    - intros H. apply bottom_name_inj in H. contradiction. }
  unfold ApiMainn.convert_gerber.
  destruct (PyStr.endswith (filename file) ".zip"); cbn [negb].
  2:{ exists c. cbn [ApiMainn.disk]. split; [reflexivity|]. split; auto. }
  rewrite (mkdtemp_beside m0 m1 tmp Hp Hne Hfree).
  destruct (convert_try_shared m0 (<[tmp := FS.Dir ∅]> m1) c uid file Hu)
    as (c' & Hs & Hk).
  destruct (ApiMainn.convert_try uid file _) as [m t1]. cbn [snd] in Hs. subst t1.
  rewrite (cleanup_beside m0 m1 tmp Hp Hne Hfree).
  exists c'. split; [|split; [exact Hk | exact (Hnames c' Hk)]].
  destruct m as [[b s']|e]; reflexivity.
Qed.

Lemma mainn_measure_shape (t : FS.node) (p : string)
  (links : list ApiMainn.image_link) (tw th N : Z) (acc' : ApiMainn.tally) :
  ApiMainn.measure t p (links, tw, th, N) = Return acc' ->
  (FS.os_path_exists t p = false /\ acc' = (links, tw, th, N)) \/
  (FS.os_path_exists t p = true /\
   exists w h,
     acc' = ((links ++
              [{| ApiMainn.link_name := FS.os_path_basename p;
                  ApiMainn.link_width := w; ApiMainn.link_height := h;
                  ApiMainn.link_url := "/api/images/" +:+ FS.os_path_basename p
               |}])%list, tw + w, th + h, N + 1)).
Proof.
  unfold ApiMainn.measure. destruct (FS.os_path_exists t p).
  - destruct (FS.Image_open t p) as [img|e]; [|discriminate]. cbn [bind].
    unfold ApiMainn.pixels_to_mm, PyNum.truediv. cbn [Z.eqb DPMM bind].
    intros H. injection H as <-. right. split; [reflexivity | eauto].
  - intros H. injection H as <-. left. split; reflexivity.
Qed.

(** What a conversion of [src/api/mainn.py] that answered with images
    leaves: the shared directory with an entry for each image named. *)
Lemma mainn_outcome
  (m0 m1 c : gmap string FS.node) (tmp uid : string) (file : UploadFile)
  (message : string) (links : list ApiMainn.image_link) (avg : Z * Z) :
  FS.plain tmp = true ->
  tmp <> "gerber_images" ->
  m1 !! tmp = None ->
  PyStr.contains "/" uid = false ->
  ApiMainn.answer
    (ApiMainn.convert_gerber tmp uid file (with_dir m0 m1 "gerber_images" c))
  = ApiMainn.Sent (ApiMainn.Converted message links avg) ->
  exists c2,
    ApiMainn.disk
      (ApiMainn.convert_gerber tmp uid file (with_dir m0 m1 "gerber_images" c))
    = with_dir m0 m1 "gerber_images" c2 /\
    ApiMainn.scheduled
      (ApiMainn.convert_gerber tmp uid file (with_dir m0 m1 "gerber_images" c))
    = true /\
    forall l, In l links ->
      (ApiMainn.link_name l = ApiMainn.top_name uid \/
       ApiMainn.link_name l = ApiMainn.bottom_name uid) /\
      ApiMainn.link_url l = "/api/images/" +:+ ApiMainn.link_name l /\
      is_Some (c2 !! ApiMainn.link_name l).
Proof.
  intros Hp Hne Hfree Hu.
  pose proof (plain_top_name uid Hu) as Pt.
  pose proof (plain_bottom_name uid Hu) as Pb.
  unfold ApiMainn.convert_gerber.
  destruct (PyStr.endswith (filename file) ".zip"); cbn [negb];
    [|discriminate].
  rewrite (mkdtemp_beside m0 m1 tmp Hp Hne Hfree).
  unfold ApiMainn.convert_try.
  destruct (let! zip_file := ZipFile_open (content file) in
            Main.process_gerber_files zip_file) as [[ptop pbot]|e0].
  2:{ rewrite (cleanup_beside m0 m1 tmp Hp Hne Hfree). cbn.
      destruct (isinstance_ValueError e0); discriminate. }
  destruct (render_side_shared m0 (<[tmp := FS.Dir ∅]> m1) c ptop
              (ApiMainn.top_name uid) Pt) as (c1 & Hs1 & _).
  destruct (ApiMain.render_side ptop _ _) as [[u1|e1] t1]; cbn [snd] in Hs1;
    subst t1.
  2:{ rewrite (cleanup_beside m0 m1 tmp Hp Hne Hfree). cbn.
      destruct (isinstance_ValueError e1); discriminate. }
  destruct (render_side_shared m0 (<[tmp := FS.Dir ∅]> m1) c1 pbot
              (ApiMainn.bottom_name uid) Pb) as (c2 & Hs2 & _).
  destruct (ApiMain.render_side pbot _ _) as [[u2|e2] t2]; cbn [snd] in Hs2;
    subst t2.
  2:{ rewrite (cleanup_beside m0 m1 tmp Hp Hne Hfree). cbn.
      destruct (isinstance_ValueError e2); discriminate. }
  rewrite (cleanup_beside m0 m1 tmp Hp Hne Hfree).
  destruct (ApiMainn.measure _ (FS.os_path_join ApiMainn.TEMP_DIR
                                  (ApiMainn.top_name uid)) ([], 0, 0, 0))
    as [[[[links1 tw1] th1] N1]|e3] eqn:E1; cbn [bind].
  2:{ cbn. destruct (isinstance_ValueError e3); discriminate. }
  destruct (ApiMainn.measure _ (FS.os_path_join ApiMainn.TEMP_DIR
                                  (ApiMainn.bottom_name uid)) (links1, tw1, th1, N1))
    as [[[[links2 tw2] th2] N2]|e4] eqn:E2; cbn [bind].
  2:{ cbn. destruct (isinstance_ValueError e4); discriminate. }
  rewrite !average_value. cbn [bind ApiMainn.answer ApiMainn.scheduled ApiMainn.disk].
  intros Hans. injection Hans as _ <- _.
  exists c2. split; [reflexivity|]. split; [reflexivity|].
  assert (Bt : FS.os_path_basename
                 (FS.os_path_join ApiMainn.TEMP_DIR (ApiMainn.top_name uid))
               = ApiMainn.top_name uid)
    by (rewrite TEMP_DIR_path; apply basename_entry; [reflexivity | exact Pt]).
  assert (Bb : FS.os_path_basename
                 (FS.os_path_join ApiMainn.TEMP_DIR (ApiMainn.bottom_name uid))
               = ApiMainn.bottom_name uid)
    by (rewrite TEMP_DIR_path; apply basename_entry; [reflexivity | exact Pb]).
  apply mainn_measure_shape in E1, E2. rewrite Bt in E1. rewrite Bb in E2.
  rewrite exists_shared in E1, E2 by assumption.
  assert (St : match c2 !! ApiMainn.top_name uid with
               | Some _ => true | None => false end = true ->
               is_Some (c2 !! ApiMainn.top_name uid))
    by (destruct (c2 !! ApiMainn.top_name uid); [eauto | discriminate]).
  assert (Sb : match c2 !! ApiMainn.bottom_name uid with
               | Some _ => true | None => false end = true ->
               is_Some (c2 !! ApiMainn.bottom_name uid))
    by (destruct (c2 !! ApiMainn.bottom_name uid); [eauto | discriminate]).
  intros l Hin.
  destruct E1 as [[X1 H1] | [X1 (w1 & h1 & H1)]]; injection H1 as -> _ _ _;
    destruct E2 as [[X2 H2] | [X2 (w2 & h2 & H2)]]; injection H2 as -> _ _ _;
    cbn [app In] in Hin.
  - destruct Hin.
  - destruct Hin as [<- | []]. cbn [ApiMainn.link_name ApiMainn.link_url].
    split; [right; reflexivity|]. split; [reflexivity | exact (Sb X2)].
  - destruct Hin as [<- | []]. cbn [ApiMainn.link_name ApiMainn.link_url].
    split; [left; reflexivity|]. split; [reflexivity | exact (St X1)].
  - destruct Hin as [<- | [<- | []]]; cbn [ApiMainn.link_name ApiMainn.link_url].
    + split; [left; reflexivity|]. split; [reflexivity | exact (St X1)].
    + split; [right; reflexivity|]. split; [reflexivity | exact (Sb X2)].
Qed.

(** X14. Every image named in the response of a conversion of
    [src/api/mainn.py] is one of the two names of that conversion, its
    address is [/api/images/] followed by its name, and
    [GET /api/images/{name}] of the same file serves it once the
    request is over; the handler has scheduled the cleanup. *)
Theorem mainn_converted_images_are_served
  (m0 m1 c : gmap string FS.node) (tmp uid : string) (file : UploadFile)
  (message : string) (links : list ApiMainn.image_link) (avg : Z * Z)
  (l : ApiMainn.image_link) :
  FS.plain tmp = true ->
  tmp <> "gerber_images" ->
  m1 !! tmp = None ->
  PyStr.contains "/" uid = false ->
  ApiMainn.answer
    (ApiMainn.convert_gerber tmp uid file (with_dir m0 m1 "gerber_images" c))
  = ApiMainn.Sent (ApiMainn.Converted message links avg) ->
  In l links ->
  ApiMainn.scheduled
    (ApiMainn.convert_gerber tmp uid file (with_dir m0 m1 "gerber_images" c))
  = true /\
  (ApiMainn.link_name l = ApiMainn.top_name uid \/
   ApiMainn.link_name l = ApiMainn.bottom_name uid) /\
  ApiMainn.link_url l = "/api/images/" +:+ ApiMainn.link_name l /\
  ApiMainn.get_image (ApiMainn.link_name l)
    (ApiMainn.disk
       (ApiMainn.convert_gerber tmp uid file (with_dir m0 m1 "gerber_images" c)))
  = FileResponse (FS.os_path_join ApiMainn.TEMP_DIR (ApiMainn.link_name l))
      "image/png" (ApiMainn.link_name l).
Proof.
  intros Hp Hne Hfree Hu Hans Hin.
  destruct (mainn_outcome m0 m1 c tmp uid file message links avg
              Hp Hne Hfree Hu Hans) as (c2 & -> & Hsch & Hl).
  destruct (Hl l Hin) as (Hname & Hurl & [v Hv]).
  split; [exact Hsch|]. split; [exact Hname|]. split; [exact Hurl|].
  assert (Hplain : FS.plain (ApiMainn.link_name l) = true).
  { destruct Hname as [-> | ->];
      [apply plain_top_name | apply plain_bottom_name]; exact Hu. }
  unfold ApiMainn.get_image. rewrite exists_shared by exact Hplain.
  rewrite Hv. reflexivity.
Qed.

Lemma endswith_png_names (uid : string) :
  PyStr.endswith (ApiMainn.top_name uid) ".png" = true /\
  PyStr.endswith (ApiMainn.bottom_name uid) ".png" = true.
Proof.
  split; apply endswith_spec.
  - exists ("output_top_" +:+ uid). reflexivity.
  - exists ("output_bottom_" +:+ uid). reflexivity.
Qed.

(** X15. After a conversion of [src/api/mainn.py] has answered with
    images, [GET /api/list-images] lists each of them, under the name and
    the address the conversion gave. *)
Theorem mainn_listing_has_converted_images
  (m0 m1 c : gmap string FS.node) (tmp uid : string) (file : UploadFile)
  (message : string) (links : list ApiMainn.image_link) (avg : Z * Z)
  (l : ApiMainn.image_link) :
  FS.plain tmp = true ->
  tmp <> "gerber_images" ->
  m1 !! tmp = None ->
  PyStr.contains "/" uid = false ->
  ApiMainn.answer
    (ApiMainn.convert_gerber tmp uid file (with_dir m0 m1 "gerber_images" c))
  = ApiMainn.Sent (ApiMainn.Converted message links avg) ->
  In l links ->
  exists listing,
    ApiMainn.answer
      (ApiMainn.list_images
         (ApiMainn.disk
            (ApiMainn.convert_gerber tmp uid file
               (with_dir m0 m1 "gerber_images" c))))
    = ApiMainn.Sent (ApiMainn.Listing listing) /\
    In (ApiMainn.link_name l, ApiMainn.link_url l) listing.
Proof.
  intros Hp Hne Hfree Hu Hans Hin.
  destruct (mainn_outcome m0 m1 c tmp uid file message links avg
              Hp Hne Hfree Hu Hans) as (c2 & -> & _ & Hl).
  destruct (Hl l Hin) as (Hname & Hurl & [v Hv]).
  unfold ApiMainn.list_images.
  change (FS.os_listdir (with_dir m0 m1 "gerber_images" c2) ApiMainn.TEMP_DIR)
    with (FS.os_listdir (with_dir m0 m1 "gerber_images" c2)
            (tmp_path "gerber_images")).
  rewrite listdir_dir by reflexivity. cbn [ApiMainn.answer].
  eexists. split; [reflexivity|].
  apply in_map_iff. exists (ApiMainn.link_name l). split.
  - rewrite Hurl. reflexivity.
  - apply filter_In. split.
    + apply in_map_iff. exists (ApiMainn.link_name l, v). split; [reflexivity|].
      apply list_elem_of_In, elem_of_map_to_list. exact Hv.
    + destruct (endswith_png_names uid) as [Et Eb].
      destruct Hname as [-> | ->]; assumption.
Qed.

End SharedHandlers.

Section Sweep.
Variables (current_time : Q) (st_mtime : string -> Q).
Variables (m0 m1 : gmap string FS.node).

Lemma lt_spec (x y : Q) : PyNum.lt x y = true <-> (x < y)%Q.
Proof.
  unfold PyNum.lt. rewrite Qlt_alt. destruct (x ?= y)%Q; split; congruence.
Qed.

Lemma swept_twice (n : string) (o : option FS.node) :
  (o ≫= swept_entry current_time st_mtime n) ≫= swept_entry current_time st_mtime n
  = o ≫= swept_entry current_time st_mtime n.
Proof.
  destruct o as [[r|m]|]; cbn; [|reflexivity|reflexivity].
  destruct (PyNum.lt _ _) eqn:E; cbn; [reflexivity|]. rewrite E. reflexivity.
Qed.

Lemma cleanup_step_shared (c : gmap string FS.node) (n : string) :
  FS.plain n = true ->
  exists c1,
    ApiMainn.cleanup_step current_time st_mtime
      (with_dir m0 m1 "gerber_images" c) n
    = Return (with_dir m0 m1 "gerber_images" c1) /\
    c1 !! n = c !! n ≫= swept_entry current_time st_mtime n /\
    (forall k, k <> n -> c1 !! k = c !! k).
Proof.
  intros Hn. unfold ApiMainn.cleanup_step.
  rewrite isfile_shared by exact Hn.
  destruct (c !! n) as [[r|m]|] eqn:Hc; cbn.
  - destruct (PyNum.lt _ _) eqn:E.
    + rewrite (remove_shared m0 m1 c n r Hn Hc).
      exists (delete n c). split; [reflexivity|]. split.
      * apply lookup_delete_eq.
      * intros k Hk. apply lookup_delete_ne. congruence.
    + exists c. split; [reflexivity|]. split; [exact Hc | reflexivity].
  - exists c. split; [reflexivity|]. split; [exact Hc | reflexivity].
  - exists c. split; [reflexivity|]. split; [exact Hc | reflexivity].
Qed.

Lemma cleanup_loop_shared (l : list string) :
  forall c0 : gmap string FS.node,
    (forall n, In n l -> FS.plain n = true) ->
    exists c1,
      ApiMainn.cleanup_loop current_time st_mtime
        (with_dir m0 m1 "gerber_images" c0) l
      = Return (with_dir m0 m1 "gerber_images" c1) /\
      (forall k, In k l ->
         c1 !! k = c0 !! k ≫= swept_entry current_time st_mtime k) /\
      (forall k, ~ In k l -> c1 !! k = c0 !! k).
Proof.
  induction l as [|x l IH]; intros c0 Hl.
  - exists c0. split; [reflexivity|]. split; [intros k []| reflexivity].
  - cbn [ApiMainn.cleanup_loop].
    destruct (cleanup_step_shared c0 x (Hl x (or_introl eq_refl)))
      as (c0' & -> & Hx & Hother).
    cbn [bind].
    destruct (IH c0' (fun n Hn => Hl n (or_intror Hn))) as (c1 & -> & Hin & Hout).
    exists c1. split; [reflexivity|]. split.
    + intros k Hk. destruct (string_dec k x) as [->|Hkx].
      * destruct (in_dec string_dec x l) as [Hxl|Hxl].
        -- rewrite (Hin x Hxl), Hx. apply swept_twice.
        -- rewrite (Hout x Hxl). exact Hx.
      * destruct Hk as [Hk|Hk]; [congruence|].
        rewrite (Hin k Hk), (Hother k Hkx). reflexivity.
    + intros k Hk. rewrite Hout by (intros H; apply Hk; right; exact H).
      apply Hother. intros ->. apply Hk. left. reflexivity.
Qed.

(** X13. [cleanup_old_files] removes from the shared directory exactly
    the regular files whose modification time is more than 3600 seconds
    before the current time: such a file is gone afterwards, a file not
    that old is kept as it is, a directory is kept whatever its age, and
    nothing appears. It does not raise. *)
Theorem cleanup_old_files_removes_expired_files (c : gmap string FS.node) :
  (forall n, is_Some (c !! n) -> FS.plain n = true) ->
  exists c',
    ApiMainn.cleanup_old_files current_time st_mtime
      (with_dir m0 m1 "gerber_images" c)
    = Return (with_dir m0 m1 "gerber_images" c') /\
    (forall n r, c !! n = Some (FS.File r) ->
       (st_mtime (FS.os_path_join ApiMainn.TEMP_DIR n) < current_time - 3600)%Q ->
       c' !! n = None) /\
    (forall n r, c !! n = Some (FS.File r) ->
       (current_time - 3600 <= st_mtime (FS.os_path_join ApiMainn.TEMP_DIR n))%Q ->
       c' !! n = Some (FS.File r)) /\
    (forall n m, c !! n = Some (FS.Dir m) -> c' !! n = Some (FS.Dir m)) /\
    (forall n, c !! n = None -> c' !! n = None).
Proof.
  intros Hplain. unfold ApiMainn.cleanup_old_files.
  change (FS.os_listdir (with_dir m0 m1 "gerber_images" c) ApiMainn.TEMP_DIR)
    with (FS.os_listdir (with_dir m0 m1 "gerber_images" c)
            (tmp_path "gerber_images")).
  rewrite listdir_dir by reflexivity. cbn [bind].
  assert (Hkeys : forall n, In n (map fst (map_to_list c)) <-> is_Some (c !! n)).
  { intros n. rewrite in_map_iff. split.
    - intros [[k v] [Hk Hin]]. cbn [fst] in Hk. subst k.
      apply list_elem_of_In, elem_of_map_to_list in Hin. eauto.
    - intros [v Hv]. exists (n, v). split; [reflexivity|].
      apply list_elem_of_In, elem_of_map_to_list. exact Hv. }
  destruct (cleanup_loop_shared (map fst (map_to_list c)) c
              (fun n Hn => Hplain n (proj1 (Hkeys n) Hn)))
    as (c' & -> & Hin & Hout).
  exists c'. split; [reflexivity|].
  assert (Hall : forall n, c' !! n = c !! n ≫= swept_entry current_time st_mtime n).
  { intros n. destruct (c !! n) as [v|] eqn:Hc.
    - rewrite (Hin n (proj2 (Hkeys n) (ex_intro _ v Hc))), Hc. reflexivity.
    - rewrite Hout, Hc; [reflexivity|].
      intros H. apply Hkeys in H. rewrite Hc in H. destruct H. discriminate. }
  split; [|split; [|split]].
  - intros n r Hc Hold. rewrite Hall, Hc. cbn.
    apply lt_spec in Hold. rewrite Hold. reflexivity.
  - intros n r Hc Hyoung. rewrite Hall, Hc. cbn.
    destruct (PyNum.lt _ _) eqn:E; [|reflexivity].
    apply lt_spec in E. exfalso. exact (Qlt_not_le _ _ E Hyoung).
  - intros n m Hc. rewrite Hall, Hc. reflexivity.
  - intros n Hc. rewrite Hall, Hc. reflexivity.
Qed.

End Sweep.

End SharedDirectory.

(** ** The listing of the variants that answer with names *)

(** X16. Where [GET /list-images/] of [src/main.py] answers with images,
    the listing of [src/api.py] and [src/apii.py] answers, on the same
    state, with the names of these images in the same order. *)
Theorem api_listing_agrees_with_main
  (st : Main.state) (message : option string) (images : list image_entry)
  (avg : option (Z * Z)) :
  Main.list_images st = JSONResponse message images avg ->
  Api.list_images st = Api.JSONResponse message (map name images).
Proof.
  unfold Api.list_images. intros H.
  destruct (Main.truthy (Main.OUTPUT_DIR st)) as [d|] eqn:Hd.
  - destruct (FS.os_listdir (Main.fs st) d) as [names|e] eqn:Hl.
    + destruct (list_images_lists_png_entries_aux st d names message images avg
                  Hd Hl H) as [-> ->]. reflexivity.
    + unfold Main.list_images in H. rewrite Hd, Hl in H. discriminate.
  - unfold Main.list_images in H. rewrite Hd in H. injection H as <- <- _.
    reflexivity.
Qed.

(** ** The statements of this part at concrete inputs *)

Lemma list_images_agrees_with_conversion_demo :
  exists images',
    Main.list_images
      (snd (Main.convert_gerber (ext := Demo.ext) "tmpA"
              (Demo.upload "board.zip" "PKTopLayer.gbr,BottomLayer.gbr")
              Demo.boot))
    = JSONResponse None images' (Some (1, 5)) /\
    Permutation images'
      [{| name := "output_top.png"; width := 1; height := 5 |};
       {| name := "output_bottom.png"; width := 1; height := 5 |}].
Proof.
  eapply (list_images_agrees_with_conversion (ext := Demo.ext) "tmpA"
            (Demo.upload "board.zip" "PKTopLayer.gbr,BottomLayer.gbr")
            Demo.boot "/tmp/tmpA" _
            (Some "Gerber files processed successfully")).
  - reflexivity.
  - reflexivity.
  - vm_compute. reflexivity.
  - vm_compute. reflexivity.
Defined.

Lemma converted_images_are_served_demo :
  exists img,
    Main.get_image "output_top.png"
      (snd (Main.convert_gerber (ext := Demo.ext) "tmpA"
              (Demo.upload "board.zip" "PKTopLayer.gbr,BottomLayer.gbr")
              Demo.boot))
    = FileResponse "/tmp/tmpA/output_top.png" "image/png" "output_top.png" /\
    FS.Image_open
      (Main.fs
         (snd (Main.convert_gerber (ext := Demo.ext) "tmpA"
                 (Demo.upload "board.zip" "PKTopLayer.gbr,BottomLayer.gbr")
                 Demo.boot)))
      "/tmp/tmpA/output_top.png" = Return img /\
    Main.pixels_to_mm (FS.width_px img) = Return 1 /\
    Main.pixels_to_mm (FS.height_px img) = Return 5.
Proof.
  eapply (converted_images_are_served (ext := Demo.ext) "tmpA"
            (Demo.upload "board.zip" "PKTopLayer.gbr,BottomLayer.gbr")
            Demo.boot "/tmp/tmpA" _
            (Some "Gerber files processed successfully")
            [{| name := "output_top.png"; width := 1; height := 5 |};
             {| name := "output_bottom.png"; width := 1; height := 5 |}]
            (Some (1, 5))
            {| name := "output_top.png"; width := 1; height := 5 |}).
  - reflexivity.
  - reflexivity.
  - vm_compute. reflexivity.
  - vm_compute. reflexivity.
  - left. reflexivity.
Defined.

Lemma conversion_keeps_existing_entries_demo :
  FS.lookup
    (Main.fs
       (snd (Main.convert_gerber (ext := Demo.ext) "tmpB"
               (Demo.upload "second.zip" "PKBottomLayer.gbr")
               (snd (Main.convert_gerber (ext := Demo.ext) "tmpA"
                       (Demo.upload "first.zip" "PKTopLayer.gbr") Demo.boot)))))
    ["tmp"; "tmpA"; "output_top.png"]
  = Some (FS.File (Some (FS.Image 40 200))).
Proof.
  apply (proj1 (conversion_keeps_existing_entries (ext := Demo.ext) "tmpB"
                  (Demo.upload "second.zip" "PKBottomLayer.gbr")
                  (snd (Main.convert_gerber (ext := Demo.ext) "tmpA"
                          (Demo.upload "first.zip" "PKTopLayer.gbr") Demo.boot))
                  ["tmp"; "tmpA"; "output_top.png"] eq_refl)).
  vm_compute. reflexivity.
Defined.

Lemma cleanup_undoes_last_conversion_demo :
  Main.fs
    (Main.cleanup
       (snd (Main.convert_gerber (ext := Demo.ext) "tmpA"
               (Demo.upload "board.zip" "PKTopLayer.gbr") Demo.boot)))
  = Main.fs Demo.boot.
Proof.
  edestruct (cleanup_undoes_last_conversion (ext := Demo.ext) "tmpA"
               (Demo.upload "board.zip" "PKTopLayer.gbr") Demo.boot
               "/tmp/tmpA") as [H _].
  - reflexivity.
  - reflexivity.
  - vm_compute. reflexivity.
  - exact H.
Defined.

Lemma list_images_lists_png_entries_demo :
  map name
    [{| name := "output_bottom.png"; width := 1; height := 5 |};
     {| name := "output_top.png"; width := 1; height := 5 |}]
  = ["output_bottom.png"; "output_top.png"].
Proof.
  edestruct (list_images_lists_png_entries
               (snd (Main.convert_gerber (ext := Demo.ext) "tmpA"
                       (Demo.upload "board.zip" "PKTopLayer.gbr,BottomLayer.gbr")
                       Demo.boot))
               "/tmp/tmpA" ["output_bottom.png"; "output_top.png"] None
               [{| name := "output_bottom.png"; width := 1; height := 5 |};
                {| name := "output_top.png"; width := 1; height := 5 |}]
               (Some (1, 5))) as [H _].
  - reflexivity.
  - vm_compute. reflexivity.
  - vm_compute. reflexivity.
  - exact H.
Defined.

Lemma process_gerber_files_failures_demo :
  ((forall n, In n ["TopLayer.gbr"; "Bottom.gbr"] -> ~ ends_with n ".gbr") /\
   BadZipFile "Bad CRC-32" = ValueError "No valid Gerber files found in the ZIP file") \/
  (exists n,
     ends_with n ".gbr" /\
     In (n, Raise (BadZipFile "Bad CRC-32"))
        [("TopLayer.gbr", Return (Demo.raw "TopLayer.gbr"));
         ("Bottom.gbr", Raise (BadZipFile "Bad CRC-32"))]) \/
  (exists n b,
     ends_with n ".gbr" /\
     In (n, Return b)
        [("TopLayer.gbr", Return (Demo.raw "TopLayer.gbr"));
         ("Bottom.gbr", Raise (BadZipFile "Bad CRC-32"))] /\
     Demo.decode b = Raise (BadZipFile "Bad CRC-32")).
Proof.
  apply (process_gerber_files_failures (ext := Demo.ext)
           {| Zip.entries :=
                [("TopLayer.gbr", Return (Demo.raw "TopLayer.gbr"));
                 ("Bottom.gbr", Raise (BadZipFile "Bad CRC-32"))] |}
           (BadZipFile "Bad CRC-32")).
  reflexivity.
Defined.

Lemma process_gerber_files_sources_demo :
  Forall2
    (fun n s =>
       exists b,
         In (n, Return b)
            [("TopLayer.gbr", Return (Demo.raw "TopLayer.gbr"));
             ("BottomLayer.gbr", Return (Demo.raw "BottomLayer.gbr"))] /\
         Demo.decode b = Return s)
    ["TopLayer.gbr"] ["TopLayer.gbr"].
Proof.
  destruct (process_gerber_files_sources (ext := Demo.ext)
              {| Zip.entries :=
                   [("TopLayer.gbr", Return (Demo.raw "TopLayer.gbr"));
                    ("BottomLayer.gbr", Return (Demo.raw "BottomLayer.gbr"))] |}
              (Some ["TopLayer.gbr"]) (Some ["BottomLayer.gbr"]) eq_refl)
    as [[_ H] _].
  exact H.
Defined.


Lemma api_main_leaves_no_trace_demo :
  snd (ApiMain.convert_gerber (ext := Demo.ext) "tmpA"
         (Demo.upload "board.zip" "PKTopLayer.gbr,BottomLayer.gbr")
         (Main.fs Demo.boot))
  = Main.fs Demo.boot.
Proof.
  apply (api_main_leaves_no_trace (ext := Demo.ext) "tmpA"
           (Demo.upload "board.zip" "PKTopLayer.gbr,BottomLayer.gbr")
           (Main.fs Demo.boot)).
  reflexivity.
Defined.


Lemma mainn_conversion_keeps_other_entries_demo :
  exists c',
    ApiMainn.disk
      (ApiMainn.convert_gerber (ext := Demo.ext) "tmpA" "u1"
         (Demo.upload "board.zip" "PKTopLayer.gbr") DemoShared.disk)
    = with_dir ∅ ∅ "gerber_images" c' /\
    c' !! "output_top_old.png" = Some (FS.File (Some (FS.Image 40 40))).
Proof.
  destruct (mainn_conversion_keeps_other_entries (ext := Demo.ext)
              ∅ ∅ DemoShared.entries "tmpA" "u1"
              (Demo.upload "board.zip" "PKTopLayer.gbr"))
    as (c' & Hd & Hk & _).
  - reflexivity.
  - discriminate.
  - reflexivity.
  - reflexivity.
  - exists c'. split; [exact Hd|].
    rewrite (Hk "output_top_old.png"); [reflexivity | discriminate | discriminate].
Defined.

Lemma cleanup_old_files_removes_expired_files_demo :
  exists c',
    ApiMainn.cleanup_old_files 5000 DemoShared.mtime DemoShared.disk
    = Return (with_dir ∅ ∅ "gerber_images" c') /\
    c' !! "output_top_old.png" = None /\
    c' !! "notes" = Some (FS.Dir ∅).
Proof.
  destruct (cleanup_old_files_removes_expired_files 5000 DemoShared.mtime
              ∅ ∅ DemoShared.entries)
    as (c' & Hc & Hold & _ & Hdir & _).
  - intros n [v Hv]. unfold DemoShared.entries in Hv.
    destruct (decide (n = "output_top_old.png")) as [->|H1]; [reflexivity|].
    destruct (decide (n = "notes")) as [->|H2]; [reflexivity|].
    rewrite !lookup_insert_ne in Hv by congruence.
    rewrite lookup_empty in Hv. discriminate.
  - exists c'. split; [exact Hc|]. split.
    + apply (Hold _ (Some (FS.Image 40 40))); reflexivity.
    + apply Hdir. reflexivity.
Defined.

Lemma mainn_converted_images_are_served_demo :
  ApiMainn.get_image "output_top_u1.png"
    (ApiMainn.disk
       (ApiMainn.convert_gerber (ext := Demo.ext) "tmpA" "u1"
          (Demo.upload "board.zip" "PKTopLayer.gbr") DemoShared.disk))
  = FileResponse "/tmp/gerber_images/output_top_u1.png" "image/png"
      "output_top_u1.png".
Proof.
  edestruct (mainn_converted_images_are_served (ext := Demo.ext)
               ∅ ∅ DemoShared.entries "tmpA" "u1"
               (Demo.upload "board.zip" "PKTopLayer.gbr")
               "Gerber files processed successfully"
               [{| ApiMainn.link_name := "output_top_u1.png";
                   ApiMainn.link_width := 1; ApiMainn.link_height := 5;
                   ApiMainn.link_url := "/api/images/output_top_u1.png" |}]
               (1, 5)
               {| ApiMainn.link_name := "output_top_u1.png";
                  ApiMainn.link_width := 1; ApiMainn.link_height := 5;
                  ApiMainn.link_url := "/api/images/output_top_u1.png" |})
    as (_ & _ & _ & H).
  - reflexivity.
  - discriminate.
  - reflexivity.
  - reflexivity.
  - vm_compute. reflexivity.
  - left. reflexivity.
  - exact H.
Defined.

Lemma mainn_listing_has_converted_images_demo :
  exists listing,
    ApiMainn.answer
      (ApiMainn.list_images
         (ApiMainn.disk
            (ApiMainn.convert_gerber (ext := Demo.ext) "tmpA" "u1"
               (Demo.upload "board.zip" "PKTopLayer.gbr") DemoShared.disk)))
    = ApiMainn.Sent (ApiMainn.Listing listing) /\
    In ("output_top_u1.png", "/api/images/output_top_u1.png") listing.
Proof.
  apply (mainn_listing_has_converted_images (ext := Demo.ext)
           ∅ ∅ DemoShared.entries "tmpA" "u1"
           (Demo.upload "board.zip" "PKTopLayer.gbr")
           "Gerber files processed successfully"
           [{| ApiMainn.link_name := "output_top_u1.png";
               ApiMainn.link_width := 1; ApiMainn.link_height := 5;
               ApiMainn.link_url := "/api/images/output_top_u1.png" |}]
           (1, 5)
           {| ApiMainn.link_name := "output_top_u1.png";
              ApiMainn.link_width := 1; ApiMainn.link_height := 5;
              ApiMainn.link_url := "/api/images/output_top_u1.png" |}).
  - reflexivity.
  - discriminate.
  - reflexivity.
  - reflexivity.
  - vm_compute. reflexivity.
  - left. reflexivity.
Defined.

Lemma api_listing_agrees_with_main_demo :
  Api.list_images
    (snd (Main.convert_gerber (ext := Demo.ext) "tmpA"
            (Demo.upload "board.zip" "PKTopLayer.gbr") Demo.boot))
  = Api.JSONResponse None ["output_top.png"].
Proof.
  apply (api_listing_agrees_with_main
           (snd (Main.convert_gerber (ext := Demo.ext) "tmpA"
                   (Demo.upload "board.zip" "PKTopLayer.gbr") Demo.boot))
           None [{| name := "output_top.png"; width := 1; height := 5 |}]
           (Some (1, 5))).
  vm_compute. reflexivity.
Defined.
